(** * ComfyUI model downloader: manifest merge and download engine

    A shallow embedding of [download_models.py] (module [Full]) and
    [download_models_portable.py] (module [Portable]).

    Python values coming out of [json.load] are kept dynamically typed
    ([value]); attribute errors and type errors of the interpreter are
    exceptions of the embedding.  Strings are byte strings.  Library
    functions ([str.lower], [hashlib], [urlparse], [pathlib]) and the
    behaviour of network and subprocesses are fields of a [platform]; the
    file system is a map from paths to files and directories, and every
    interaction with it or with a transport is recorded in a trace.
    Console output is not modelled, nor are the reads that load a
    manifest. *)

From Stdlib Require Import ZArith Ascii String.
From stdpp Require Import gmap strings list fin_maps.

Set Warnings "-register-all".

(** ** Python values *)

(** The result of [json.load]: [null], booleans, numbers (integers only;
    a float behaves like an integer for every operation the program
    applies to a field), strings, arrays and objects. *)
Inductive value : Type :=
| VNone
| VBool (b : bool)
| VInt (n : Z)
| VStr (s : string)
| VList (l : list value)
| VDict (d : gmap string value).

(** [bool(v)], as used by [if v:] and [if not v:]. *)
Definition truthy (v : value) : bool :=
  match v with
  | VNone => false
  | VBool b => b
  | VInt n => negb (n =? 0)%Z
  | VStr s => negb (String.eqb s "")
  | VList l => match l with [] => false | _ => true end
  | VDict d => negb (bool_decide (size d = 0))
  end.

Inductive exn : Type :=
| AttributeError
| TypeError
| FileNotFoundError
| IsADirectoryError
| ValueError
| RequestException
| CalledProcessError.

Inductive result (A : Type) : Type :=
| Ok (a : A)
| Raise (e : exn).
Arguments Ok {A} a.
Arguments Raise {A} e.

(** [obj.get(k, dflt)]; only a dict has the method. *)
Definition py_get (obj : value) (k : string) (dflt : value) : result value :=
  match obj with
  | VDict d => Ok (default dflt (d !! k))
  | _ => Raise AttributeError
  end.

(** The elements a [for x in v] loop visits: the items of a list, the
    characters of a string, the keys of a dict (in the order of the
    map). *)
Definition py_iter (v : value) : result (list value) :=
  match v with
  | VList l => Ok l
  | VStr s => Ok ((fun c => VStr (String c EmptyString)) <$> list_ascii_of_string s)
  | VDict d => Ok (VStr <$> (map_to_list d).*1)
  | _ => Raise TypeError
  end.

(** [s == v] for a string [s]: only an equal string compares equal. *)
Definition py_eq_str (s : string) (v : value) : bool :=
  match v with
  | VStr s' => String.eqb s s'
  | _ => false
  end.

(** [v in strs] for a list of strings. *)
Definition py_in_strs (v : value) (strs : list string) : bool :=
  existsb (fun s => py_eq_str s v) strs.

(** [s.replace(a, b)] for one-character [a] and [b]. *)
Fixpoint replace_char (a b : ascii) (s : string) : string :=
  match s with
  | EmptyString => EmptyString
  | String c rest =>
      String (if Ascii.eqb c a then b else c) (replace_char a b rest)
  end.

(** ** State and exception monad

    A computation over a mutable store [S] either returns or raises; what
    it did to the store before raising stays done. *)
Definition Py (S A : Type) : Type := S -> S * result A.

Definition ret {S A} (a : A) : Py S A := fun s => (s, Ok a).
Definition raise {S A} (e : exn) : Py S A := fun s => (s, Raise e).
Definition bind {S A B} (m : Py S A) (k : A -> Py S B) : Py S B :=
  fun s => match m s with
           | (s', Ok a) => k a s'
           | (s', Raise e) => (s', Raise e)
           end.
Definition lift {S A} (r : result A) : Py S A := fun s => (s, r).
Definition gets {S A} (f : S -> A) : Py S A := fun s => (s, Ok (f s)).
Definition modify {S} (f : S -> S) : Py S unit := fun s => (f s, Ok tt).

(** [try: m except Exception: h] *)
Definition try_except {S A} (m : Py S A) (h : exn -> Py S A) : Py S A :=
  fun s => match m s with
           | (s', Ok a) => (s', Ok a)
           | (s', Raise e) => h e s'
           end.

(** Run a computation on a component of the store. *)
Definition zoom {S T A} (proj : S -> T) (upd : T -> S -> S) (m : Py T A) : Py S A :=
  fun s => let (t', r) := m (proj s) in (upd t' s, r).

Declare Scope py_scope.
Delimit Scope py_scope with py.
Notation "x <- m ;; k" := (bind m (fun x => k))
  (at level 100, m at next level, right associativity) : py_scope.
Notation "m ;;; k" := (bind m (fun _ => k))
  (at level 100, right associativity) : py_scope.
Local Open Scope py_scope.

(** [for x in xs: acc = body(acc, x)] *)
Fixpoint for_each {S A B} (body : B -> A -> Py S B) (xs : list A) (acc : B) : Py S B :=
  match xs with
  | [] => ret acc
  | x :: rest => acc' <- body acc x ;; for_each body rest acc'
  end.

(** ** Manifest merge engine *)

(** One deduplicated plan: the entries kept so far and the map from
    lowercased key to the source that first declared it
    ([self.models] with [self.seen_models], or [self.custom_nodes] with
    [self.seen_nodes]). *)
Definition plan_state : Type := list value * gmap string string.

Section Merge.
(** [str.lower], a method of the interpreter. *)
Variable lower : string -> string.

Definition py_lower (v : value) : result string :=
  match v with
  | VStr s => Ok (lower s)
  | _ => Raise AttributeError
  end.

(** The body of the two loops of [add_manifest]; [field] is ["url"] for
    models and ["repo"] for custom nodes, the counters are
    (added, skipped). *)
Definition add_entry (field source : string) (counts : nat * nat) (entry : value)
  : Py plan_state (nat * nat) :=
  let '(added, skipped) := counts in
  url <- lift (py_get entry field VNone) ;;
  if negb (truthy url) then ret (added, skipped)
  else
    key <- lift (py_lower url) ;;
    seen <- gets snd ;;
    if bool_decide (is_Some (seen !! key)) then ret (added, S skipped)
    else
      modify (fun st : plan_state => (st.1 ++ [entry], <[key := source]> st.2)) ;;;
      ret (S added, skipped).

(** [for entry in manifest.get(list_name, []): ...] *)
Definition add_entries (list_name field : string) (manifest : value) (source : string)
  : Py plan_state (nat * nat) :=
  v <- lift (py_get manifest list_name (VList [])) ;;
  entries <- lift (py_iter v) ;;
  for_each (add_entry field source) entries (0, 0).
End Merge.

(** ** The merge algorithm as the specification words it *)

Section MergeSpec.
Variable lower : string -> string.

(** The uniqueness key of an entry: its [url] (or [repo]), case-folded;
    an entry without one has no key. *)
Definition uniqueness_key (field : string) (entry : value) : option string :=
  match entry with
  | VDict d =>
      match d !! field with
      | Some (VStr s) => if String.eqb s "" then None else Some (lower s)
      | _ => None
      end
  | _ => None
  end.

(** One entry of a source: dropped without a key, counted as a duplicate
    when its key is in the seen-map, else appended to the plan and
    registered to the source.  The counters are (added, skipped). *)
Definition merge_entry (field source : string)
    (acc : plan_state * (nat * nat)) (entry : value) : plan_state * (nat * nat) :=
  let '((plan, seen), (added, skipped)) := acc in
  match uniqueness_key field entry with
  | None => acc
  | Some key =>
      match seen !! key with
      | Some _ => ((plan, seen), (added, S skipped))
      | None => ((plan ++ [entry], <[key := source]> seen), (S added, skipped))
      end
  end.

Definition merge_entries (field source : string) (entries : list value)
    (ps : plan_state) : plan_state * (nat * nat) :=
  fold_left (merge_entry field source) entries (ps, (0, 0)).
End MergeSpec.

(** An entry the merge can key: a JSON object whose [field] is a string,
    or absent, [null] or otherwise false. *)
Definition wf_entry (field : string) (entry : value) : bool :=
  match entry with
  | VDict d =>
      match default VNone (d !! field) with
      | VStr _ => true
      | v => negb (truthy v)
      end
  | _ => false
  end.

(** The entries a manifest document lists under [list_name]. *)
Definition entries_of (list_name : string) (manifest : value) : list value :=
  match manifest with
  | VDict d =>
      match d !! list_name with
      | Some (VList l) => l
      | _ => []
      end
  | _ => []
  end.

(** A manifest document of the documented shape: a JSON object whose
    [list_name], when present, is an array of keyable entries.  A source
    that did not load ([None]) is the document without entries. *)
Definition wf_section (list_name field : string) (manifest : value) : bool :=
  match manifest with
  | VNone => true
  | VDict d =>
      match d !! list_name with
      | None => true
      | Some (VList l) => forallb (wf_entry field) l
      | Some _ => false
      end
  | _ => false
  end.

(** ** The host: file system, network and subprocesses *)

Inductive fsnode : Type :=
| File (data : list Byte.byte)
| Dir.

(** Every interaction with the outside, in program order. *)
Inductive event : Type :=
| EvMkdir (p : string)
| EvExists (p : string)
| EvRead (p : string)
| EvOpenWrite (p : string)
| EvUnlink (p : string)
| EvRequestsGet (url : value)
| EvCurl (url : value) (dest : string)
| EvGitClone (repo : value) (dest : string).

Definition is_transport (ev : event) : bool :=
  match ev with
  | EvRequestsGet _ | EvCurl _ _ | EvGitClone _ _ => true
  | _ => false
  end.

(** Paths are strings; directories created by [mkdir(parents=True,
    exist_ok=True)] are not tracked, the call is assumed to succeed. *)
Record world : Type := World {
  fs : gmap string fsnode;
  trace : list event;
}.

(** What [requests.get(url, stream=True)] followed by
    [raise_for_status()] and the chunk loop will do: fail before the
    destination is opened, or deliver chunks and then either finish or
    break off. *)
Inductive response : Type :=
| RespError
| RespBody (chunks : list (list Byte.byte)) (interrupted : bool).

(** Library functions and the behaviour of the outside world, given the
    history of the run so far.  Theorems hold for every platform. *)
Record platform : Type := Platform {
  (** [str.lower] *)
  str_lower : string -> string;
  (** [hashlib.sha256(data).hexdigest()] *)
  sha256_hex : list Byte.byte -> string;
  (** [os.path.basename(urlparse(url).path)]; [None] when [urlparse]
      rejects the string with a [ValueError] *)
  url_basename : string -> option string;
  (** [Path(a) / b] *)
  path_join : string -> string -> string;
  (** [p.parent] *)
  path_parent : string -> string;
  COMFYUI_PATH : string;
  (** [shutil.which('curl') is not None] *)
  has_curl : bool;
  HAS_REQUESTS : bool;
  (** [json.load(open(source))] *)
  read_json : string -> result value;
  (** [requests.get(source, timeout=30)], [raise_for_status()], [.json()] *)
  requests_json : string -> result value;
  (** [json.loads] of the output of [curl -sS -L --max-time 30 source] *)
  curl_json : string -> result value;
  requests_get : list event -> value -> response;
  (** [curl -L -o dest -C - url] on a destination that is absent or a file
      with the given bytes: exit status zero or not, and the bytes of the
      destination file afterwards, if there is one *)
  curl_run : list event -> value -> string -> option (list Byte.byte)
             -> bool * option (list Byte.byte);
  (** exit status zero or not, and whether the directory was created *)
  git_clone : list event -> value -> string -> bool * bool;
}.

Definition log (ev : event) : Py world unit :=
  modify (fun w => World (fs w) (trace w ++ [ev])).

Definition set_node (p : string) (n : option fsnode) : Py world unit :=
  modify (fun w => World (match n with
                          | Some x => <[p := x]> (fs w)
                          | None => delete p (fs w)
                          end) (trace w)).

(** [p.parent.mkdir(parents=True, exist_ok=True)].  The file system of
    the model has no directory structure: the call is recorded, the
    directories it creates are not, and it does not fail.  This is what
    the call does when the directory is already there, the case
    [parent_exists] below describes. *)
Definition mkdir_parents (p : string) : Py world unit := log (EvMkdir p).

(** [p.exists()] *)
Definition path_exists (p : string) : Py world bool :=
  log (EvExists p) ;;;
  gets (fun w => bool_decide (is_Some (fs w !! p))).

(** [open(p, "rb")] and reading to the end. *)
Definition read_file (p : string) : Py world (list Byte.byte) :=
  log (EvRead p) ;;;
  n <- gets (fun w => fs w !! p) ;;
  match n with
  | Some (File data) => ret data
  | Some Dir => raise IsADirectoryError
  | None => raise FileNotFoundError
  end.

(** [p.unlink()] *)
Definition unlink (p : string) : Py world unit :=
  log (EvUnlink p) ;;;
  n <- gets (fun w => fs w !! p) ;;
  match n with
  | Some (File _) => set_node p None
  | Some Dir => raise IsADirectoryError
  | None => raise FileNotFoundError
  end.

(** [open(p, 'wb')]: creates or truncates. *)
Definition open_write (p : string) : Py world unit :=
  log (EvOpenWrite p) ;;;
  n <- gets (fun w => fs w !! p) ;;
  match n with
  | Some Dir => raise IsADirectoryError
  | _ => set_node p (Some (File []))
  end.

(** [f.write(chunk)] on a file opened by [open_write]. *)
Definition write_chunk (p : string) (chunk : list Byte.byte) : Py world unit :=
  modify (fun w => World (alter (fun n => match n with
                                          | File data => File (data ++ chunk)
                                          | Dir => Dir
                                          end) p (fs w)) (trace w)).

(** ** Integrity verifier and plan runner (the same in both programs) *)

(** The blocks [iter(lambda: f.read(n), b"")] yields for a file holding
    [data]; one unit of fuel per block. *)
Fixpoint read_blocks (fuel n : nat) (data : list Byte.byte) : list (list Byte.byte) :=
  match fuel with
  | 0 => []
  | S fuel' =>
      match take n data with
      | [] => []
      | block => block :: read_blocks fuel' n (drop n data)
      end
  end.

Section Runner.
Context (P : platform).

(** [hashlib]'s accumulator is the bytes fed to it so far: a call of
    [update(a)] followed by [update(b)] is a call of [update(a + b)]. *)
Definition verify_hash (file_path : string) (expected_hash : value) : Py world bool :=
  data <- read_file file_path ;;
  let sha256_hash :=
    fold_left (fun acc byte_block => acc ++ byte_block)
              (read_blocks (length data) 4096 data) [] in
  ret (py_eq_str (sha256_hex P sha256_hash) expected_hash).

(** The chunk loop of the [requests] transport. *)
Definition write_chunks (dest_path : string) (chunks : list (list Byte.byte))
  : Py world unit :=
  for_each (fun _ chunk => write_chunk dest_path chunk) chunks tt.

Variable download_file : value -> string -> value -> Py world bool.

(** [models = [m for m in models if m.get('type') in types_filter]] *)
Fixpoint filter_types (types_filter : list string) (ms : list value)
  : result (list value) :=
  match ms with
  | [] => Ok []
  | m :: rest =>
      match py_get m "type" VNone with
      | Raise e => Raise e
      | Ok t =>
          match filter_types types_filter rest with
          | Raise e => Raise e
          | Ok kept => Ok (if py_in_strs t types_filter then m :: kept else kept)
          end
      end
  end.

(** Destination of a model, lines 263-271. *)
Definition model_dest_path (model name url rel_path : value) : result string :=
  match py_get model "filename" VNone with
  | Raise e => Raise e
  | Ok filename =>
      let from_url :=
        if negb (truthy filename) then
          match url with
          | VStr u =>
              match url_basename P u with
              | Some tail => Ok (VStr tail)
              | None => Raise ValueError
              end
          | _ => Raise AttributeError
          end
        else Ok filename in
      match from_url with
      | Raise e => Raise e
      | Ok filename =>
          let from_name :=
            if negb (truthy filename) then
              match name with
              | VStr n => Ok (VStr (String.append (replace_char " " "_" n) ".safetensors"))
              | _ => Raise AttributeError
              end
            else Ok filename in
          match from_name, rel_path with
          | Raise e, _ => Raise e
          | Ok (VStr f), VStr r => Ok (path_join P (path_join P (COMFYUI_PATH P) r) f)
          | Ok _, _ => Raise TypeError
          end
      end
  end.

(** The body of the loop of [download_models]; the counters are
    (success_count, fail_count). *)
Definition download_model (dry_run : bool) (counts : nat * nat) (model : value)
  : Py world (nat * nat) :=
  let '(success_count, fail_count) := counts in
  name <- lift (py_get model "name" (VStr "Unknown")) ;;
  url <- lift (py_get model "url" VNone) ;;
  rel_path <- lift (py_get model "path" (VStr "models/checkpoints")) ;;
  expected_hash <- lift (py_get model "sha256" VNone) ;;
  model_type <- lift (py_get model "type" (VStr "unknown")) ;;
  if negb (truthy url) then ret (success_count, S fail_count)
  else if dry_run then ret (S success_count, fail_count)
  else
    dest_path <- lift (model_dest_path model name url rel_path) ;;
    ok <- download_file url dest_path expected_hash ;;
    if ok then ret (S success_count, fail_count)
    else ret (success_count, S fail_count).

(** The list the loop of [download_models] walks: the plan, narrowed to
    the requested types when a non-empty filter is given. *)
Definition selected_models (manifest : value) (types_filter : option (list string))
  : result (list value) :=
  match py_get manifest "models" (VList []) with
  | Raise e => Raise e
  | Ok models =>
      match types_filter with
      | Some (t :: ts) =>
          match py_iter models with
          | Raise e => Raise e
          | Ok ms => filter_types (t :: ts) ms
          end
      | _ => py_iter models
      end
  end.

Definition download_models (manifest : value) (types_filter : option (list string))
    (dry_run : bool) : Py world (nat * nat) :=
  models <- lift (selected_models manifest types_filter) ;;
  match models with
  | [] => ret (0, 0)
  | _ => for_each (download_model dry_run) models (0, 0)
  end.
End Runner.

(** Command-line result of a run: the process exit status and the
    (succeeded, failed) totals of the final summary, when one is printed. *)
Record report : Type := Report {
  exit_code : Z;
  totals : option (nat * nat);
}.

Definition exit_status (total_fail : nat) : Z :=
  if Nat.eqb total_fail 0 then 0%Z else 1%Z.

(** ** download_models.py *)

Module Full.

Record ModelManifest : Type := Build {
  models : list value;
  custom_nodes : list value;
  seen_models : gmap string string;
  seen_nodes : gmap string string;
}.

(** [ModelManifest()] *)
Definition init : ModelManifest := Build [] [] ∅ ∅.

Definition models_plan (self : ModelManifest) : plan_state :=
  (models self, seen_models self).
Definition set_models_plan (p : plan_state) (self : ModelManifest) : ModelManifest :=
  Build p.1 (custom_nodes self) p.2 (seen_nodes self).
Definition nodes_plan (self : ModelManifest) : plan_state :=
  (custom_nodes self, seen_nodes self).
Definition set_nodes_plan (p : plan_state) (self : ModelManifest) : ModelManifest :=
  Build (models self) p.1 (seen_models self) p.2.

Record args : Type := Args {
  manifests : list string;
  types : option (list string);
  models_only : bool;
  nodes_only : bool;
  list_mode : bool;
  dry_run : bool;
}.

Section Program.
Context (P : platform).

Definition load_manifest (source : string) : value :=
  let loaded :=
    if String.prefix "http://" source || String.prefix "https://" source
    then requests_json P source
    else read_json P source in
  match loaded with
  | Ok manifest => manifest
  | Raise _ => VNone
  end.

(** Returns (models_added, models_skipped, nodes_added, nodes_skipped). *)
Definition add_manifest (manifest : value) (source : string)
  : Py ModelManifest (nat * nat * nat * nat) :=
  if negb (truthy manifest) then ret (0, 0, 0, 0)
  else
    m <- zoom models_plan set_models_plan
           (add_entries (str_lower P) "models" "url" manifest source) ;;
    n <- zoom nodes_plan set_nodes_plan
           (add_entries (str_lower P) "custom_nodes" "repo" manifest source) ;;
    ret (m.1, m.2, n.1, n.2).

(** The body of the loop of [load_manifests]; the totals are the four
    numbers of the combined summary. *)
Definition load_one (totals : nat * nat * nat * nat) (source : string)
  : Py ModelManifest (nat * nat * nat * nat) :=
  let '(total_models, total_models_skipped, total_nodes, total_nodes_skipped) := totals in
  let manifest := load_manifest source in
  if truthy manifest then
    c <- add_manifest manifest source ;;
    let '(m_added, m_skipped, n_added, n_skipped) := c in
    ret (total_models + m_added, total_models_skipped + m_skipped,
         total_nodes + n_added, total_nodes_skipped + n_skipped)
  else ret totals.

Definition load_manifests (sources : list string)
  : Py ModelManifest (nat * nat * nat * nat) :=
  for_each load_one sources (0, 0, 0, 0).

Definition get_combined_manifest (self : ModelManifest) : value :=
  VDict (<["models" := VList (models self)]>
         (<["custom_nodes" := VList (custom_nodes self)]> ∅)).

(** Lines 153-172: the transfer itself. *)
Definition requests_download (url : value) (dest_path : string) : Py world unit :=
  history <- gets trace ;;
  log (EvRequestsGet url) ;;;
  match requests_get P history url with
  | RespError => raise RequestException
  | RespBody chunks interrupted =>
      open_write dest_path ;;;
      write_chunks dest_path chunks ;;;
      if interrupted then raise RequestException else ret tt
  end.

Definition download_file (url : value) (dest_path : string) (expected_hash : value)
  : Py world bool :=
  try_except
    (mkdir_parents (path_parent P dest_path) ;;;
     present <- path_exists dest_path ;;
     skip <- (if present then
                if truthy expected_hash then verify_hash P dest_path expected_hash
                else ret true
              else ret false) ;;
     if skip then ret true
     else
       requests_download url dest_path ;;;
       if truthy expected_hash then
         ok <- verify_hash P dest_path expected_hash ;;
         if ok then ret true
         else unlink dest_path ;;; ret false
       else ret true)
    (fun _ =>
       present <- path_exists dest_path ;;
       (if present then unlink dest_path else ret tt) ;;;
       ret false).

(** Lines 201-222.  [os.system(f"git clone --quiet {repo_url} {dest_path}")]
    hands a command line to the shell; the model records the call and
    takes from the host its exit status and whether the destination
    directory exists afterwards.  Whatever else the command does to the
    file system is outside the model. *)
Definition clone_repo (repo_url : value) (dest_path : string) : Py world bool :=
  try_except
    (mkdir_parents (path_parent P dest_path) ;;;
     present <- path_exists dest_path ;;
     if present then ret true
     else
       history <- gets trace ;;
       log (EvGitClone repo_url dest_path) ;;;
       let '(ok, created) := git_clone P history repo_url dest_path in
       (if created then set_node dest_path (Some Dir) else ret tt) ;;;
       ret ok)
    (fun _ => ret false).

Definition download_models := download_models P download_file.

Definition node_dest_path (name rel_path : value) : result string :=
  match name, rel_path with
  | VStr n, VStr r =>
      let dir_name := replace_char "/" "-" (replace_char " " "-" n) in
      Ok (path_join P (path_join P (COMFYUI_PATH P) r) dir_name)
  | VStr _, _ => Raise TypeError
  | _, _ => Raise AttributeError
  end.

(** The body of the loop of [install_custom_nodes]. *)
Definition install_node (dry_run : bool) (counts : nat * nat) (node : value)
  : Py world (nat * nat) :=
  let '(success_count, fail_count) := counts in
  name <- lift (py_get node "name" (VStr "Unknown")) ;;
  repo <- lift (py_get node "repo" VNone) ;;
  rel_path <- lift (py_get node "path" (VStr "custom_nodes")) ;;
  if negb (truthy repo) then ret (success_count, S fail_count)
  else if dry_run then ret (S success_count, fail_count)
  else
    dest_path <- lift (node_dest_path name rel_path) ;;
    ok <- clone_repo repo dest_path ;;
    if ok then ret (S success_count, fail_count)
    else ret (success_count, S fail_count).

Definition install_custom_nodes (manifest : value) (dry_run : bool)
  : Py world (nat * nat) :=
  v <- lift (py_get manifest "custom_nodes" (VList [])) ;;
  nodes <- lift (py_iter v) ;;
  match nodes with
  | [] => ret (0, 0)
  | _ => for_each (install_node dry_run) nodes (0, 0)
  end.

(** With [--list] the program prints the combined manifest and stops;
    printing is not modelled, the branch stands for a listing that
    returns. *)
Definition main (a : args) : Py world report :=
  if models_only a && nodes_only a then ret (Report 2 None)
  else
    match load_manifests (manifests a) init with
    | (_, Raise e) => raise e
    | (manifest_loader, Ok _) =>
        let combined_manifest := get_combined_manifest manifest_loader in
        if list_mode a then ret (Report 0 None)
        else
          m <- (if negb (nodes_only a)
                then download_models combined_manifest (types a) (dry_run a)
                else ret (0, 0)) ;;
          n <- (if negb (models_only a)
                then install_custom_nodes combined_manifest (dry_run a)
                else ret (0, 0)) ;;
          let total_success := m.1 + n.1 in
          let total_fail := m.2 + n.2 in
          ret (Report (exit_status total_fail) (Some (total_success, total_fail)))
    end.
End Program.

(** The merge of the specification on the stores of this program: the
    model entries of a source, then its node entries. *)
Definition merge_source (lower : string -> string) (self : ModelManifest)
    (source : string) (manifest : value) : ModelManifest * (nat * nat * nat * nat) :=
  let m := merge_entries lower "url" source (entries_of "models" manifest)
             (models_plan self) in
  let n := merge_entries lower "repo" source (entries_of "custom_nodes" manifest)
             (nodes_plan self) in
  (Build m.1.1 n.1.1 m.1.2 n.1.2, (m.2.1, m.2.2, n.2.1, n.2.2)).

Definition add4 (a b : nat * nat * nat * nat) : nat * nat * nat * nat :=
  let '(a1, a2, a3, a4) := a in
  let '(b1, b2, b3, b4) := b in
  (a1 + b1, a2 + b2, a3 + b3, a4 + b4).

(** Sources in input order, with the aggregate of the per-source counts. *)
Definition merge_step (lower : string -> string)
    (acc : ModelManifest * (nat * nat * nat * nat)) (doc : string * value)
  : ModelManifest * (nat * nat * nat * nat) :=
  let r := merge_source lower acc.1 doc.1 doc.2 in
  (r.1, add4 acc.2 r.2).

Definition merge (lower : string -> string) (docs : list (string * value))
  : ModelManifest * (nat * nat * nat * nat) :=
  fold_left (merge_step lower) docs (init, (0, 0, 0, 0)).

(** A document of the shape the program expects. *)
Definition wf_manifest (manifest : value) : bool :=
  wf_section "models" "url" manifest && wf_section "custom_nodes" "repo" manifest.

End Full.

(** ** download_models_portable.py *)

Module Portable.

Record ModelManifest : Type := Build {
  models : list value;
  seen_models : gmap string string;
}.

Definition init : ModelManifest := Build [] ∅.

Definition models_plan (self : ModelManifest) : plan_state :=
  (models self, seen_models self).
Definition set_models_plan (p : plan_state) (self : ModelManifest) : ModelManifest :=
  Build p.1 p.2.

Record args : Type := Args {
  manifests : list string;
  types : option (list string);
  list_mode : bool;
  dry_run : bool;
}.

Section Program.
Context (P : platform).

Definition load_manifest (source : string) : value :=
  if String.prefix "http://" source || String.prefix "https://" source then
    if has_curl P then
      match curl_json P source with Ok manifest => manifest | Raise _ => VNone end
    else if HAS_REQUESTS P then
      match requests_json P source with Ok manifest => manifest | Raise _ => VNone end
    else VNone
  else
    match read_json P source with Ok manifest => manifest | Raise _ => VNone end.

(** Returns (models_added, models_skipped). *)
Definition add_manifest (manifest : value) (source : string)
  : Py ModelManifest (nat * nat) :=
  if negb (truthy manifest) then ret (0, 0)
  else
    zoom models_plan set_models_plan
      (add_entries (str_lower P) "models" "url" manifest source).

Definition load_one (totals : nat * nat) (source : string)
  : Py ModelManifest (nat * nat) :=
  let '(total_models, total_models_skipped) := totals in
  let manifest := load_manifest source in
  if truthy manifest then
    c <- add_manifest manifest source ;;
    let '(m_added, m_skipped) := c in
    ret (total_models + m_added, total_models_skipped + m_skipped)
  else ret totals.

Definition load_manifests (sources : list string) : Py ModelManifest (nat * nat) :=
  for_each load_one sources (0, 0).

Definition get_combined_manifest (self : ModelManifest) : value :=
  VDict (<["models" := VList (models self)]> ∅).

(** Any failure of the subprocess is caught and reported as [False];
    curl cannot write over a directory and exits non-zero. *)
Definition download_with_curl (url : value) (dest_path : string) : Py world bool :=
  history <- gets trace ;;
  log (EvCurl url dest_path) ;;;
  before <- gets (fun w => fs w !! dest_path) ;;
  let run partial :=
    let '(ok, after) := curl_run P history url dest_path partial in
    set_node dest_path (File <$> after) ;;;
    ret ok in
  match before with
  | Some Dir => ret false
  | Some (File partial) => run (Some partial)
  | None => run None
  end.

Definition download_with_requests (url : value) (dest_path : string) : Py world bool :=
  try_except
    (history <- gets trace ;;
     log (EvRequestsGet url) ;;;
     match requests_get P history url with
     | RespError => raise RequestException
     | RespBody chunks interrupted =>
         open_write dest_path ;;;
         write_chunks dest_path
           (filter (fun chunk => chunk ≠ []) chunks) ;;;
         if interrupted then raise RequestException else ret true
     end)
    (fun _ => ret false).

(** Lines 239-271: what follows the check of an existing file. *)
Definition fetch (url : value) (dest_path : string) (expected_hash : value)
  : Py world bool :=
  transfer <- (if has_curl P then
                 success <- download_with_curl url dest_path ;; ret (Some success)
               else if HAS_REQUESTS P then
                 success <- download_with_requests url dest_path ;; ret (Some success)
               else ret None) ;;
  match transfer with
  | None => ret false
  | Some false =>
      present <- path_exists dest_path ;;
      (if present then unlink dest_path else ret tt) ;;;
      ret false
  | Some true =>
      if truthy expected_hash then
        ok <- verify_hash P dest_path expected_hash ;;
        if ok then ret true
        else unlink dest_path ;;; ret false
      else ret true
  end.

Definition download_file (url : value) (dest_path : string) (expected_hash : value)
  : Py world bool :=
  mkdir_parents (path_parent P dest_path) ;;;
  present <- path_exists dest_path ;;
  skip <- (if present then
             if truthy expected_hash then
               ok <- verify_hash P dest_path expected_hash ;;
               if ok then ret true
               else unlink dest_path ;;; ret false
             else ret true
           else ret false) ;;
  if skip then ret true
  else fetch url dest_path expected_hash.

Definition download_models := download_models P download_file.

(** As in the full program, [--list] stands for a listing that returns. *)
Definition main (a : args) : Py world report :=
  match load_manifests (manifests a) init with
  | (_, Raise e) => raise e
  | (manifest_loader, Ok _) =>
      let combined_manifest := get_combined_manifest manifest_loader in
      if list_mode a then ret (Report 0 None)
      else
        r <- download_models combined_manifest (types a) (dry_run a) ;;
        let '(total_success, total_fail) := r in
        ret (Report (exit_status total_fail) (Some (total_success, total_fail)))
  end.
End Program.

(** The merge of the specification on the store of this program. *)
Definition merge_source (lower : string -> string) (self : ModelManifest)
    (source : string) (manifest : value) : ModelManifest * (nat * nat) :=
  let m := merge_entries lower "url" source (entries_of "models" manifest)
             (models_plan self) in
  (Build m.1.1 m.1.2, m.2).

Definition add2 (a b : nat * nat) : nat * nat :=
  (a.1 + b.1, a.2 + b.2).

Definition merge_step (lower : string -> string)
    (acc : ModelManifest * (nat * nat)) (doc : string * value)
  : ModelManifest * (nat * nat) :=
  let r := merge_source lower acc.1 doc.1 doc.2 in
  (r.1, add2 acc.2 r.2).

Definition merge (lower : string -> string) (docs : list (string * value))
  : ModelManifest * (nat * nat) :=
  fold_left (merge_step lower) docs (init, (0, 0)).

Definition wf_manifest (manifest : value) : bool :=
  wf_section "models" "url" manifest.

End Portable.

(** ** Vocabulary of the statements *)

Section FirstSeenSpec.
Variable lower : string -> string.
Variable field : string.

(** The plan and seen-map reached after the [arrivals] (source, entry), in
    this order, went through the merge. *)
Record merged_from (arrivals : list (string * value)) (ps : plan_state) : Prop := {
  seen_arrived : forall k,
    is_Some (ps.2 !! k) <->
    exists x, x ∈ arrivals /\ uniqueness_key lower field x.2 = Some k;
  plan_first_seen : forall e, e ∈ ps.1 ->
    exists k src pre post,
      arrivals = pre ++ (src, e) :: post /\ uniqueness_key lower field e = Some k /\
      (forall x, x ∈ pre -> uniqueness_key lower field x.2 <> Some k) /\
      ps.2 !! k = Some src;
  plan_keys_nodup : NoDup (omap (uniqueness_key lower field) ps.1);
  plan_keys_seen : forall k,
    k ∈ omap (uniqueness_key lower field) ps.1 <-> is_Some (ps.2 !! k);
}.
End FirstSeenSpec.

(** The (source, entry) pairs a sequence of documents delivers under
    [list_name], in arrival order. *)
Definition arrivals (list_name : string) (docs : list (string * value))
  : list (string * value) :=
  flat_map (fun doc => (fun e => (doc.1, e)) <$> entries_of list_name doc.2) docs.

(** A JSON object whose [field] is absent, [null], empty or otherwise
    false. *)
Definition lacks_key (field : string) (entry : value) : bool :=
  match entry with
  | VDict d => negb (truthy (default VNone (d !! field)))
  | _ => false
  end.

Definition is_dict (v : value) : bool :=
  match v with VDict _ => true | _ => false end.

(** [m.get('type')] of a plan entry. *)
Definition entry_type (m : value) : value :=
  match m with VDict d => default VNone (d !! "type") | _ => VNone end.

(** [m.get('url')] of a plan entry. *)
Definition entry_url (m : value) : value :=
  match m with VDict d => default VNone (d !! "url") | _ => VNone end.

(** The destination after the call: no file unless the call succeeded,
    and a file with the expected digest when one was asked for. *)
Definition settled (P : platform) (dest_path : string) (expected_hash : value)
    (out : world * result bool) : Prop :=
  (out.2 <> Ok true -> forall data, fs out.1 !! dest_path <> Some (File data)) /\
  (out.2 = Ok true -> truthy expected_hash = true ->
   exists data, fs out.1 !! dest_path = Some (File data) /\
                expected_hash = VStr (sha256_hex P data)).

(** The call gets as far as the transfer: the destination is free, or
    holds a file that does not have the supplied digest. *)
Definition reaches_transfer (P : platform) (dest_path : string) (expected_hash : value)
    (w : world) : Prop :=
  fs w !! dest_path = None \/
  exists data, fs w !! dest_path = Some (File data) /\ truthy expected_hash = true /\
               py_eq_str (sha256_hex P data) expected_hash = false.

(** The history the transport of the full program is started in. *)
Definition full_transfer_start (P : platform) (dest_path : string) (w : world)
  : list event :=
  trace w ++ [EvMkdir (path_parent P dest_path); EvExists dest_path]
          ++ (if bool_decide (is_Some (fs w !! dest_path)) then [EvRead dest_path] else []).

(** The history the transport of the portable program is started in. *)
Definition portable_transfer_start (P : platform) (dest_path : string) (w : world)
  : list event :=
  trace w ++ [EvMkdir (path_parent P dest_path); EvExists dest_path]
          ++ (if bool_decide (is_Some (fs w !! dest_path))
              then [EvRead dest_path; EvUnlink dest_path] else []).

(** Outcome [Failed], with nothing left at the destination. *)
Definition failed (dest_path : string) (out : world * result bool) : Prop :=
  out.2 = Ok false /\ fs out.1 !! dest_path = None.

(** A digest was supplied and [data] does not have it. *)
Definition wrong_digest (P : platform) (expected_hash : value) (data : list Byte.byte)
  : Prop :=
  truthy expected_hash = true /\ py_eq_str (sha256_hex P data) expected_hash = false.

(** In a sequence of events, the destination is unlinked and a transport
    is invoked afterwards. *)
Fixpoint deleted_then_fetched (dest_path : string) (evs : list event) : bool :=
  match evs with
  | [] => false
  | ev :: rest =>
      (match ev with
       | EvUnlink p => String.eqb p dest_path && existsb is_transport rest
       | _ => false
       end) || deleted_then_fetched dest_path rest
  end.

(** The events a call added to the trace. *)
Definition new_events (w : world) (out : world * result bool) : list event :=
  drop (length (trace w)) (trace out.1).

(** Plan entries with a source, and without. *)
Definition sourced (ms : list value) : list value :=
  List.filter (fun m => truthy (entry_url m)) ms.
Definition unsourced (ms : list value) : list value :=
  List.filter (fun m => negb (truthy (entry_url m))) ms.

(** A JSON object that has its key field, [url] or [repo]: what the
    merge lets into a plan. *)
Definition keyed (field : string) (entry : value) : bool :=
  match entry with
  | VDict d => truthy (default VNone (d !! field))
  | _ => false
  end.

(** Where [download_models] puts a model (lines 244-271): the [name],
    [url] and [path] of the entry, with their defaults, go into the
    derivation of the file name. *)
Definition destination (P : platform) (model : value) : result string :=
  match py_get model "name" (VStr "Unknown"), py_get model "url" VNone,
        py_get model "path" (VStr "models/checkpoints") with
  | Ok name, Ok url, Ok rel_path => model_dest_path P model name url rel_path
  | _, _, _ => Raise AttributeError
  end.

(** [m.get('sha256')] of a plan entry. *)
Definition entry_sha256 (m : value) : value :=
  match m with VDict d => default VNone (d !! "sha256") | _ => VNone end.


(** [node.get('repo')] of a plan entry. *)
Definition entry_repo (n : value) : value :=
  match n with VDict d => default VNone (d !! "repo") | _ => VNone end.

(** The entries the runner walks for a plan [ms]. *)
Definition selection (types_filter : option (list string)) (ms : list value)
  : list value :=
  match types_filter with
  | Some (t :: ts) => List.filter (fun m => py_in_strs (entry_type m) (t :: ts)) ms
  | _ => ms
  end.

(** The platform on which [source] holds [manifest] instead, everything
    else being equal. *)
Definition replace_manifest (P : platform) (source : string) (manifest : value)
  : platform := {|
  str_lower := str_lower P;
  sha256_hex := sha256_hex P;
  url_basename := url_basename P;
  path_join := path_join P;
  path_parent := path_parent P;
  COMFYUI_PATH := COMFYUI_PATH P;
  has_curl := has_curl P;
  HAS_REQUESTS := HAS_REQUESTS P;
  read_json := fun s => if String.eqb s source then Ok manifest else read_json P s;
  requests_json := fun s => if String.eqb s source then Ok manifest else requests_json P s;
  curl_json := fun s => if String.eqb s source then Ok manifest else curl_json P s;
  requests_get := requests_get P;
  curl_run := curl_run P;
  git_clone := git_clone P;
|}.

(** A computation keeps an invariant of the store, also when it raises. *)
Definition keeps {S A} (I : S -> Prop) (m : Py S A) : Prop :=
  forall s, I s -> I (m s).1.

(** Every entry of the plan has its key field. *)
Definition all_keyed (field : string) (plan : list value) : Prop :=
  Forall (fun e => lacks_key field e = false) plan.

(** ** Concrete hosts, manifests and worlds, to run the programs on *)

(** [str.lower] on one ASCII character. *)
Definition ascii_lower (c : ascii) : ascii :=
  let n := nat_of_ascii c in
  if (65 <=? n)%nat && (n <=? 90)%nat then ascii_of_nat (n + 32) else c.

(** [str.lower] on ASCII text. *)
Fixpoint lower_ascii (s : string) : string :=
  match s with
  | EmptyString => EmptyString
  | String c rest => String (ascii_lower c) (lower_ascii rest)
  end.

(** A JSON object from its members. *)
Definition obj (members : list (string * value)) : value :=
  VDict (list_to_map members).

(** A host without network: local manifests come from [disk], every
    transfer fails, and the stand-in digest spells out the bytes. *)
Definition offline (disk : string -> result value) : platform := {|
  str_lower := lower_ascii;
  sha256_hex := string_of_list_byte;
  url_basename := fun u => Some u;
  path_join := fun a b => String.append a (String.append "/" b);
  path_parent := fun p => p;
  COMFYUI_PATH := "/app/ComfyUI";
  has_curl := true;
  HAS_REQUESTS := true;
  read_json := disk;
  requests_json := fun _ => Raise RequestException;
  curl_json := fun _ => Raise CalledProcessError;
  requests_get := fun _ _ => RespError;
  curl_run := fun _ _ _ partial => (false, partial);
  git_clone := fun _ _ _ => (false, false);
|}.

Definition model_upper : value :=
  obj [("name", VStr "Base"); ("url", VStr "https://HOST/Models/Base.safetensors");
       ("type", VStr "checkpoint")].
Definition model_lower : value :=
  obj [("name", VStr "Base again"); ("url", VStr "https://host/models/base.safetensors");
       ("type", VStr "checkpoint")].

Definition two_manifests (source : string) : result value :=
  if String.eqb source "a.json" then Ok (obj [("models", VList [model_upper])])
  else if String.eqb source "b.json" then Ok (obj [("models", VList [model_lower])])
  else Raise FileNotFoundError.

Definition model_no_url : value :=
  obj [("name", VStr "Broken"); ("type", VStr "lora")].
Definition node_no_repo : value :=
  obj [("name", VStr "Orphan"); ("repo", VStr "")].
Definition manifest_with_gaps : gmap string value :=
  list_to_map
    [("models", VList ([model_upper] ++ model_no_url :: [model_lower]));
     ("custom_nodes", VList ([] ++ node_no_repo :: []))].

(** A world whose file system holds the given files and whose trace is
    empty. *)
Definition world_with (files : list (string * string)) : world :=
  World (list_to_map ((fun f => (f.1, File (list_byte_of_string f.2))) <$> files)) [].

Definition no_manifest (source : string) : result value := Raise FileNotFoundError.

(** A host whose transports always behave the same way. *)
Definition host (curl requests : bool) (served : response)
    (curl_result : bool * option (list Byte.byte)) : platform := {|
  str_lower := lower_ascii;
  sha256_hex := string_of_list_byte;
  url_basename := fun u => Some u;
  path_join := fun a b => String.append a (String.append "/" b);
  path_parent := fun p => p;
  COMFYUI_PATH := "/app/ComfyUI";
  has_curl := curl;
  HAS_REQUESTS := requests;
  read_json := no_manifest;
  requests_json := fun _ => Raise RequestException;
  curl_json := fun _ => Raise CalledProcessError;
  requests_get := fun _ _ => served;
  curl_run := fun _ _ _ _ => curl_result;
  git_clone := fun _ _ _ => (false, false);
|}.

Definition model_lora : value :=
  obj [("name", VStr "Detail"); ("url", VStr "https://host/loras/detail.safetensors");
       ("type", VStr "lora")].

(** A plan with a checkpoint, a lora without source and a lora. *)
Definition mixed_plan : gmap string value :=
  list_to_map [("models", VList [model_upper; model_no_url; model_lora])].

(** A manifest whose only model has no [url]. *)
Definition lonely_manifest (source : string) : result value :=
  if String.eqb source "lonely.json" then Ok (obj [("models", VList [model_no_url])])
  else Raise FileNotFoundError.

Definition gap_manifest : gmap string value :=
  list_to_map [("models", VList ([model_upper] ++ model_no_url :: [model_lora]))].

Definition gap_source (source : string) : result value :=
  if String.eqb source "gap.json" then Ok (VDict gap_manifest)
  else Raise FileNotFoundError.

(** [p.parent] of a path written with slashes: the text before the last
    slash. *)
Fixpoint parent_of (p : string) : string :=
  match p with
  | EmptyString => EmptyString
  | String c rest =>
      if existsb (Ascii.eqb "/") (list_ascii_of_string rest)
      then String c (parent_of rest) else EmptyString
  end.

(** The platform with this [p.parent], everything else being equal. *)
Definition with_parents (P : platform) : platform := {|
  str_lower := str_lower P;
  sha256_hex := sha256_hex P;
  url_basename := url_basename P;
  path_join := path_join P;
  path_parent := parent_of;
  COMFYUI_PATH := COMFYUI_PATH P;
  has_curl := has_curl P;
  HAS_REQUESTS := HAS_REQUESTS P;
  read_json := read_json P;
  requests_json := requests_json P;
  curl_json := curl_json P;
  requests_get := requests_get P;
  curl_run := curl_run P;
  git_clone := git_clone P;
|}.

(** A world in which the directory [/models] exists and the given files
    are where their names say. *)
Definition models_dir (files : list (string * string)) : world :=
  World (<["/models" := Dir]> (fs (world_with files))) [].

(** The body of an HTTP error answer. *)
Definition error_page : list Byte.byte := list_byte_of_string "404 Not Found".

(** A host whose server answers every request with status 404 and
    [error_page].  [requests] raises at [raise_for_status()].  curl is
    started without [--fail] (lines 160-170 of the portable program): it
    writes the body it received to the destination and exits with status
    zero. *)
Definition http_error_host (curl : bool) : platform :=
  with_parents (host curl true RespError (true, Some error_page)).

(** ** Vocabulary of the further properties *)

(** The directory the destination goes into is there, so that
    [mkdir(parents=True, exist_ok=True)] has nothing to create and cannot
    fail. *)
Definition parent_exists (P : platform) (dest_path : string) (w : world) : Prop :=
  fs w !! path_parent P dest_path = Some Dir.

(** One plan grows into another: entries are only appended, and the
    seen-map only gains registrations. *)
Definition grows (ps ps' : plan_state) : Prop :=
  ps.1 `prefix_of` ps'.1 /\ ps.2 ⊆ ps'.2.

Definition full_grows (self self' : Full.ModelManifest) : Prop :=
  grows (Full.models_plan self) (Full.models_plan self') /\
  grows (Full.nodes_plan self) (Full.nodes_plan self').

Definition portable_grows (self self' : Portable.ModelManifest) : Prop :=
  grows (Portable.models_plan self) (Portable.models_plan self').

(** Every state a computation can end in, raising or not, is related to
    the state it started in. *)
Definition moves {S A} (R : S -> S -> Prop) (m : Py S A) : Prop :=
  forall s, R s (m s).1.

(** Every key the entries carry is registered in the seen-map. *)
Definition registered (lower : string -> string) (field : string)
    (entries : list value) (seen : gmap string string) : Prop :=
  forall e k, e ∈ entries -> uniqueness_key lower field e = Some k -> is_Some (seen !! k).

(** A disk on which [array.json] holds a JSON array instead of an
    object. *)
Definition array_source (source : string) : result value :=
  if String.eqb source "array.json" then Ok (VList [model_upper])
  else two_manifests source.

(** A model whose [url] is a number. *)
Definition model_numbered : value :=
  obj [("name", VStr "Numbered"); ("url", VInt 7)].

(** What a computation does to the world, whether it returns or raises:
    every event it adds to the trace satisfies [Q], and the file system
    changes at paths in [D] only. *)
Definition footprint {A} (Q : event -> Prop) (D : string -> Prop) (m : Py world A)
  : Prop :=
  forall w,
    (exists evs, trace (m w).1 = trace w ++ evs /\ Forall Q evs) /\
    (forall p, ~ D p -> fs (m w).1 !! p = fs w !! p).

(** Every event a computation adds to the trace satisfies [Q], whether it
    returns or raises. *)
Definition interacts {A} (Q : event -> Prop) (m : Py world A) : Prop :=
  forall w, exists evs, trace (m w).1 = trace w ++ evs /\ Forall Q evs.

(** The interactions of the full program's [download_file]. *)
Definition full_download_event (P : platform) (url : value) (dest_path : string)
    (ev : event) : Prop :=
  ev ∈ [EvMkdir (path_parent P dest_path); EvExists dest_path; EvRead dest_path;
        EvRequestsGet url; EvOpenWrite dest_path; EvUnlink dest_path].

(** The interactions of the portable program's [download_file]. *)
Definition portable_download_event (P : platform) (url : value) (dest_path : string)
    (ev : event) : Prop :=
  ev ∈ [EvMkdir (path_parent P dest_path); EvExists dest_path; EvRead dest_path;
        EvCurl url dest_path; EvRequestsGet url; EvOpenWrite dest_path;
        EvUnlink dest_path].

(** The interactions of [clone_repo]. *)
Definition clone_event (P : platform) (repo_url : value) (dest_path : string)
    (ev : event) : Prop :=
  ev ∈ [EvMkdir (path_parent P dest_path); EvExists dest_path;
        EvGitClone repo_url dest_path].

(** The platform with another behaviour of curl, everything else being
    equal. *)
Definition with_curl_run (P : platform)
    (f : list event -> value -> string -> option (list Byte.byte)
         -> bool * option (list Byte.byte)) : platform := {|
  str_lower := str_lower P;
  sha256_hex := sha256_hex P;
  url_basename := url_basename P;
  path_join := path_join P;
  path_parent := path_parent P;
  COMFYUI_PATH := COMFYUI_PATH P;
  has_curl := has_curl P;
  HAS_REQUESTS := HAS_REQUESTS P;
  read_json := read_json P;
  requests_json := requests_json P;
  curl_json := curl_json P;
  requests_get := requests_get P;
  curl_run := f;
  git_clone := git_clone P;
|}.


(** The bytes the transport delivers have the digest asked for, if one
    was asked for. *)
Definition digest_accepts (P : platform) (expected_hash : value)
    (data : list Byte.byte) : Prop :=
  truthy expected_hash = true -> py_eq_str (sha256_hex P data) expected_hash = true.

(** Outcome [Succeeded]: [True] is returned and the destination holds
    [data], nothing else having changed. *)
Definition stored (dest_path : string) (data : list Byte.byte) (w : world)
    (out : world * result bool) : Prop :=
  out.2 = Ok true /\ fs out.1 = <[dest_path := File data]> (fs w).

(** A curl that appends to a partial file when it finds one. *)
Definition curl_that_resumes (history : list event) (url : value) (dest : string)
    (partial : option (list Byte.byte)) : bool * option (list Byte.byte) :=
  match partial with
  | None => (true, Some (list_byte_of_string "new"))
  | Some old => (true, Some (old ++ list_byte_of_string "new"))
  end.

(** A node entry [install_custom_nodes] can form a destination for: a
    JSON object whose [name] and [path], when present, are strings. *)
Definition wf_node (n : value) : bool :=
  match n with
  | VDict d =>
      match default (VStr "Unknown") (d !! "name"),
            default (VStr "custom_nodes") (d !! "path") with
      | VStr _, VStr _ => true
      | _, _ => false
      end
  | _ => false
  end.

(** The character [dir_name] has in place of [c]. *)
Definition sanitized (c : ascii) : ascii :=
  if Ascii.eqb c " " || Ascii.eqb c "/" then "-"%char else c.

(** A git that fails after it has created the directory. *)
Definition git_fails_midway (history : list event) (repo : value) (dest : string)
  : bool * bool := (false, true).

(** The platform with another behaviour of git, everything else being
    equal. *)
Definition with_git_clone (P : platform)
    (f : list event -> value -> string -> bool * bool) : platform := {|
  str_lower := str_lower P;
  sha256_hex := sha256_hex P;
  url_basename := url_basename P;
  path_join := path_join P;
  path_parent := path_parent P;
  COMFYUI_PATH := COMFYUI_PATH P;
  has_curl := has_curl P;
  HAS_REQUESTS := HAS_REQUESTS P;
  read_json := read_json P;
  requests_json := requests_json P;
  curl_json := curl_json P;
  requests_get := requests_get P;
  curl_run := curl_run P;
  git_clone := f;
|}.

Definition node_pack : value :=
  obj [("name", VStr "Node Pack/v2"); ("repo", VStr "https://host/pack.git")].

(** A file of this name directly under [COMFYUI_PATH/rel_path]. *)
Definition placed_under (P : platform) (rel_path : value) (filename : string)
  : result string :=
  match rel_path with
  | VStr r => Ok (path_join P (path_join P (COMFYUI_PATH P) r) filename)
  | _ => Raise TypeError
  end.

Definition is_clone (ev : event) : bool :=
  match ev with EvGitClone _ _ => true | _ => false end.

Definition is_curl (ev : event) : bool :=
  match ev with EvCurl _ _ => true | _ => false end.

(** The interactions of installing a node: creating the parent
    directory, looking whether the destination exists, running git. *)
Definition clone_kind (ev : event) : bool :=
  match ev with
  | EvMkdir _ | EvExists _ | EvGitClone _ _ => true
  | _ => false
  end.

(** The destinations of a list of models. *)
Definition destinations (P : platform) (ms : list value) (p : string) : Prop :=
  exists m, m ∈ ms /\ destination P m = Ok p.

(** A model with a file name of its own, the plan that holds it after
    a model without source, and a world in which its directory exists. *)
Definition model_tuned : value :=
  obj [("name", VStr "Fine Tune v2"); ("url", VStr "https://host/dl/7");
       ("filename", VStr "tune.safetensors"); ("path", VStr "models/loras");
       ("type", VStr "lora")].

Definition tuned_plan : gmap string value :=
  list_to_map [("models", VList [model_no_url; model_tuned])].

Definition loras_dir : world :=
  World (<["/app/ComfyUI/models/loras" := Dir]> ∅) [].

(** A model whose [path] is a number. *)
Definition model_bad_path : value :=
  obj [("name", VStr "Misplaced"); ("url", VStr "https://host/m.bin");
       ("filename", VStr "m.bin"); ("path", VInt 5)].

(** A plan whose second model has no destination. *)
Definition plan_with_bad_path : gmap string value :=
  list_to_map [("models", VList ([model_no_url] ++ model_bad_path :: [model_lora]))].

(** ** Monad and loop lemmas *)

Lemma for_each_app {S A B} (body : B -> A -> Py S B) (xs ys : list A) (acc : B) (s : S) :
  for_each body (xs ++ ys) acc s =
  match for_each body xs acc s with
  | (s', Ok acc') => for_each body ys acc' s'
  | (s', Raise e) => (s', Raise e)
  end.
Proof.
  revert acc s. induction xs as [|x xs IH]; intros acc s; simpl.
  - unfold ret. reflexivity.
  - unfold bind. destruct (body acc x s) as [s1 [acc1|e]]; [apply IH | reflexivity].
Qed.

Lemma for_each_cons {S A B} (body : B -> A -> Py S B) (x : A) (xs : list A) (acc : B) (s : S) :
  for_each body (x :: xs) acc s =
  match body acc x s with
  | (s', Ok acc') => for_each body xs acc' s'
  | (s', Raise e) => (s', Raise e)
  end.
Proof. reflexivity. Qed.

(** ** The loop body of [add_manifest] *)

Section MergeFacts.
Variable lower : string -> string.

Lemma wf_entry_key_none field entry :
  wf_entry field entry = true ->
  uniqueness_key lower field entry = None ->
  exists v, py_get entry field VNone = Ok v /\ truthy v = false.
Proof.
  destruct entry as [| | | |l|d]; simpl; try discriminate.
  intros Hwf Hk. destruct (d !! field) as [v|] eqn:E; simpl in *.
  - exists v. split; [reflexivity|].
    destruct v; simpl in *; try (apply negb_true_iff in Hwf; exact Hwf); try reflexivity.
    destruct (String.eqb s "") eqn:Es; [reflexivity | discriminate].
  - exists VNone. split; reflexivity.
Qed.

Lemma wf_entry_key_some field entry key :
  uniqueness_key lower field entry = Some key ->
  exists s, py_get entry field VNone = Ok (VStr s) /\ truthy (VStr s) = true
            /\ key = lower s.
Proof.
  destruct entry as [| | | |l|d]; simpl; try discriminate.
  destruct (d !! field) as [[| | |s| |]|] eqn:E; simpl; try discriminate.
  destruct (String.eqb s "") eqn:Es; [discriminate|].
  intros [= <-]. exists s. rewrite Es. auto.
Qed.

(** An entry without a key leaves plan, seen-map and counters alone. *)
Lemma add_entry_missing field source counts entry v ps :
  py_get entry field VNone = Ok v -> truthy v = false ->
  add_entry lower field source counts entry ps = (ps, Ok counts).
Proof.
  intros Hget Hv. unfold add_entry. destruct counts as [added skipped].
  unfold bind, lift. rewrite Hget, Hv. reflexivity.
Qed.

Lemma add_entry_keyed field source added skipped entry s plan seen :
  py_get entry field VNone = Ok (VStr s) -> truthy (VStr s) = true ->
  add_entry lower field source (added, skipped) entry (plan, seen) =
  match seen !! lower s with
  | Some _ => ((plan, seen), Ok (added, S skipped))
  | None => ((plan ++ [entry], <[lower s := source]> seen), Ok (S added, skipped))
  end.
Proof.
  intros Hget Hv. unfold add_entry, bind, lift, gets, modify, ret.
  rewrite Hget, Hv. simpl.
  destruct (seen !! lower s) as [src|] eqn:E.
  - rewrite bool_decide_eq_true_2 by eauto. reflexivity.
  - rewrite bool_decide_eq_false_2 by (intros [? ?]; discriminate). reflexivity.
Qed.

(** On keyable entries the loop computes the fold of the specification. *)
Lemma add_entry_refines field source counts entry ps :
  wf_entry field entry = true ->
  add_entry lower field source counts entry ps =
  ((merge_entry lower field source (ps, counts) entry).1,
   Ok (merge_entry lower field source (ps, counts) entry).2).
Proof.
  intros Hwf. destruct ps as [plan seen], counts as [added skipped].
  unfold merge_entry. destruct (uniqueness_key lower field entry) as [key|] eqn:Hk.
  - destruct (wf_entry_key_some _ _ _ Hk) as (s & Hget & Hs & ->).
    rewrite (add_entry_keyed _ _ _ _ _ _ _ _ Hget Hs).
    destruct (seen !! lower s); reflexivity.
  - destruct (wf_entry_key_none _ _ Hwf Hk) as (v & Hget & Hv).
    apply (add_entry_missing _ _ _ _ _ _ Hget Hv).
Qed.

Lemma for_each_add_entry_refines field source entries counts ps :
  forallb (wf_entry field) entries = true ->
  for_each (add_entry lower field source) entries counts ps =
  ((fold_left (merge_entry lower field source) entries (ps, counts)).1,
   Ok (fold_left (merge_entry lower field source) entries (ps, counts)).2).
Proof.
  revert counts ps. induction entries as [|e es IH]; intros counts ps Hwf.
  - reflexivity.
  - simpl in Hwf. apply andb_true_iff in Hwf as [He Hes].
    rewrite for_each_cons, (add_entry_refines _ _ _ _ _ He).
    cbn [fold_left].
    destruct (merge_entry lower field source (ps, counts) e) as [ps1 c1].
    apply IH, Hes.
Qed.

Lemma add_entries_refines list_name field manifest source ps :
  truthy manifest = true ->
  wf_section list_name field manifest = true ->
  add_entries lower list_name field manifest source ps =
  ((merge_entries lower field source (entries_of list_name manifest) ps).1,
   Ok (merge_entries lower field source (entries_of list_name manifest) ps).2).
Proof.
  intros Ht Hwf. unfold add_entries, merge_entries, entries_of.
  destruct manifest as [| | | |l|d]; simpl in Hwf; try discriminate.
  unfold bind, lift; simpl.
  destruct (d !! list_name) as [[| | | |l|]|] eqn:E; simpl; try discriminate.
  - apply for_each_add_entry_refines, Hwf.
  - reflexivity.
Qed.
End MergeFacts.

(** ** [add_manifest] and [load_manifests] against the specification *)

Lemma merge_entries_nil lower field source ps :
  merge_entries lower field source [] ps = (ps, (0, 0)).
Proof. reflexivity. Qed.

Lemma entries_of_falsy list_name manifest :
  truthy manifest = false ->
  wf_section list_name "url" manifest = true \/ wf_section list_name "repo" manifest = true ->
  entries_of list_name manifest = [].
Proof.
  destruct manifest as [| | | |l|d]; simpl; try (intros _ [?|?]; discriminate); auto.
  intros Hemp _. apply negb_false_iff, bool_decide_eq_true in Hemp.
  apply map_size_empty_iff in Hemp. subst d. rewrite lookup_empty. reflexivity.
Qed.

Section FullMerge.
Context (P : platform).

Lemma add_manifest_refines manifest source self :
  Full.wf_manifest manifest = true ->
  Full.add_manifest P manifest source self =
  ((Full.merge_source (str_lower P) self source manifest).1,
   Ok (Full.merge_source (str_lower P) self source manifest).2).
Proof.
  intros Hwf. apply andb_true_iff in Hwf as [Hm Hn].
  unfold Full.add_manifest, Full.merge_source.
  destruct (truthy manifest) eqn:Ht; simpl.
  - unfold bind, zoom.
    rewrite (add_entries_refines _ _ _ _ _ _ Ht Hm).
    cbn [Full.nodes_plan Full.set_models_plan Full.custom_nodes Full.seen_nodes].
    fold (Full.nodes_plan self).
    rewrite (add_entries_refines _ _ _ _ _ _ Ht Hn).
    destruct self; reflexivity.
  - rewrite !entries_of_falsy by auto.
    destruct self; reflexivity.
Qed.

Lemma merge_source_falsy lower manifest source self :
  Full.wf_manifest manifest = true -> truthy manifest = false ->
  Full.merge_source lower self source manifest = (self, (0, 0, 0, 0)).
Proof.
  intros Hwf Ht. apply andb_true_iff in Hwf as [Hm Hn]. unfold Full.merge_source.
  rewrite !entries_of_falsy, !merge_entries_nil by auto.
  destruct self; reflexivity.
Qed.

Lemma load_one_refines totals source self :
  Full.wf_manifest (Full.load_manifest P source) = true ->
  Full.load_one P totals source self =
  ((Full.merge_step (str_lower P) (self, totals) (source, Full.load_manifest P source)).1,
   Ok (Full.merge_step (str_lower P) (self, totals)
         (source, Full.load_manifest P source)).2).
Proof.
  intros Hwf. unfold Full.load_one, Full.merge_step.
  destruct totals as [[[tm tms] tn] tns]. cbn [fst snd].
  destruct (truthy (Full.load_manifest P source)) eqn:Ht.
  - unfold bind. rewrite (add_manifest_refines _ _ _ Hwf).
    destruct (Full.merge_source _ _ _ _) as [self' [[[ma ms] na] ns]]. reflexivity.
  - rewrite (merge_source_falsy _ _ _ _ Hwf Ht). unfold ret; simpl.
    rewrite !Nat.add_0_r. reflexivity.
Qed.

Lemma load_manifests_refines_from sources self totals :
  Forall (fun s => Full.wf_manifest (Full.load_manifest P s) = true) sources ->
  for_each (Full.load_one P) sources totals self =
  ((fold_left (Full.merge_step (str_lower P))
      ((fun s => (s, Full.load_manifest P s)) <$> sources) (self, totals)).1,
   Ok (fold_left (Full.merge_step (str_lower P))
         ((fun s => (s, Full.load_manifest P s)) <$> sources) (self, totals)).2).
Proof.
  intros Hwf. revert self totals.
  induction Hwf as [|s sources Hs _ IH]; intros self totals; [reflexivity|].
  rewrite for_each_cons, (load_one_refines _ _ _ Hs).
  cbn [fmap list_fmap fold_left].
  destruct (Full.merge_step _ _ _) as [self' totals']. apply IH.
Qed.
End FullMerge.

Section PortableMerge.
Context (P : platform).

Lemma portable_add_manifest_refines manifest source self :
  Portable.wf_manifest manifest = true ->
  Portable.add_manifest P manifest source self =
  ((Portable.merge_source (str_lower P) self source manifest).1,
   Ok (Portable.merge_source (str_lower P) self source manifest).2).
Proof.
  intros Hwf. unfold Portable.wf_manifest in Hwf.
  unfold Portable.add_manifest, Portable.merge_source.
  destruct (truthy manifest) eqn:Ht; simpl.
  - unfold zoom. rewrite (add_entries_refines _ _ _ _ _ _ Ht Hwf). reflexivity.
  - rewrite entries_of_falsy by auto. destruct self; reflexivity.
Qed.

Lemma portable_merge_source_falsy lower manifest source self :
  Portable.wf_manifest manifest = true -> truthy manifest = false ->
  Portable.merge_source lower self source manifest = (self, (0, 0)).
Proof.
  intros Hwf Ht. unfold Portable.merge_source.
  rewrite entries_of_falsy, merge_entries_nil by auto.
  destruct self; reflexivity.
Qed.

Lemma portable_load_one_refines totals source self :
  Portable.wf_manifest (Portable.load_manifest P source) = true ->
  Portable.load_one P totals source self =
  ((Portable.merge_step (str_lower P) (self, totals)
      (source, Portable.load_manifest P source)).1,
   Ok (Portable.merge_step (str_lower P) (self, totals)
         (source, Portable.load_manifest P source)).2).
Proof.
  intros Hwf. unfold Portable.load_one, Portable.merge_step, Portable.add2.
  destruct totals as [tm tms]. cbn [fst snd].
  destruct (truthy (Portable.load_manifest P source)) eqn:Ht.
  - unfold bind. rewrite (portable_add_manifest_refines _ _ _ Hwf).
    destruct (Portable.merge_source _ _ _ _) as [self' [ma ms]]. reflexivity.
  - rewrite (portable_merge_source_falsy _ _ _ _ Hwf Ht). unfold ret; simpl.
    rewrite !Nat.add_0_r. reflexivity.
Qed.

Lemma portable_load_manifests_refines_from sources self totals :
  Forall (fun s => Portable.wf_manifest (Portable.load_manifest P s) = true) sources ->
  for_each (Portable.load_one P) sources totals self =
  ((fold_left (Portable.merge_step (str_lower P))
      ((fun s => (s, Portable.load_manifest P s)) <$> sources) (self, totals)).1,
   Ok (fold_left (Portable.merge_step (str_lower P))
         ((fun s => (s, Portable.load_manifest P s)) <$> sources) (self, totals)).2).
Proof.
  intros Hwf. revert self totals.
  induction Hwf as [|s sources Hs _ IH]; intros self totals; [reflexivity|].
  rewrite for_each_cons, (portable_load_one_refines _ _ _ Hs).
  cbn [fmap list_fmap fold_left].
  destruct (Portable.merge_step _ _ _) as [self' totals']. apply IH.
Qed.
End PortableMerge.

(** ** First-seen-wins: what the fold keeps *)

Section FirstSeen.
Variable lower : string -> string.
Variable field : string.

Local Abbreviation key := (uniqueness_key lower field).

Lemma merged_from_nil : merged_from lower field [] ([], ∅).
Proof.
  split; simpl.
  - intros k. rewrite lookup_empty. split.
    + intros [? ?]; discriminate.
    + intros (x & Hx & _). by apply elem_of_nil in Hx.
  - intros e He. by apply elem_of_nil in He.
  - constructor.
  - intros k. rewrite lookup_empty. split.
    + intros Hk. by apply elem_of_nil in Hk.
    + intros [? ?]; discriminate.
Qed.

Lemma merge_entry_inv arrivals ps counts source entry :
  merged_from lower field arrivals ps ->
  merged_from lower field (arrivals ++ [(source, entry)])
    (merge_entry lower field source (ps, counts) entry).1.
Proof.
  intros [Hseen Hfirst Hnodup Hkeys].
  destruct ps as [plan seen], counts as [added skipped]. simpl in *.
  unfold merge_entry. destruct (key entry) as [k|] eqn:Hk; [destruct (seen !! k) as [src|] eqn:Hs|].
  - (* duplicate *)
    split; simpl; auto.
    + intros k'. rewrite Hseen. split.
      * intros (x & Hx & Hkx). exists x. split; [apply elem_of_app; auto | done].
      * intros (x & Hx & Hkx). apply elem_of_app in Hx as [Hx|Hx]; [eauto|].
        apply list_elem_of_singleton in Hx. subst x. simpl in Hkx.
        assert (k' = k) as -> by congruence. apply Hseen. eauto.
    + intros e He. destruct (Hfirst e He) as (k' & src' & pre & post & -> & ? & ? & ?).
      exists k', src', pre, (post ++ [(source, entry)]).
      rewrite <- app_assoc. auto.
  - (* first arrival of this key *)
    assert (Hfresh : forall x, x ∈ arrivals -> key x.2 <> Some k).
    { intros x Hx Hkx. assert (is_Some (seen !! k)) as [? ?] by (apply Hseen; eauto).
      congruence. }
    split; simpl.
    + intros k'. rewrite lookup_insert_is_Some, Hseen. split.
      * intros [ <-|[_ (x & Hx & Hkx)]].
        -- exists (source, entry).
           split; [apply elem_of_app; right; by apply list_elem_of_singleton | done].
        -- exists x. split; [apply elem_of_app; auto | done].
      * intros (x & Hx & Hkx). apply elem_of_app in Hx as [Hx|Hx].
        -- destruct (decide (k = k')) as [|Hne]; [auto|]. right. eauto.
        -- apply list_elem_of_singleton in Hx. subst x. simpl in Hkx. left. congruence.
    + intros e He. apply elem_of_app in He as [He|He].
      * destruct (Hfirst e He) as (k' & src' & pre & post & -> & Hke & Hpre & Hsrc).
        exists k', src', pre, (post ++ [(source, entry)]).
        rewrite <- app_assoc. repeat split; auto.
        rewrite lookup_insert_ne; [done | congruence].
      * apply list_elem_of_singleton in He. subst e.
        exists k, source, arrivals, []. repeat split; auto.
        apply lookup_insert_eq.
    + rewrite omap_app. simpl. rewrite Hk. simpl.
      apply NoDup_app. repeat split; [done | | apply NoDup_singleton].
      intros k' Hk' Hin. apply list_elem_of_singleton in Hin. subst k'.
      apply Hkeys in Hk' as [? ?]. congruence.
    + intros k'. rewrite omap_app, elem_of_app, lookup_insert_is_Some, Hkeys.
      simpl. rewrite Hk. simpl. rewrite list_elem_of_singleton.
      split.
      * intros [?| ->]; [|auto]. destruct (decide (k = k')); auto.
      * intros [ ->|[_ ?]]; auto.
  - (* no key *)
    split; simpl; auto.
    + intros k'. rewrite Hseen. split.
      * intros (x & Hx & Hkx). exists x. split; [apply elem_of_app; auto | done].
      * intros (x & Hx & Hkx). apply elem_of_app in Hx as [Hx|Hx]; [eauto|].
        apply list_elem_of_singleton in Hx. subst x. simpl in Hkx. congruence.
    + intros e He. destruct (Hfirst e He) as (k' & src' & pre & post & -> & ? & ? & ?).
      exists k', src', pre, (post ++ [(source, entry)]).
      rewrite <- app_assoc. auto.
Qed.

Lemma fold_merge_entry_inv arrivals ps counts source entries :
  merged_from lower field arrivals ps ->
  merged_from lower field (arrivals ++ ((fun e => (source, e)) <$> entries))
    (fold_left (merge_entry lower field source) entries (ps, counts)).1.
Proof.
  revert arrivals ps counts. induction entries as [|e es IH]; intros arrivals ps counts Hinv.
  - simpl. by rewrite app_nil_r.
  - cbn [fold_left fmap list_fmap].
    pose proof (merge_entry_inv _ _ counts source e Hinv) as Hstep.
    destruct (merge_entry lower field source (ps, counts) e) as [ps1 c1].
    replace (arrivals ++ (source, e) :: ((fun e0 => (source, e0)) <$> es))
      with ((arrivals ++ [(source, e)]) ++ ((fun e0 => (source, e0)) <$> es))
      by (by rewrite <- app_assoc).
    apply IH, Hstep.
Qed.

(** Every keyed entry is either added or counted as a duplicate, and the
    plan grows by exactly the entries added. *)
Lemma fold_merge_entry_counts source entries plan seen added skipped :
  let r := fold_left (merge_entry lower field source) entries
             ((plan, seen), (added, skipped)) in
  length r.1.1 = length plan + (r.2.1 - added) /\
  added <= r.2.1 /\
  r.2.1 + r.2.2 = added + skipped + length (omap key entries).
Proof.
  revert plan seen added skipped.
  induction entries as [|e es IH]; intros plan seen added skipped.
  - simpl. lia.
  - cbn [fold_left omap list_omap].
    destruct (key e) as [k|] eqn:Hk; [destruct (seen !! k) as [src|] eqn:Hs|].
    + replace (merge_entry lower field source (plan, seen, (added, skipped)) e)
        with (plan, seen, (added, S skipped))
        by (unfold merge_entry; by rewrite Hk, Hs).
      specialize (IH plan seen added (S skipped)). cbv zeta in IH |- *.
      simpl length. lia.
    + replace (merge_entry lower field source (plan, seen, (added, skipped)) e)
        with (plan ++ [e], <[k:=source]> seen, (S added, skipped))
        by (unfold merge_entry; by rewrite Hk, Hs).
      specialize (IH (plan ++ [e]) (<[k:=source]> seen) (S added) skipped).
      cbv zeta in IH |- *. rewrite length_app in IH. simpl length in *. lia.
    + replace (merge_entry lower field source (plan, seen, (added, skipped)) e)
        with (plan, seen, (added, skipped))
        by (unfold merge_entry; by rewrite Hk).
      specialize (IH plan seen added skipped). cbv zeta in IH |- *. lia.
Qed.
End FirstSeen.

Lemma uniqueness_key_of_url lower field entry u :
  py_get entry field VNone = Ok (VStr u) -> u <> "" ->
  uniqueness_key lower field entry = Some (lower u).
Proof.
  destruct entry as [| | | |l|d]; simpl; try discriminate.
  destruct (d !! field) as [v|]; simpl; [|discriminate].
  intros [= ->] Hu. destruct (String.eqb_spec u ""); [done | reflexivity].
Qed.

Lemma merge_entries_single_fresh lower field source entry k plan seen :
  uniqueness_key lower field entry = Some k -> seen !! k = None ->
  merge_entries lower field source [entry] (plan, seen) =
  ((plan ++ [entry], <[k := source]> seen), (1, 0)).
Proof. intros Hk Hs. unfold merge_entries, merge_entry. simpl. by rewrite Hk, Hs. Qed.

Lemma merge_entries_single_dup lower field source entry k src plan seen :
  uniqueness_key lower field entry = Some k -> seen !! k = Some src ->
  merge_entries lower field source [entry] (plan, seen) = ((plan, seen), (0, 1)).
Proof. intros Hk Hs. unfold merge_entries, merge_entry. simpl. by rewrite Hk, Hs. Qed.

Section FullFirstSeen.
Variable lower : string -> string.

Lemma full_merge_source_models self source manifest :
  Full.models_plan (Full.merge_source lower self source manifest).1 =
  (merge_entries lower "url" source (entries_of "models" manifest)
     (Full.models_plan self)).1.
Proof.
  unfold Full.merge_source, Full.models_plan. simpl.
  by destruct (merge_entries _ _ _ _ _) as [[plan seen] c].
Qed.

Lemma full_merge_source_nodes self source manifest :
  Full.nodes_plan (Full.merge_source lower self source manifest).1 =
  (merge_entries lower "repo" source (entries_of "custom_nodes" manifest)
     (Full.nodes_plan self)).1.
Proof.
  unfold Full.merge_source, Full.nodes_plan. simpl.
  by destruct (merge_entries lower "repo" _ _ _) as [[plan seen] c].
Qed.

Lemma full_merge_inv docs : forall self totals arr_m arr_n,
  merged_from lower "url" arr_m (Full.models_plan self) ->
  merged_from lower "repo" arr_n (Full.nodes_plan self) ->
  merged_from lower "url" (arr_m ++ arrivals "models" docs)
    (Full.models_plan (fold_left (Full.merge_step lower) docs (self, totals)).1) /\
  merged_from lower "repo" (arr_n ++ arrivals "custom_nodes" docs)
    (Full.nodes_plan (fold_left (Full.merge_step lower) docs (self, totals)).1).
Proof.
  induction docs as [|[source manifest] docs IH]; intros self totals arr_m arr_n Hm Hn.
  - simpl. by rewrite !app_nil_r.
  - cbn [fold_left arrivals flat_map fst snd]. rewrite !app_assoc.
    unfold Full.merge_step at 2 4. cbn [fst snd].
    apply IH.
    + rewrite full_merge_source_models. by apply fold_merge_entry_inv.
    + rewrite full_merge_source_nodes. by apply fold_merge_entry_inv.
Qed.
End FullFirstSeen.

Section PortableFirstSeen.
Variable lower : string -> string.

Lemma portable_merge_source_models self source manifest :
  Portable.models_plan (Portable.merge_source lower self source manifest).1 =
  (merge_entries lower "url" source (entries_of "models" manifest)
     (Portable.models_plan self)).1.
Proof.
  unfold Portable.merge_source, Portable.models_plan. simpl.
  by destruct (merge_entries _ _ _ _ _) as [[plan seen] c].
Qed.

Lemma portable_merge_inv docs : forall self totals arr_m,
  merged_from lower "url" arr_m (Portable.models_plan self) ->
  merged_from lower "url" (arr_m ++ arrivals "models" docs)
    (Portable.models_plan (fold_left (Portable.merge_step lower) docs (self, totals)).1).
Proof.
  induction docs as [|[source manifest] docs IH]; intros self totals arr_m Hm.
  - simpl. by rewrite !app_nil_r.
  - cbn [fold_left arrivals flat_map fst snd]. rewrite !app_assoc.
    unfold Portable.merge_step at 2. cbn [fst snd].
    apply IH.
    rewrite portable_merge_source_models. by apply fold_merge_entry_inv.
Qed.
End PortableFirstSeen.

(** Every keyed arrival is either in the plan or counted as a duplicate. *)
Lemma merge_entries_counts lower field source entries plan seen :
  let r := merge_entries lower field source entries (plan, seen) in
  length r.1.1 = length plan + r.2.1 /\
  r.2.1 + r.2.2 = length (omap (uniqueness_key lower field) entries).
Proof.
  pose proof (fold_merge_entry_counts lower field source entries plan seen 0 0) as H.
  cbv zeta in *. unfold merge_entries.
  destruct (fold_left _ _ _) as [[plan' seen'] [added skipped]]. simpl in *. lia.
Qed.

Lemma arrivals_cons list_name source manifest docs :
  (arrivals list_name ((source, manifest) :: docs)).*2 =
  entries_of list_name manifest ++ (arrivals list_name docs).*2.
Proof.
  unfold arrivals. cbn [flat_map fst snd]. rewrite fmap_app. f_equal.
  rewrite <- list_fmap_compose. apply list_fmap_id.
Qed.

Section MergeCounts.
Variable lower : string -> string.

Lemma full_merge_counts docs : forall self tm tms tn tns,
  exists tm' tms' tn' tns',
    (fold_left (Full.merge_step lower) docs (self, (tm, tms, tn, tns))).2
      = (tm', tms', tn', tns') /\
    length (Full.models
              (fold_left (Full.merge_step lower) docs (self, (tm, tms, tn, tns))).1) + tm
      = length (Full.models self) + tm' /\
    tm' + tms' = tm + tms
      + length (omap (uniqueness_key lower "url") (arrivals "models" docs).*2) /\
    length (Full.custom_nodes
              (fold_left (Full.merge_step lower) docs (self, (tm, tms, tn, tns))).1) + tn
      = length (Full.custom_nodes self) + tn' /\
    tn' + tns' = tn + tns
      + length (omap (uniqueness_key lower "repo") (arrivals "custom_nodes" docs).*2).
Proof.
  induction docs as [|[source manifest] docs IH]; intros self tm tms tn tns.
  - exists tm, tms, tn, tns. simpl. repeat split; lia.
  - cbn [fold_left]. unfold Full.merge_step at 2 4 6. cbn [fst snd].
    pose proof (merge_entries_counts lower "url" source (entries_of "models" manifest)
                  (Full.models self) (Full.seen_models self)) as Hm.
    pose proof (merge_entries_counts lower "repo" source
                  (entries_of "custom_nodes" manifest)
                  (Full.custom_nodes self) (Full.seen_nodes self)) as Hn.
    cbv zeta in Hm, Hn.
    unfold Full.merge_source, Full.models_plan, Full.nodes_plan.
    unfold Full.add4. cbn [fst snd].
    destruct (merge_entries lower "url" source _ _) as [[plan_m seen_m] [am sm]].
    destruct (merge_entries lower "repo" source _ _) as [[plan_n seen_n] [an sn]].
    cbn [fst snd] in *.
    destruct (IH (Full.Build plan_m plan_n seen_m seen_n)
                (tm + am) (tms + sm) (tn + an) (tns + sn))
      as (tm' & tms' & tn' & tns' & Htot & H1 & H2 & H3 & H4).
    exists tm', tms', tn', tns'. rewrite !arrivals_cons, !omap_app, !length_app.
    cbn [Full.models Full.custom_nodes] in *.
    split; [exact Htot|]. lia.
Qed.

Lemma portable_merge_counts docs : forall self tm tms,
  exists tm' tms',
    (fold_left (Portable.merge_step lower) docs (self, (tm, tms))).2 = (tm', tms') /\
    length (Portable.models
              (fold_left (Portable.merge_step lower) docs (self, (tm, tms))).1) + tm
      = length (Portable.models self) + tm' /\
    tm' + tms' = tm + tms
      + length (omap (uniqueness_key lower "url") (arrivals "models" docs).*2).
Proof.
  induction docs as [|[source manifest] docs IH]; intros self tm tms.
  - exists tm, tms. simpl. repeat split; lia.
  - cbn [fold_left]. unfold Portable.merge_step at 2 4. cbn [fst snd].
    pose proof (merge_entries_counts lower "url" source (entries_of "models" manifest)
                  (Portable.models self) (Portable.seen_models self)) as Hm.
    cbv zeta in Hm.
    unfold Portable.merge_source, Portable.models_plan, Portable.add2. cbn [fst snd].
    destruct (merge_entries lower "url" source _ _) as [[plan_m seen_m] [am sm]].
    cbn [fst snd] in *.
    destruct (IH (Portable.Build plan_m seen_m) (tm + am) (tms + sm))
      as (tm' & tms' & Htot & H1 & H2).
    exists tm', tms'. rewrite !arrivals_cons, !omap_app, !length_app.
    cbn [Portable.models] in *.
    split; [exact Htot|]. lia.
Qed.
End MergeCounts.

(** ** C1: the merge is a first-seen-wins fold *)

(** C1.  Merging is the stable single-pass fold of the specification, in
    both programs: for every sequence of sources whose documents have the
    documented shape, [load_manifests] computes [merge] (an entry whose
    lowercased key is in the seen-map only bumps the duplicate counter of
    its manifest, any other keyed entry is appended to the plan and its key
    registered to the current source), every single [add_manifest] computes
    [merge_source], no two entries of the resulting plan share a key, and
    the totals count the plan and, with the duplicates, every keyed arrival.
    In particular two manifests that each declare one model, with URLs
    that differ only in case, give a plan with exactly the first model and
    a duplicate count of 1. *)
Theorem merge_first_seen_wins (P : platform) (sources : list string) :
  Forall (fun s => Full.wf_manifest (Full.load_manifest P s) = true) sources ->
  Forall (fun s => Portable.wf_manifest (Portable.load_manifest P s) = true) sources ->
  let lower := str_lower P in
  let docs := (fun s => (s, Full.load_manifest P s)) <$> sources in
  let pdocs := (fun s => (s, Portable.load_manifest P s)) <$> sources in
  (Full.load_manifests P sources Full.init =
     ((Full.merge lower docs).1, Ok (Full.merge lower docs).2) /\
   Portable.load_manifests P sources Portable.init =
     ((Portable.merge lower pdocs).1, Ok (Portable.merge lower pdocs).2)) /\
  (forall source self self', source ∈ sources ->
     Full.add_manifest P (Full.load_manifest P source) source self =
       ((Full.merge_source lower self source (Full.load_manifest P source)).1,
        Ok (Full.merge_source lower self source (Full.load_manifest P source)).2) /\
     Portable.add_manifest P (Portable.load_manifest P source) source self' =
       ((Portable.merge_source lower self' source (Portable.load_manifest P source)).1,
        Ok (Portable.merge_source lower self' source (Portable.load_manifest P source)).2)) /\
  (NoDup (omap (uniqueness_key lower "url") (Full.models (Full.merge lower docs).1)) /\
   NoDup (omap (uniqueness_key lower "repo") (Full.custom_nodes (Full.merge lower docs).1)) /\
   NoDup (omap (uniqueness_key lower "url") (Portable.models (Portable.merge lower pdocs).1))) /\
  ((exists tm tms tn tns,
      (Full.merge lower docs).2 = (tm, tms, tn, tns) /\
      length (Full.models (Full.merge lower docs).1) = tm /\
      tm + tms
        = length (omap (uniqueness_key lower "url") (arrivals "models" docs).*2) /\
      length (Full.custom_nodes (Full.merge lower docs).1) = tn /\
      tn + tns
        = length (omap (uniqueness_key lower "repo") (arrivals "custom_nodes" docs).*2)) /\
   (exists tm tms,
      (Portable.merge lower pdocs).2 = (tm, tms) /\
      length (Portable.models (Portable.merge lower pdocs).1) = tm /\
      tm + tms
        = length (omap (uniqueness_key lower "url") (arrivals "models" pdocs).*2))) /\
  (forall s1 s2 m1 m2 u1 u2,
     sources = [s1; s2] ->
     truthy (Full.load_manifest P s1) = true ->
     truthy (Full.load_manifest P s2) = true ->
     Portable.load_manifest P s1 = Full.load_manifest P s1 ->
     Portable.load_manifest P s2 = Full.load_manifest P s2 ->
     entries_of "models" (Full.load_manifest P s1) = [m1] ->
     entries_of "models" (Full.load_manifest P s2) = [m2] ->
     entries_of "custom_nodes" (Full.load_manifest P s1) = [] ->
     entries_of "custom_nodes" (Full.load_manifest P s2) = [] ->
     py_get m1 "url" VNone = Ok (VStr u1) -> u1 <> "" ->
     py_get m2 "url" VNone = Ok (VStr u2) -> u2 <> "" ->
     lower u1 = lower u2 ->
     Full.load_manifests P sources Full.init =
       (Full.Build [m1] [] {[lower u1 := s1]} ∅, Ok (1, 1, 0, 0)) /\
     Portable.load_manifests P sources Portable.init =
       (Portable.Build [m1] {[lower u1 := s1]}, Ok (1, 1))).
Proof.
  intros Hfull Hport lower docs pdocs.
  assert (HF : Full.load_manifests P sources Full.init =
               ((Full.merge lower docs).1, Ok (Full.merge lower docs).2))
    by apply (load_manifests_refines_from P sources _ _ Hfull).
  assert (HP : Portable.load_manifests P sources Portable.init =
               ((Portable.merge lower pdocs).1, Ok (Portable.merge lower pdocs).2))
    by apply (portable_load_manifests_refines_from P sources _ _ Hport).
  split; [by split|]. split; [|split; [|split]].
  - intros source self self' Hin. rewrite Forall_forall in Hfull, Hport. split.
    + apply add_manifest_refines, Hfull, Hin.
    + apply portable_add_manifest_refines, Hport, Hin.
  - destruct (full_merge_inv lower docs Full.init (0, 0, 0, 0) [] []) as [Hm Hn];
      try apply merged_from_nil.
    pose proof (portable_merge_inv lower pdocs Portable.init (0, 0) []
                  (merged_from_nil lower "url")) as Hpm.
    repeat split.
    + apply (plan_keys_nodup _ _ _ _ Hm).
    + apply (plan_keys_nodup _ _ _ _ Hn).
    + apply (plan_keys_nodup _ _ _ _ Hpm).
  - split.
    + destruct (full_merge_counts lower docs Full.init 0 0 0 0)
        as (tm & tms & tn & tns & Htot & H1 & H2 & H3 & H4).
      exists tm, tms, tn, tns. unfold Full.merge. simpl in *.
      split; [exact Htot|]. lia.
    + destruct (portable_merge_counts lower pdocs Portable.init 0 0)
        as (tm & tms & Htot & H1 & H2).
      exists tm, tms. unfold Portable.merge. simpl in *.
      split; [exact Htot|]. lia.
  - intros s1 s2 m1 m2 u1 u2 -> Ht1 Ht2 Hp1 Hp2 Hm1 Hm2 Hn1 Hn2 Hu1 Hne1 Hu2 Hne2 Hlow.
    rewrite HF, HP. subst docs pdocs. cbn [fmap list_fmap].
    rewrite Hp1, Hp2.
    pose proof (uniqueness_key_of_url lower "url" m1 u1 Hu1 Hne1) as Hk1.
    pose proof (uniqueness_key_of_url lower "url" m2 u2 Hu2 Hne2) as Hk2.
    rewrite <- Hlow in Hk2.
    unfold Full.merge, Portable.merge, Full.merge_step, Portable.merge_step,
      Full.merge_source, Portable.merge_source.
    cbn [fold_left fst snd]. rewrite Hm1, Hn1, Hm2, Hn2.
    unfold Full.models_plan, Full.nodes_plan, Portable.models_plan,
      Full.init, Portable.init.
    cbn [Full.models Full.seen_models Full.custom_nodes Full.seen_nodes
         Portable.models Portable.seen_models].
    rewrite !merge_entries_nil.
    rewrite (merge_entries_single_fresh lower "url" s1 m1 _ [] ∅ Hk1 (lookup_empty _)).
    cbn [fst snd Full.models Full.seen_models Full.custom_nodes Full.seen_nodes
         Portable.models Portable.seen_models].
    rewrite (merge_entries_single_dup lower "url" s2 m2 _ s1 _ _ Hk2 (lookup_insert_eq _ _ _)).
    rewrite insert_empty. split; reflexivity.
Qed.

(** Scenario A on a concrete host: [a.json] and [b.json] declare the same
    model URL in different case. *)
Lemma merge_first_seen_wins_witness :
  Forall (fun s => Full.wf_manifest (Full.load_manifest (offline two_manifests) s) = true)
    ["a.json"; "b.json"] /\
  Forall (fun s => Portable.wf_manifest
                     (Portable.load_manifest (offline two_manifests) s) = true)
    ["a.json"; "b.json"] /\
  Full.load_manifests (offline two_manifests) ["a.json"; "b.json"] Full.init =
    (Full.Build [model_upper] []
       {["https://host/models/base.safetensors" := "a.json"]} ∅,
     Ok (1, 1, 0, 0)) /\
  Portable.load_manifests (offline two_manifests) ["a.json"; "b.json"] Portable.init =
    (Portable.Build [model_upper]
       {["https://host/models/base.safetensors" := "a.json"]},
     Ok (1, 1)).
Proof.
  assert (HF : Forall (fun s => Full.wf_manifest
                         (Full.load_manifest (offline two_manifests) s) = true)
                 ["a.json"; "b.json"])
    by (repeat constructor).
  assert (HP : Forall (fun s => Portable.wf_manifest
                         (Portable.load_manifest (offline two_manifests) s) = true)
                 ["a.json"; "b.json"])
    by (repeat constructor).
  split; [exact HF|]. split; [exact HP|].
  destruct (merge_first_seen_wins (offline two_manifests) ["a.json"; "b.json"] HF HP)
    as (_ & _ & _ & _ & Hscenario).
  apply (Hscenario "a.json" "b.json" model_upper model_lower
           "https://HOST/Models/Base.safetensors"
           "https://host/models/base.safetensors");
    first [reflexivity | discriminate].
Defined.

(** ** C7: an entry without its key is dropped silently *)

Lemma lacks_key_get field entry :
  lacks_key field entry = true ->
  exists v, py_get entry field VNone = Ok v /\ truthy v = false.
Proof.
  destruct entry as [| | | |l|d]; simpl; try discriminate.
  intros H. apply negb_true_iff in H. eauto.
Qed.

Lemma truthy_dict_lookup (d : gmap string value) k v :
  d !! k = Some v -> truthy (VDict d) = true.
Proof.
  intros Hk. simpl. apply negb_true_iff, bool_decide_eq_false.
  intros Hsize. apply map_size_empty_iff in Hsize. subst d.
  by rewrite lookup_empty in Hk.
Qed.

Lemma for_each_drop_inert {S A B} (body : B -> A -> Py S B) pre x post :
  (forall acc s, body acc x s = (s, Ok acc)) ->
  forall acc s, for_each body (pre ++ x :: post) acc s = for_each body (pre ++ post) acc s.
Proof.
  intros Hx acc s. rewrite !for_each_app.
  destruct (for_each body pre acc s) as [s' [acc'|e]]; [|reflexivity].
  by rewrite for_each_cons, Hx.
Qed.

Lemma add_entries_drop_missing lower list_name field d pre entry post source ps :
  lacks_key field entry = true ->
  d !! list_name = Some (VList (pre ++ entry :: post)) ->
  add_entries lower list_name field (VDict d) source ps =
  add_entries lower list_name field
    (VDict (<[list_name := VList (pre ++ post)]> d)) source ps.
Proof.
  intros Hlack Hd. destruct (lacks_key_get _ _ Hlack) as (v & Hget & Hv).
  unfold add_entries, bind, lift. simpl. rewrite Hd, lookup_insert_eq. simpl.
  apply for_each_drop_inert. intros acc s.
  apply (add_entry_missing _ _ _ _ _ _ _ Hget Hv).
Qed.

Lemma add_entries_other_list lower list_name other field d v source ps :
  list_name <> other ->
  add_entries lower list_name field (VDict (<[other := v]> d)) source ps =
  add_entries lower list_name field (VDict d) source ps.
Proof.
  intros Hne. unfold add_entries, bind, lift. simpl.
  by rewrite lookup_insert_ne.
Qed.

(** C7.  During merge an entry missing its uniqueness key (a model
    without [url], a node without [repo]) is dropped silently: the loop
    body leaves plan, seen-map and both counters as they were, and taking
    such entries out of a manifest changes nothing in what [add_manifest]
    returns or does to the store, in either program. *)
Theorem missing_key_entry_dropped (P : platform) (source : string)
    (d : gmap string value) (pre post pre' post' : list value) (model node : value) :
  lacks_key "url" model = true ->
  lacks_key "repo" node = true ->
  d !! "models" = Some (VList (pre ++ model :: post)) ->
  d !! "custom_nodes" = Some (VList (pre' ++ node :: post')) ->
  (forall counts ps,
     add_entry (str_lower P) "url" source counts model ps = (ps, Ok counts)) /\
  (forall counts ps,
     add_entry (str_lower P) "repo" source counts node ps = (ps, Ok counts)) /\
  (forall self,
     Full.add_manifest P (VDict d) source self =
     Full.add_manifest P
       (VDict (<["models" := VList (pre ++ post)]>
               (<["custom_nodes" := VList (pre' ++ post')]> d))) source self) /\
  (forall self,
     Portable.add_manifest P (VDict d) source self =
     Portable.add_manifest P (VDict (<["models" := VList (pre ++ post)]> d)) source self).
Proof.
  intros Hm Hn Hdm Hdn.
  destruct (lacks_key_get _ _ Hm) as (vm & Hgm & Hvm).
  destruct (lacks_key_get _ _ Hn) as (vn & Hgn & Hvn).
  repeat split.
  - intros counts ps. apply (add_entry_missing _ _ _ _ _ _ _ Hgm Hvm).
  - intros counts ps. apply (add_entry_missing _ _ _ _ _ _ _ Hgn Hvn).
  - intros self. unfold Full.add_manifest.
    rewrite (truthy_dict_lookup _ _ _ Hdm).
    rewrite (truthy_dict_lookup _ "models" (VList (pre ++ post)))
      by apply lookup_insert_eq.
    cbn [negb]. unfold bind, zoom.
    rewrite <- (add_entries_drop_missing _ "models" "url" _ pre model post)
      by (rewrite ?lookup_insert_ne; done).
    rewrite (add_entries_other_list _ "models" "custom_nodes") by done.
    destruct (add_entries (str_lower P) "models" "url" (VDict d) source _)
      as [ps1 [c1|e1]]; [|reflexivity].
    rewrite (add_entries_other_list _ "custom_nodes" "models") by done.
    rewrite <- (add_entries_drop_missing _ "custom_nodes" "repo" _ pre' node post')
      by done.
    reflexivity.
  - intros self. unfold Portable.add_manifest.
    rewrite (truthy_dict_lookup _ _ _ Hdm).
    rewrite (truthy_dict_lookup _ "models" (VList (pre ++ post)))
      by apply lookup_insert_eq.
    cbn [negb]. unfold zoom.
    by rewrite <- (add_entries_drop_missing _ "models" "url" _ pre model post).
Qed.

Lemma missing_key_entry_dropped_witness :
  lacks_key "url" model_no_url = true /\
  lacks_key "repo" node_no_repo = true /\
  manifest_with_gaps !! "models"
    = Some (VList ([model_upper] ++ model_no_url :: [model_lower])) /\
  manifest_with_gaps !! "custom_nodes" = Some (VList ([] ++ node_no_repo :: [])) /\
  (forall self,
     Full.add_manifest (offline two_manifests) (VDict manifest_with_gaps) "a.json" self =
     Full.add_manifest (offline two_manifests)
       (VDict (<["models" := VList ([model_upper] ++ [model_lower])]>
               (<["custom_nodes" := VList ([] ++ [])]> manifest_with_gaps)))
       "a.json" self) /\
  (forall counts ps,
     add_entry lower_ascii "url" "a.json" counts model_no_url ps = (ps, Ok counts)).
Proof.
  assert (H1 : lacks_key "url" model_no_url = true) by reflexivity.
  assert (H2 : lacks_key "repo" node_no_repo = true) by reflexivity.
  assert (H3 : manifest_with_gaps !! "models"
               = Some (VList ([model_upper] ++ model_no_url :: [model_lower])))
    by reflexivity.
  assert (H4 : manifest_with_gaps !! "custom_nodes"
               = Some (VList ([] ++ node_no_repo :: []))) by reflexivity.
  destruct (missing_key_entry_dropped (offline two_manifests) "a.json"
              manifest_with_gaps [model_upper] [model_lower] [] []
              model_no_url node_no_repo H1 H2 H3 H4) as (Hm & _ & Hfull & _).
  split; [exact H1|]. split; [exact H2|]. split; [exact H3|]. split; [exact H4|].
  split; [exact Hfull | exact Hm].
Defined.

(** ** Facts about the plan runner *)

Lemma filter_types_dicts types_filter ms :
  forallb is_dict ms = true ->
  filter_types types_filter ms =
  Ok (List.filter (fun m => py_in_strs (entry_type m) types_filter) ms).
Proof.
  induction ms as [|m ms IH]; intros Hd; [reflexivity|].
  simpl in Hd. apply andb_true_iff in Hd as [Hm Hms].
  destruct m; try discriminate. simpl. rewrite (IH Hms).
  by destruct (py_in_strs _ _).
Qed.

Lemma selected_models_plan d ms types_filter :
  d !! "models" = Some (VList ms) ->
  forallb is_dict ms = true ->
  selected_models (VDict d) types_filter =
  Ok (match types_filter with
      | Some (t :: ts) =>
          List.filter (fun m => py_in_strs (entry_type m) (t :: ts)) ms
      | _ => ms
      end).
Proof.
  intros Hd Hms. unfold selected_models. simpl. rewrite Hd. simpl.
  destruct types_filter as [[|t ts]|]; try reflexivity.
  by apply filter_types_dicts.
Qed.


Section RunnerFacts.
Context (P : platform) (download_file : value -> string -> value -> Py world bool).

End RunnerFacts.

(** ** C9: the plan stores the first record verbatim *)







(** ** C6: digest verification *)

Lemma read_blocks_concat n : 0 < n -> forall fuel data,
  length data <= fuel -> concat (read_blocks fuel n data) = data.
Proof.
  intros Hn. induction fuel as [|fuel IH]; intros data Hlen.
  - destruct data; [reflexivity | simpl in Hlen; lia].
  - cbn [read_blocks]. destruct (take n data) as [|b bs] eqn:Htake.
    + destruct data as [|x data]; [reflexivity|].
      destruct n; [lia | discriminate].
    + cbn [concat]. rewrite IH.
      * rewrite <- Htake. apply take_drop.
      * rewrite length_drop. destruct data; simpl in *; lia.
Qed.

Lemma read_blocks_sizes n : 0 < n -> forall fuel data,
  Forall (fun block => 0 < length block <= n) (read_blocks fuel n data).
Proof.
  intros Hn. induction fuel as [|fuel IH]; intros data; [constructor|].
  cbn [read_blocks]. destruct (take n data) as [|b bs] eqn:Htake; constructor.
  - rewrite <- Htake. split; [rewrite Htake; simpl; lia | apply firstn_le_length].
  - apply IH.
Qed.

Lemma read_blocks_lookup n fuel : forall data i block,
  read_blocks fuel n data !! i = Some block ->
  block = take n (drop (i * n) data).
Proof.
  induction fuel as [|fuel IH]; intros data i block; [by destruct i|].
  cbn [read_blocks]. destruct (take n data) as [|b bs] eqn:Htake; [by destruct i|].
  destruct i as [|i]; simpl.
  - intros [= <-]. by rewrite <- Htake.
  - intros Hi. rewrite (IH _ _ _ Hi), drop_drop. reflexivity.
Qed.

Lemma fold_left_feed blocks : forall acc : list Byte.byte,
  fold_left (fun acc byte_block => acc ++ byte_block) blocks acc = acc ++ concat blocks.
Proof.
  induction blocks as [|b bs IH]; intros acc; simpl.
  - by rewrite app_nil_r.
  - by rewrite IH, app_assoc.
Qed.

Lemma py_eq_str_true s v : py_eq_str s v = true <-> v = VStr s.
Proof.
  destruct v; simpl; try (split; [discriminate | congruence]).
  rewrite String.eqb_eq. split; congruence.
Qed.

Lemma append_flip_neq (pre post : string) (c c' : ascii) :
  c <> c' -> String.append pre (String c' post) <> String.append pre (String c post).
Proof.
  intros Hc. induction pre as [|a pre IH]; cbn [String.append]; intros Heq;
    injection Heq; intros; [congruence | contradiction].
Qed.

Section VerifyFacts.
Context (P : platform).

Lemma verify_hash_file file_path data expected_hash w :
  fs w !! file_path = Some (File data) ->
  verify_hash P file_path expected_hash w =
  (World (fs w) (trace w ++ [EvRead file_path]),
   Ok (py_eq_str (sha256_hex P data) expected_hash)).
Proof.
  intros Hfile. unfold verify_hash, read_file, bind, log, modify, gets, ret. simpl.
  rewrite Hfile. rewrite fold_left_feed, read_blocks_concat by lia. reflexivity.
Qed.

Lemma verify_hash_missing file_path expected_hash w :
  fs w !! file_path = None ->
  verify_hash P file_path expected_hash w =
  (World (fs w) (trace w ++ [EvRead file_path]), Raise FileNotFoundError).
Proof.
  intros Hfile. unfold verify_hash, read_file, bind, log, modify, gets, raise. simpl.
  by rewrite Hfile.
Qed.
End VerifyFacts.

(** C6.  For a file holding [data], [verify_hash] feeds the digest
    accumulator the consecutive 4096-byte blocks of [data] (the last one
    possibly shorter, none empty), which add up to [data], leaves
    the file system as it is, and answers whether the expected value is
    exactly the hex digest of [data]: it accepts [digest(file)], rejects
    every other value, in particular the digest with any one character
    replaced by a different one (so also by its other-case form). *)
Theorem verify_hash_pure (P : platform) (w : world) (file_path : string)
    (data : list Byte.byte) :
  fs w !! file_path = Some (File data) ->
  let digest := sha256_hex P data in
  let blocks := read_blocks (length data) 4096 data in
  (concat blocks = data /\
   Forall (fun block => 0 < length block <= 4096) blocks /\
   forall i block, blocks !! i = Some block ->
                   block = take 4096 (drop (i * 4096) data)) /\
  (forall expected_hash,
     verify_hash P file_path expected_hash w =
     (World (fs w) (trace w ++ [EvRead file_path]),
      Ok (py_eq_str digest expected_hash))) /\
  (verify_hash P file_path (VStr digest) w).2 = Ok true /\
  (forall expected_hash, expected_hash <> VStr digest ->
     (verify_hash P file_path expected_hash w).2 = Ok false) /\
  (forall pre c c' post, digest = String.append pre (String c post) -> c <> c' ->
     (verify_hash P file_path (VStr (String.append pre (String c' post))) w).2 = Ok false).
Proof.
  intros Hfile digest blocks.
  assert (Hreject : forall expected_hash, expected_hash <> VStr digest ->
            (verify_hash P file_path expected_hash w).2 = Ok false).
  { intros e He. rewrite (verify_hash_file P _ _ _ _ Hfile). cbn [snd]. f_equal.
    destruct (py_eq_str (sha256_hex P data) e) eqn:E; [|reflexivity].
    apply py_eq_str_true in E. contradiction. }
  repeat split.
  - apply read_blocks_concat; lia.
  - apply read_blocks_sizes; lia.
  - intros i block. apply read_blocks_lookup.
  - intros e. apply (verify_hash_file P _ _ _ _ Hfile).
  - rewrite (verify_hash_file P _ _ _ _ Hfile). cbn [snd]. f_equal.
    by apply py_eq_str_true.
  - exact Hreject.
  - intros pre c c' post Hd Hc. apply Hreject. rewrite Hd.
    intros [= Heq]. by apply (append_flip_neq pre post c c').
Qed.

Example read_blocks_by_two :
  read_blocks 5 2 (list_byte_of_string "abcde")
  = [list_byte_of_string "ab"; list_byte_of_string "cd"; list_byte_of_string "e"].
Proof. reflexivity. Qed.

Lemma verify_hash_pure_witness :
  fs (world_with [("lora.bin", "abc")]) !! "lora.bin"
    = Some (File (list_byte_of_string "abc")) /\
  (verify_hash (offline no_manifest) "lora.bin" (VStr "abc")
     (world_with [("lora.bin", "abc")])).2 = Ok true /\
  (verify_hash (offline no_manifest) "lora.bin" (VStr "abC")
     (world_with [("lora.bin", "abc")])).2 = Ok false.
Proof.
  assert (H : fs (world_with [("lora.bin", "abc")]) !! "lora.bin"
              = Some (File (list_byte_of_string "abc"))) by reflexivity.
  pose proof (verify_hash_pure (offline no_manifest) _ _ _ H) as Hv.
  cbv zeta in Hv. destruct Hv as (_ & _ & Hok & _ & Hflip).
  split; [exact H|]. split; [exact Hok|].
  apply (Hflip "ab" "c"%char "C"%char ""); [reflexivity | discriminate].
Defined.

(** ** Running the primitives *)

Ltac py_unfold :=
  cbv beta iota zeta delta
    [try_except bind lift gets modify ret raise mkdir_parents path_exists
     read_file unlink open_write set_node log fs trace].

Lemma write_chunks_file dest_path chunks : forall fs0 tr0 data,
  fs0 !! dest_path = Some (File data) ->
  write_chunks dest_path chunks (World fs0 tr0) =
  (World (<[dest_path := File (data ++ concat chunks)]> fs0) tr0, Ok tt).
Proof.
  unfold write_chunks.
  induction chunks as [|c cs IH]; intros fs0 tr0 data Hfile.
  - simpl. unfold ret. rewrite app_nil_r, insert_id; auto.
  - rewrite for_each_cons. unfold write_chunk at 1, modify. simpl.
    rewrite (IH _ _ (data ++ c)).
    + f_equal. f_equal. rewrite <- app_assoc. apply map_eq. intros k.
      destruct (decide (k = dest_path)) as [->|Hne].
      * by rewrite !lookup_insert_eq.
      * rewrite !lookup_insert_ne by done. by rewrite lookup_alter_ne.
    + rewrite lookup_alter_eq, Hfile. reflexivity.
Qed.

Lemma concat_filter_nonempty (chunks : list (list Byte.byte)) :
  concat (filter (fun chunk => chunk ≠ []) chunks) = concat chunks.
Proof.
  induction chunks as [|c cs IH]; [reflexivity|].
  rewrite filter_cons. destruct (decide (c ≠ [])) as [Hc|Hc]; simpl; rewrite IH; [done|].
  destruct c; [reflexivity | exfalso; apply Hc; discriminate].
Qed.

Section DownloadRuns.
Context (P : platform).

(** The transfer of the full program, by what the server does. *)
Lemma requests_download_run url dest_path fs0 tr0 :
  Full.requests_download P url dest_path (World fs0 tr0) =
  match requests_get P tr0 url with
  | RespError => (World fs0 (tr0 ++ [EvRequestsGet url]), Raise RequestException)
  | RespBody chunks interrupted =>
      match fs0 !! dest_path with
      | Some Dir =>
          (World fs0 (tr0 ++ [EvRequestsGet url; EvOpenWrite dest_path]),
           Raise IsADirectoryError)
      | _ =>
          (World (<[dest_path := File (concat chunks)]> fs0)
             (tr0 ++ [EvRequestsGet url; EvOpenWrite dest_path]),
           if interrupted then Raise RequestException else Ok tt)
      end
  end.
Proof.
  unfold Full.requests_download. py_unfold. simpl.
  destruct (requests_get P tr0 url) as [|chunks interrupted]; [reflexivity|].
  rewrite <- app_assoc. simpl.
  destruct (fs0 !! dest_path) as [[data|]|] eqn:Hd; [| reflexivity |].
  - rewrite (write_chunks_file _ _ _ _ []) by apply lookup_insert_eq.
    rewrite insert_insert_eq. simpl. by destruct interrupted.
  - rewrite (write_chunks_file _ _ _ _ []) by apply lookup_insert_eq.
    rewrite insert_insert_eq. simpl. by destruct interrupted.
Qed.

Lemma download_with_requests_run url dest_path fs0 tr0 :
  Portable.download_with_requests P url dest_path (World fs0 tr0) =
  match requests_get P tr0 url with
  | RespError => (World fs0 (tr0 ++ [EvRequestsGet url]), Ok false)
  | RespBody chunks interrupted =>
      match fs0 !! dest_path with
      | Some Dir =>
          (World fs0 (tr0 ++ [EvRequestsGet url; EvOpenWrite dest_path]), Ok false)
      | _ =>
          (World (<[dest_path := File (concat chunks)]> fs0)
             (tr0 ++ [EvRequestsGet url; EvOpenWrite dest_path]),
           Ok (negb interrupted))
      end
  end.
Proof.
  unfold Portable.download_with_requests. py_unfold. simpl.
  destruct (requests_get P tr0 url) as [|chunks interrupted]; [reflexivity|].
  rewrite <- app_assoc. simpl.
  destruct (fs0 !! dest_path) as [[data|]|] eqn:Hd; [| reflexivity |].
  - rewrite (write_chunks_file _ _ _ _ []) by apply lookup_insert_eq.
    rewrite insert_insert_eq, concat_filter_nonempty. simpl. by destruct interrupted.
  - rewrite (write_chunks_file _ _ _ _ []) by apply lookup_insert_eq.
    rewrite insert_insert_eq, concat_filter_nonempty. simpl. by destruct interrupted.
Qed.

Lemma download_with_curl_run url dest_path fs0 tr0 :
  Portable.download_with_curl P url dest_path (World fs0 tr0) =
  let tr1 := tr0 ++ [EvCurl url dest_path] in
  let run partial :=
    (World (match (curl_run P tr0 url dest_path partial).2 with
            | Some data => <[dest_path := File data]> fs0
            | None => delete dest_path fs0
            end) tr1,
     Ok (curl_run P tr0 url dest_path partial).1) in
  match fs0 !! dest_path with
  | Some Dir => (World fs0 tr1, Ok false)
  | Some (File partial) => run (Some partial)
  | None => run None
  end.
Proof.
  unfold Portable.download_with_curl. py_unfold. simpl.
  destruct (fs0 !! dest_path) as [[partial|]|]; [| reflexivity |].
  - destruct (curl_run P tr0 url dest_path (Some partial)) as [ok [after|]]; reflexivity.
  - destruct (curl_run P tr0 url dest_path None) as [ok [after|]]; reflexivity.
Qed.
End DownloadRuns.

Ltac fs_simpl :=
  repeat first
    [ rewrite lookup_insert_eq | rewrite lookup_delete_eq | rewrite delete_insert_eq
    | progress cbv beta iota zeta | progress simpl ].

Ltac fs_done :=
  fs_simpl; rewrite ?delete_id by done; rewrite <- ?app_assoc; reflexivity.

Section VerifyRuns.
Context (P : platform).

Lemma verify_hash_run file_path expected_hash fs0 tr0 :
  verify_hash P file_path expected_hash (World fs0 tr0) =
  (World fs0 (tr0 ++ [EvRead file_path]),
   match fs0 !! file_path with
   | Some (File data) => Ok (py_eq_str (sha256_hex P data) expected_hash)
   | Some Dir => Raise IsADirectoryError
   | None => Raise FileNotFoundError
   end).
Proof.
  destruct (fs0 !! file_path) as [[data|]|] eqn:Hf.
  - by rewrite (verify_hash_file P _ data).
  - unfold verify_hash. py_unfold. by rewrite Hf.
  - by rewrite verify_hash_missing.
Qed.
End VerifyRuns.

Section FullDownload.
Context (P : platform).

(** An existing file whose digest is the expected one is kept. *)
Lemma full_download_verified url dest_path expected_hash data fs0 tr0 :
  fs0 !! dest_path = Some (File data) ->
  truthy expected_hash = true ->
  py_eq_str (sha256_hex P data) expected_hash = true ->
  Full.download_file P url dest_path expected_hash (World fs0 tr0) =
  (World fs0 (tr0 ++ [EvMkdir (path_parent P dest_path); EvExists dest_path;
                      EvRead dest_path]),
   Ok true).
Proof.
  intros Hfile Hh Hmatch. unfold Full.download_file. py_unfold.
  rewrite Hfile, Hh. simpl. rewrite verify_hash_run, Hfile, Hmatch.
  by rewrite <- !app_assoc.
Qed.

(** An existing file is trusted when no digest is given. *)
Lemma full_download_trusted url dest_path expected_hash node fs0 tr0 :
  fs0 !! dest_path = Some node ->
  truthy expected_hash = false ->
  Full.download_file P url dest_path expected_hash (World fs0 tr0) =
  (World fs0 (tr0 ++ [EvMkdir (path_parent P dest_path); EvExists dest_path]),
   Ok true).
Proof.
  intros Hfile Hh. unfold Full.download_file. py_unfold.
  rewrite Hfile, Hh. simpl. by rewrite <- !app_assoc.
Qed.

(** The transfer and what follows it, from the world in which it starts:
    [stale] tells whether a file with a wrong digest is still in place. *)
Lemma full_download_fetch url dest_path expected_hash fs0 tr0 :
  (fs0 !! dest_path = None \/
   exists data, fs0 !! dest_path = Some (File data) /\ truthy expected_hash = true /\
                py_eq_str (sha256_hex P data) expected_hash = false) ->
  let stale := bool_decide (is_Some (fs0 !! dest_path)) in
  let tr1 := tr0 ++ [EvMkdir (path_parent P dest_path); EvExists dest_path]
                 ++ (if stale then [EvRead dest_path] else []) in
  Full.download_file P url dest_path expected_hash (World fs0 tr0) =
  match requests_get P tr1 url with
  | RespError =>
      (World (delete dest_path fs0)
         (tr1 ++ [EvRequestsGet url; EvExists dest_path]
              ++ (if stale then [EvUnlink dest_path] else [])),
       Ok false)
  | RespBody chunks interrupted =>
      let fs1 := <[dest_path := File (concat chunks)]> fs0 in
      let tr2 := tr1 ++ [EvRequestsGet url; EvOpenWrite dest_path] in
      if interrupted then
        (World (delete dest_path fs0) (tr2 ++ [EvExists dest_path; EvUnlink dest_path]),
         Ok false)
      else if truthy expected_hash then
        if py_eq_str (sha256_hex P (concat chunks)) expected_hash
        then (World fs1 (tr2 ++ [EvRead dest_path]), Ok true)
        else (World (delete dest_path fs0) (tr2 ++ [EvRead dest_path; EvUnlink dest_path]),
              Ok false)
      else (World fs1 tr2, Ok true)
  end.
Proof.
  intros Hpre. unfold Full.download_file. py_unfold.
  destruct Hpre as [Hnone | (data & Hfile & Hh & Hmis)].
  - rewrite Hnone. simpl. rewrite requests_download_run, <- !app_assoc. simpl.
    destruct (requests_get P _ url) as [|chunks interrupted].
    + rewrite Hnone. simpl. rewrite <- !app_assoc. simpl.
      by rewrite delete_id.
    + rewrite Hnone. destruct interrupted.
      * rewrite lookup_insert_eq. simpl. rewrite lookup_insert_eq.
        rewrite delete_insert_eq, delete_id by done. by rewrite <- !app_assoc.
      * destruct (truthy expected_hash); [|reflexivity].
        rewrite verify_hash_run, lookup_insert_eq.
        destruct (py_eq_str (sha256_hex P (concat chunks)) expected_hash);
          [by rewrite <- !app_assoc|].
        rewrite lookup_insert_eq, delete_insert_eq, delete_id by done.
        by rewrite <- !app_assoc.
  - rewrite Hfile, Hh. simpl. rewrite verify_hash_run, Hfile, Hmis.
    rewrite requests_download_run, <- !app_assoc. simpl.
    destruct (requests_get P _ url) as [|chunks interrupted].
    + rewrite Hfile. simpl. rewrite Hfile. by rewrite <- !app_assoc.
    + rewrite Hfile. destruct interrupted.
      * rewrite lookup_insert_eq. simpl. rewrite lookup_insert_eq.
        rewrite delete_insert_eq. by rewrite <- !app_assoc.
      * rewrite verify_hash_run, lookup_insert_eq.
        destruct (py_eq_str (sha256_hex P (concat chunks)) expected_hash);
          [by rewrite <- !app_assoc|].
        cbv beta iota zeta. rewrite lookup_insert_eq, delete_insert_eq.
        by rewrite <- !app_assoc.
Qed.
End FullDownload.

Section PortableDownload.
Context (P : platform).

Lemma portable_download_verified url dest_path expected_hash data fs0 tr0 :
  fs0 !! dest_path = Some (File data) ->
  truthy expected_hash = true ->
  py_eq_str (sha256_hex P data) expected_hash = true ->
  Portable.download_file P url dest_path expected_hash (World fs0 tr0) =
  (World fs0 (tr0 ++ [EvMkdir (path_parent P dest_path); EvExists dest_path;
                      EvRead dest_path]),
   Ok true).
Proof.
  intros Hfile Hh Hmatch. unfold Portable.download_file. py_unfold.
  rewrite Hfile, Hh. simpl. rewrite verify_hash_run, Hfile, Hmatch.
  by rewrite <- !app_assoc.
Qed.

Lemma portable_download_trusted url dest_path expected_hash node fs0 tr0 :
  fs0 !! dest_path = Some node ->
  truthy expected_hash = false ->
  Portable.download_file P url dest_path expected_hash (World fs0 tr0) =
  (World fs0 (tr0 ++ [EvMkdir (path_parent P dest_path); EvExists dest_path]),
   Ok true).
Proof.
  intros Hfile Hh. unfold Portable.download_file. py_unfold.
  rewrite Hfile, Hh. simpl. by rewrite <- !app_assoc.
Qed.

(** A missing file is fetched; a file with a wrong digest is deleted
    first. *)
Lemma portable_download_fetch url dest_path expected_hash fs0 tr0 :
  (fs0 !! dest_path = None \/
   exists data, fs0 !! dest_path = Some (File data) /\ truthy expected_hash = true /\
                py_eq_str (sha256_hex P data) expected_hash = false) ->
  let stale := bool_decide (is_Some (fs0 !! dest_path)) in
  Portable.download_file P url dest_path expected_hash (World fs0 tr0) =
  Portable.fetch P url dest_path expected_hash
    (World (delete dest_path fs0)
       (tr0 ++ [EvMkdir (path_parent P dest_path); EvExists dest_path]
            ++ (if stale then [EvRead dest_path; EvUnlink dest_path] else []))).
Proof.
  intros Hpre. unfold Portable.download_file. py_unfold.
  destruct Hpre as [Hnone | (data & Hfile & Hh & Hmis)].
  - rewrite Hnone. simpl. rewrite <- !app_assoc. simpl. by rewrite delete_id.
  - rewrite Hfile, Hh. simpl. rewrite verify_hash_run, Hfile, Hmis.
    cbv beta iota zeta. rewrite Hfile. by rewrite <- !app_assoc.
Qed.

(** The transfer of the portable program into a free destination. *)
Lemma portable_fetch_run url dest_path expected_hash fs0 tr0 :
  fs0 !! dest_path = None ->
  Portable.fetch P url dest_path expected_hash (World fs0 tr0) =
  let checked data tr :=
    if truthy expected_hash then
      if py_eq_str (sha256_hex P data) expected_hash
      then (World (<[dest_path := File data]> fs0) (tr ++ [EvRead dest_path]), Ok true)
      else (World fs0 (tr ++ [EvRead dest_path; EvUnlink dest_path]), Ok false)
    else (World (<[dest_path := File data]> fs0) tr, Ok true) in
  if has_curl P then
    let tr1 := tr0 ++ [EvCurl url dest_path] in
    match curl_run P tr0 url dest_path None with
    | (false, Some _) =>
        (World fs0 (tr1 ++ [EvExists dest_path; EvUnlink dest_path]), Ok false)
    | (false, None) => (World fs0 (tr1 ++ [EvExists dest_path]), Ok false)
    | (true, Some data) => checked data tr1
    | (true, None) =>
        if truthy expected_hash
        then (World fs0 (tr1 ++ [EvRead dest_path]), Raise FileNotFoundError)
        else (World fs0 tr1, Ok true)
    end
  else if HAS_REQUESTS P then
    match requests_get P tr0 url with
    | RespError =>
        (World fs0 (tr0 ++ [EvRequestsGet url; EvExists dest_path]), Ok false)
    | RespBody chunks true =>
        (World fs0 (tr0 ++ [EvRequestsGet url; EvOpenWrite dest_path;
                            EvExists dest_path; EvUnlink dest_path]), Ok false)
    | RespBody chunks false =>
        checked (concat chunks) (tr0 ++ [EvRequestsGet url; EvOpenWrite dest_path])
    end
  else (World fs0 tr0, Ok false).
Proof.
  intros Hnone. unfold Portable.fetch.
  destruct (has_curl P); [|destruct (HAS_REQUESTS P)].
  - unfold bind at 1 2. rewrite download_with_curl_run, Hnone. cbv beta iota zeta.
    destruct (curl_run P tr0 url dest_path None) as [[|] [data|]]; py_unfold; simpl.
    + destruct (truthy expected_hash); [|reflexivity].
      rewrite verify_hash_run, lookup_insert_eq.
      destruct (py_eq_str (sha256_hex P data) expected_hash); fs_done.
    + rewrite delete_id by done. destruct (truthy expected_hash); [|reflexivity].
      by rewrite verify_hash_run, Hnone.
    + fs_done.
    + fs_done.
  - unfold bind at 1 2. rewrite download_with_requests_run, Hnone.
    destruct (requests_get P tr0 url) as [|chunks [|]]; py_unfold; simpl.
    + rewrite Hnone. fs_done.
    + fs_done.
    + destruct (truthy expected_hash); [|reflexivity].
      rewrite verify_hash_run, lookup_insert_eq.
      destruct (py_eq_str (sha256_hex P (concat chunks)) expected_hash); fs_done.
  - reflexivity.
Qed.
End PortableDownload.

Section DirectoryInTheWay.
Context (P : platform).

Lemma full_download_dir url dest_path expected_hash fs0 tr0 :
  fs0 !! dest_path = Some Dir ->
  truthy expected_hash = true ->
  Full.download_file P url dest_path expected_hash (World fs0 tr0) =
  (World fs0 (tr0 ++ [EvMkdir (path_parent P dest_path); EvExists dest_path;
                      EvRead dest_path; EvExists dest_path; EvUnlink dest_path]),
   Raise IsADirectoryError).
Proof.
  intros Hdir Hh. unfold Full.download_file. py_unfold.
  rewrite Hdir, Hh. simpl. rewrite verify_hash_run.
  repeat (rewrite Hdir; simpl). by rewrite <- !app_assoc.
Qed.

Lemma portable_download_dir url dest_path expected_hash fs0 tr0 :
  fs0 !! dest_path = Some Dir ->
  truthy expected_hash = true ->
  Portable.download_file P url dest_path expected_hash (World fs0 tr0) =
  (World fs0 (tr0 ++ [EvMkdir (path_parent P dest_path); EvExists dest_path;
                      EvRead dest_path]),
   Raise IsADirectoryError).
Proof.
  intros Hdir Hh. unfold Portable.download_file. py_unfold.
  rewrite Hdir, Hh. simpl. rewrite verify_hash_run, Hdir.
  by rewrite <- !app_assoc.
Qed.
End DirectoryInTheWay.

(** ** What a call of [download_file] leaves at the destination *)

Section Settled.
Context (P : platform).

Lemma settled_failed dest_path expected_hash fs1 tr1 (r : result bool) :
  r <> Ok true -> (forall data, fs1 !! dest_path <> Some (File data)) ->
  settled P dest_path expected_hash (World fs1 tr1, r).
Proof. intros Hr Hf. split; simpl; [auto | contradiction]. Qed.

Lemma settled_verified dest_path expected_hash fs1 tr1 data :
  fs1 !! dest_path = Some (File data) ->
  py_eq_str (sha256_hex P data) expected_hash = true ->
  settled P dest_path expected_hash (World fs1 tr1, Ok true).
Proof.
  intros Hf Hm. split; simpl; [contradiction|].
  intros _ _. exists data. split; [done|]. by apply py_eq_str_true.
Qed.

Lemma settled_unchecked dest_path expected_hash w :
  truthy expected_hash = false ->
  settled P dest_path expected_hash (w, Ok true).
Proof. intros Hh. split; simpl; [contradiction | congruence]. Qed.

Lemma full_download_settled url dest_path expected_hash w :
  settled P dest_path expected_hash (Full.download_file P url dest_path expected_hash w).
Proof.
  destruct w as [fs0 tr0].
  destruct (fs0 !! dest_path) as [[data|]|] eqn:Hd;
    [destruct (truthy expected_hash) eqn:Hh;
     [destruct (py_eq_str (sha256_hex P data) expected_hash) eqn:Hm|]
    |destruct (truthy expected_hash) eqn:Hh|].
  - rewrite (full_download_verified P _ _ _ data) by done.
    by apply (settled_verified _ _ _ _ data).
  - rewrite full_download_fetch by eauto 6. cbv zeta.
    destruct (requests_get P _ url) as [|chunks [|]].
    + apply settled_failed; [discriminate | intros d; by rewrite lookup_delete_eq].
    + apply settled_failed; [discriminate | intros d; by rewrite lookup_delete_eq].
    + rewrite Hh. destruct (py_eq_str (sha256_hex P (concat chunks)) expected_hash) eqn:Hn.
      * apply (settled_verified _ _ _ _ (concat chunks)); [apply lookup_insert_eq | done].
      * apply settled_failed; [discriminate | intros d; by rewrite lookup_delete_eq].
  - rewrite (full_download_trusted P _ _ _ (File data)) by done.
    by apply settled_unchecked.
  - rewrite full_download_dir by done.
    apply settled_failed; [discriminate | intros d; by rewrite Hd].
  - rewrite (full_download_trusted P _ _ _ Dir) by done.
    by apply settled_unchecked.
  - rewrite full_download_fetch by eauto. cbv zeta.
    destruct (requests_get P _ url) as [|chunks [|]].
    + apply settled_failed; [discriminate | intros d; by rewrite lookup_delete_eq].
    + apply settled_failed; [discriminate | intros d; by rewrite lookup_delete_eq].
    + destruct (truthy expected_hash) eqn:Hh;
        [destruct (py_eq_str (sha256_hex P (concat chunks)) expected_hash) eqn:Hn|].
      * apply (settled_verified _ _ _ _ (concat chunks)); [apply lookup_insert_eq | done].
      * apply settled_failed; [discriminate | intros d; by rewrite lookup_delete_eq].
      * by apply settled_unchecked.
Qed.

Lemma portable_fetch_settled url dest_path expected_hash fs0 tr0 :
  fs0 !! dest_path = None ->
  settled P dest_path expected_hash
    (Portable.fetch P url dest_path expected_hash (World fs0 tr0)).
Proof.
  intros Hnone. rewrite portable_fetch_run by done. cbv zeta.
  assert (Hgone : forall d, fs0 !! dest_path <> Some (File d)) by (intros d; by rewrite Hnone).
  assert (Hchecked : forall data tr,
    settled P dest_path expected_hash
      (if truthy expected_hash then
         if py_eq_str (sha256_hex P data) expected_hash
         then (World (<[dest_path := File data]> fs0) (tr ++ [EvRead dest_path]), Ok true)
         else (World fs0 (tr ++ [EvRead dest_path; EvUnlink dest_path]), Ok false)
       else (World (<[dest_path := File data]> fs0) tr, Ok true))).
  { intros data tr. destruct (truthy expected_hash) eqn:Hh;
      [destruct (py_eq_str (sha256_hex P data) expected_hash) eqn:Hm|].
    - apply (settled_verified _ _ _ _ data); [apply lookup_insert_eq | done].
    - by apply settled_failed.
    - by apply settled_unchecked. }
  destruct (has_curl P); [|destruct (HAS_REQUESTS P)].
  - destruct (curl_run P tr0 url dest_path None) as [[|] [data|]].
    + apply Hchecked.
    + destruct (truthy expected_hash) eqn:Hh.
      * by apply settled_failed.
      * by apply settled_unchecked.
    + by apply settled_failed.
    + by apply settled_failed.
  - destruct (requests_get P tr0 url) as [|chunks [|]].
    + by apply settled_failed.
    + by apply settled_failed.
    + apply Hchecked.
  - by apply settled_failed.
Qed.

Lemma portable_download_settled url dest_path expected_hash w :
  settled P dest_path expected_hash
    (Portable.download_file P url dest_path expected_hash w).
Proof.
  destruct w as [fs0 tr0].
  destruct (fs0 !! dest_path) as [[data|]|] eqn:Hd;
    [destruct (truthy expected_hash) eqn:Hh;
     [destruct (py_eq_str (sha256_hex P data) expected_hash) eqn:Hm|]
    |destruct (truthy expected_hash) eqn:Hh|].
  - rewrite (portable_download_verified P _ _ _ data) by done.
    by apply (settled_verified _ _ _ _ data).
  - rewrite portable_download_fetch by eauto 6.
    apply portable_fetch_settled, lookup_delete_eq.
  - rewrite (portable_download_trusted P _ _ _ (File data)) by done.
    by apply settled_unchecked.
  - rewrite portable_download_dir by done.
    apply settled_failed; [discriminate | intros d; by rewrite Hd].
  - rewrite (portable_download_trusted P _ _ _ Dir) by done.
    by apply settled_unchecked.
  - rewrite portable_download_fetch by eauto.
    apply portable_fetch_settled, lookup_delete_eq.
Qed.
End Settled.

(** ** C5: failed acquisitions *)

Section TransferFailures.
Context (P : platform) (url : value) (dest_path : string) (expected_hash : value)
        (w : world).
Hypothesis Hreach : reaches_transfer P dest_path expected_hash w.

Lemma full_download_from_start :
  Full.download_file P url dest_path expected_hash w =
  match requests_get P (full_transfer_start P dest_path w) url with
  | RespError =>
      (World (delete dest_path (fs w))
         (full_transfer_start P dest_path w ++ [EvRequestsGet url; EvExists dest_path]
            ++ (if bool_decide (is_Some (fs w !! dest_path))
                then [EvUnlink dest_path] else [])),
       Ok false)
  | RespBody chunks interrupted =>
      let fs1 := <[dest_path := File (concat chunks)]> (fs w) in
      let tr2 := full_transfer_start P dest_path w
                   ++ [EvRequestsGet url; EvOpenWrite dest_path] in
      if interrupted then
        (World (delete dest_path (fs w))
           (tr2 ++ [EvExists dest_path; EvUnlink dest_path]), Ok false)
      else if truthy expected_hash then
        if py_eq_str (sha256_hex P (concat chunks)) expected_hash
        then (World fs1 (tr2 ++ [EvRead dest_path]), Ok true)
        else (World (delete dest_path (fs w))
                (tr2 ++ [EvRead dest_path; EvUnlink dest_path]), Ok false)
      else (World fs1 tr2, Ok true)
  end.
Proof.
  destruct w as [fs0 tr0]. unfold full_transfer_start. simpl.
  rewrite (full_download_fetch P url _ _ _ _ Hreach). reflexivity.
Qed.

Lemma portable_download_from_start :
  Portable.download_file P url dest_path expected_hash w =
  Portable.fetch P url dest_path expected_hash
    (World (delete dest_path (fs w)) (portable_transfer_start P dest_path w)).
Proof.
  destruct w as [fs0 tr0]. unfold portable_transfer_start. simpl.
  apply (portable_download_fetch P url _ _ _ _ Hreach).
Qed.

Lemma full_transfer_failed :
  (requests_get P (full_transfer_start P dest_path w) url = RespError \/
   (exists chunks, requests_get P (full_transfer_start P dest_path w) url
                   = RespBody chunks true) \/
   (exists chunks, requests_get P (full_transfer_start P dest_path w) url
                   = RespBody chunks false /\ wrong_digest P expected_hash (concat chunks))) ->
  failed dest_path (Full.download_file P url dest_path expected_hash w).
Proof.
  rewrite full_download_from_start.
  intros [-> | [(chunks & ->) | (chunks & -> & -> & Hm)]]; cbv zeta.
  - split; [done | apply lookup_delete_eq].
  - split; [done | apply lookup_delete_eq].
  - rewrite Hm. split; [done | apply lookup_delete_eq].
Qed.

Lemma portable_curl_failed :
  has_curl P = true ->
  ((exists after, curl_run P (portable_transfer_start P dest_path w) url dest_path None
                  = (false, after)) \/
   (exists data, curl_run P (portable_transfer_start P dest_path w) url dest_path None
                 = (true, Some data) /\ wrong_digest P expected_hash data)) ->
  failed dest_path (Portable.download_file P url dest_path expected_hash w).
Proof.
  intros Hcurl. rewrite portable_download_from_start.
  rewrite portable_fetch_run by apply lookup_delete_eq. rewrite Hcurl. cbv zeta.
  intros [(after & ->) | (data & -> & -> & Hm)].
  - destruct after; (split; [done | apply lookup_delete_eq]).
  - rewrite Hm. split; [done | apply lookup_delete_eq].
Qed.

Lemma portable_requests_failed :
  has_curl P = false -> HAS_REQUESTS P = true ->
  (requests_get P (portable_transfer_start P dest_path w) url = RespError \/
   (exists chunks, requests_get P (portable_transfer_start P dest_path w) url
                   = RespBody chunks true) \/
   (exists chunks, requests_get P (portable_transfer_start P dest_path w) url
                   = RespBody chunks false /\ wrong_digest P expected_hash (concat chunks))) ->
  failed dest_path (Portable.download_file P url dest_path expected_hash w).
Proof.
  intros Hcurl Hreq. rewrite portable_download_from_start.
  rewrite portable_fetch_run by apply lookup_delete_eq. rewrite Hcurl, Hreq. cbv zeta.
  intros [-> | [(chunks & ->) | (chunks & -> & -> & Hm)]].
  - split; [done | apply lookup_delete_eq].
  - split; [done | apply lookup_delete_eq].
  - rewrite Hm. split; [done | apply lookup_delete_eq].
Qed.
End TransferFailures.

(** C5.  The claim fails on the portable program when curl is the
    transport.  On a host whose server answers with an HTTP error, with
    the directory in place, the destination free and no digest supplied,
    [download_file] of the portable program returns [True] and the error
    page stays at the destination: curl was started without [--fail] and
    reported success.  Through [requests], on the same host, the portable
    program and the full program both return [False] and leave nothing. *)
Theorem http_error_page_kept_by_curl :
  let url := VStr "https://host/m.bin" in
  let w := models_dir [] in
  let curled := Portable.download_file (http_error_host true) url "/models/m.bin" VNone w in
  parent_exists (http_error_host true) "/models/m.bin" w /\
  reaches_transfer (http_error_host true) "/models/m.bin" VNone w /\
  curled.2 = Ok true /\
  fs curled.1 !! "/models/m.bin" = Some (File error_page) /\
  failed "/models/m.bin"
    (Portable.download_file (http_error_host false) url "/models/m.bin" VNone w) /\
  failed "/models/m.bin"
    (Full.download_file (http_error_host true) url "/models/m.bin" VNone w).
Proof.
  cbv zeta. split; [reflexivity|]. split; [left; reflexivity|].
  split; [reflexivity|]. split; [reflexivity|]. split; split; reflexivity.
Qed.

(** X25.  What does hold of failed acquisitions.  Whatever the host
    does, after [download_file] the destination holds no file unless the
    call returned [True], and when a digest was supplied a returned
    [True] means the file there has that digest.  When the call reaches
    the transfer and the transport reports failure (curl exits non-zero;
    [requests] raises before or while streaming, an HTTP error status
    included), the partial file is deleted and the result is [False];
    likewise when the transport succeeds but the bytes do not have the
    supplied digest.  For the portable program, whose [mkdir] is not
    guarded, this is stated with the destination's directory in place. *)
Theorem failed_download_leaves_no_file (P : platform) (url : value)
    (dest_path : string) (expected_hash : value) (w : world) :
  let full := Full.download_file P url dest_path expected_hash w in
  let portable := Portable.download_file P url dest_path expected_hash w in
  let served := requests_get P (full_transfer_start P dest_path w) url in
  let pserved := requests_get P (portable_transfer_start P dest_path w) url in
  let curled := curl_run P (portable_transfer_start P dest_path w) url dest_path None in
  settled P dest_path expected_hash full /\
  settled P dest_path expected_hash portable /\
  (reaches_transfer P dest_path expected_hash w ->
   (served = RespError \/
    (exists chunks, served = RespBody chunks true) \/
    (exists chunks, served = RespBody chunks false /\
                    wrong_digest P expected_hash (concat chunks)) ->
    failed dest_path full) /\
   (parent_exists P dest_path w -> has_curl P = true ->
    (exists after, curled = (false, after)) \/
    (exists data, curled = (true, Some data) /\ wrong_digest P expected_hash data) ->
    failed dest_path portable) /\
   (parent_exists P dest_path w -> has_curl P = false -> HAS_REQUESTS P = true ->
    pserved = RespError \/
    (exists chunks, pserved = RespBody chunks true) \/
    (exists chunks, pserved = RespBody chunks false /\
                    wrong_digest P expected_hash (concat chunks)) ->
    failed dest_path portable)).
Proof.
  intros full portable served pserved curled.
  split; [apply full_download_settled|]. split; [apply portable_download_settled|].
  intros Hreach. split; [|split].
  - by apply full_transfer_failed.
  - intros _. by apply portable_curl_failed.
  - intros _. by apply portable_requests_failed.
Qed.

Lemma failed_download_leaves_no_file_witness :
  reaches_transfer
    (with_parents (host true true (RespBody [list_byte_of_string "par"] true)
                     (false, Some (list_byte_of_string "par"))))
    "/models/m.bin" (VStr "whole") (models_dir []) /\
  parent_exists
    (with_parents (host true true (RespBody [list_byte_of_string "par"] true)
                     (false, Some (list_byte_of_string "par"))))
    "/models/m.bin" (models_dir []) /\
  failed "/models/m.bin"
    (Full.download_file
       (with_parents (host true true (RespBody [list_byte_of_string "par"] true)
                        (false, Some (list_byte_of_string "par"))))
       (VStr "https://host/m.bin") "/models/m.bin" (VStr "whole") (models_dir [])) /\
  failed "/models/m.bin"
    (Portable.download_file
       (with_parents (host true true (RespBody [list_byte_of_string "par"] true)
                        (false, Some (list_byte_of_string "par"))))
       (VStr "https://host/m.bin") "/models/m.bin" (VStr "whole") (models_dir [])).
Proof.
  assert (Hreach : reaches_transfer
            (with_parents (host true true (RespBody [list_byte_of_string "par"] true)
                             (false, Some (list_byte_of_string "par"))))
            "/models/m.bin" (VStr "whole") (models_dir [])) by (left; reflexivity).
  assert (Hparent : parent_exists
            (with_parents (host true true (RespBody [list_byte_of_string "par"] true)
                             (false, Some (list_byte_of_string "par"))))
            "/models/m.bin" (models_dir [])) by reflexivity.
  pose proof (failed_download_leaves_no_file
                (with_parents (host true true (RespBody [list_byte_of_string "par"] true)
                                 (false, Some (list_byte_of_string "par"))))
                (VStr "https://host/m.bin") "/models/m.bin" (VStr "whole")
                (models_dir [])) as H.
  cbv zeta in H. destruct H as (_ & _ & H). destruct (H Hreach) as (Hfull & Hcurl & _).
  split; [exact Hreach|]. split; [exact Hparent|]. split.
  - apply Hfull. right. left. eexists. reflexivity.
  - apply Hcurl; [exact Hparent | reflexivity |]. left. eexists. reflexivity.
Defined.

(** ** C2: a destination that already exists *)

Section StaleFile.
Context (P : platform) (url : value) (dest_path : string) (expected_hash : value)
        (data : list Byte.byte) (w : world).
Hypothesis Hfile : fs w !! dest_path = Some (File data).
Hypothesis Hh : truthy expected_hash = true.
Hypothesis Hwrong : py_eq_str (sha256_hex P data) expected_hash = false.

Lemma stale_reaches_transfer : reaches_transfer P dest_path expected_hash w.
Proof. right. eauto. Qed.

Lemma settled_not_stale out :
  settled P dest_path expected_hash out -> fs out.1 !! dest_path <> Some (File data).
Proof.
  intros [Hfail Hok] Hkept.
  destruct out as [w' [[|]|e]]; simpl in *;
    try (by apply (Hfail ltac:(discriminate) data)).
  destruct (Hok eq_refl Hh) as (data' & Hd & ->). rewrite Hkept in Hd.
  injection Hd as <-. simpl in Hwrong. by rewrite String.eqb_refl in Hwrong.
Qed.

Lemma full_refetch_starts :
  exists evs,
    trace (Full.download_file P url dest_path expected_hash w).1 =
    full_transfer_start P dest_path w ++ [EvRequestsGet url] ++ evs.
Proof.
  rewrite (full_download_from_start P url _ _ _ stale_reaches_transfer).
  destruct (requests_get P _ url) as [|chunks [|]]; cbv zeta; rewrite ?Hh;
    try destruct (py_eq_str (sha256_hex P (concat chunks)) expected_hash);
    eexists; simpl; rewrite <- ?app_assoc; simpl; reflexivity.
Qed.

Lemma portable_refetch_starts :
  let start := portable_transfer_start P dest_path w in
  (has_curl P = true ->
   exists evs, trace (Portable.download_file P url dest_path expected_hash w).1 =
               start ++ [EvCurl url dest_path] ++ evs) /\
  (has_curl P = false -> HAS_REQUESTS P = true ->
   exists evs, trace (Portable.download_file P url dest_path expected_hash w).1 =
               start ++ [EvRequestsGet url] ++ evs) /\
  (has_curl P = false -> HAS_REQUESTS P = false ->
   Portable.download_file P url dest_path expected_hash w =
   (World (delete dest_path (fs w)) start, Ok false)).
Proof.
  intros start. rewrite (portable_download_from_start P url _ _ _ stale_reaches_transfer).
  fold start. rewrite portable_fetch_run by apply lookup_delete_eq. cbv zeta.
  rewrite Hh. repeat split.
  - intros ->. destruct (curl_run P start url dest_path None) as [[|] [d|]];
      try destruct (py_eq_str (sha256_hex P d) expected_hash);
      eexists; simpl; rewrite <- ?app_assoc; simpl; reflexivity.
  - intros -> ->. destruct (requests_get P start url) as [|chunks [|]];
      try destruct (py_eq_str (sha256_hex P (concat chunks)) expected_hash);
      eexists; simpl; rewrite <- ?app_assoc; simpl; reflexivity.
  - intros -> ->. reflexivity.
Qed.
End StaleFile.

Lemma new_events_app w w' r evs :
  trace w' = trace w ++ evs -> new_events w (w', r) = evs.
Proof. intros H. unfold new_events. simpl. rewrite H. apply drop_app_length. Qed.

(** On a host that serves the right bytes the full program never deletes
    the stale file: the transfer starts with the file in place and
    overwrites it.  On a host with neither curl nor [requests] the
    portable program deletes the stale file and attempts no fetch. *)
Lemma stale_file_not_deleted_then_fetched :
  (Full.download_file
     (host false true (RespBody [list_byte_of_string "new"] false) (false, None))
     (VStr "https://host/m.bin") "m.bin" (VStr "new") (world_with [("m.bin", "old")])
   = (World {["m.bin" := File (list_byte_of_string "new")]}
        [EvMkdir "m.bin"; EvExists "m.bin"; EvRead "m.bin";
         EvRequestsGet (VStr "https://host/m.bin"); EvOpenWrite "m.bin"; EvRead "m.bin"],
      Ok true) /\
   deleted_then_fetched "m.bin"
     (new_events (world_with [("m.bin", "old")])
        (Full.download_file
           (host false true (RespBody [list_byte_of_string "new"] false) (false, None))
           (VStr "https://host/m.bin") "m.bin" (VStr "new")
           (world_with [("m.bin", "old")]))) = false) /\
  (Portable.download_file
     (host false false (RespBody [list_byte_of_string "new"] false) (false, None))
     (VStr "https://host/m.bin") "m.bin" (VStr "new") (world_with [("m.bin", "old")])
   = (World ∅ [EvMkdir "m.bin"; EvExists "m.bin"; EvRead "m.bin"; EvUnlink "m.bin"],
      Ok false) /\
   deleted_then_fetched "m.bin"
     (new_events (world_with [("m.bin", "old")])
        (Portable.download_file
           (host false false (RespBody [list_byte_of_string "new"] false) (false, None))
           (VStr "https://host/m.bin") "m.bin" (VStr "new")
           (world_with [("m.bin", "old")]))) = false).
Proof. repeat split; vm_compute; reflexivity. Qed.

Lemma deleted_then_fetched_here dest_path ev evs :
  is_transport ev = true ->
  deleted_then_fetched dest_path (EvUnlink dest_path :: ev :: evs) = true.
Proof. intros Hev. simpl. by rewrite String.eqb_refl, Hev. Qed.

(** C2, as the programs have it.  When the destination file exists:
    without a digest, or with a digest the file has, [download_file]
    returns [True] having only looked at the file (no transport, file
    system unchanged).  With a digest the file does not have, the stale
    content never survives the call and a fetch is attempted whenever a
    transport is available: the portable program deletes the file and then
    runs curl or [requests] (with neither it returns [False], the file
    deleted); the full program invokes [requests] with the stale file
    still in place. *)
Theorem existing_destination_checked (P : platform) (url : value)
    (dest_path : string) (expected_hash : value) (data : list Byte.byte) (w : world) :
  fs w !! dest_path = Some (File data) ->
  let full := Full.download_file P url dest_path expected_hash w in
  let portable := Portable.download_file P url dest_path expected_hash w in
  let looked := [EvMkdir (path_parent P dest_path); EvExists dest_path] in
  (truthy expected_hash = false ->
   full = (World (fs w) (trace w ++ looked), Ok true) /\
   portable = (World (fs w) (trace w ++ looked), Ok true)) /\
  (truthy expected_hash = true ->
   py_eq_str (sha256_hex P data) expected_hash = true ->
   full = (World (fs w) (trace w ++ looked ++ [EvRead dest_path]), Ok true) /\
   portable = (World (fs w) (trace w ++ looked ++ [EvRead dest_path]), Ok true)) /\
  (truthy expected_hash = true ->
   py_eq_str (sha256_hex P data) expected_hash = false ->
   (fs full.1 !! dest_path <> Some (File data) /\
    fs portable.1 !! dest_path <> Some (File data)) /\
   portable =
     Portable.fetch P url dest_path expected_hash
       (World (delete dest_path (fs w))
          (trace w ++ looked ++ [EvRead dest_path; EvUnlink dest_path])) /\
   (has_curl P || HAS_REQUESTS P = true ->
    deleted_then_fetched dest_path (new_events w portable) = true) /\
   (has_curl P || HAS_REQUESTS P = false ->
    portable =
      (World (delete dest_path (fs w))
         (trace w ++ looked ++ [EvRead dest_path; EvUnlink dest_path]), Ok false)) /\
   (exists evs,
      new_events w full = looked ++ [EvRead dest_path; EvRequestsGet url] ++ evs)).
Proof.
  intros Hfile full portable looked. subst full portable looked.
  destruct w as [fs0 tr0]. simpl in Hfile. cbn [fs trace].
  split; [|split].
  - intros Hh. split.
    + by rewrite (full_download_trusted P _ _ _ (File data)).
    + by rewrite (portable_download_trusted P _ _ _ (File data)).
  - intros Hh Hm. split.
    + by rewrite (full_download_verified P _ _ _ data).
    + by rewrite (portable_download_verified P _ _ _ data).
  - intros Hh Hm.
    pose proof (stale_reaches_transfer P dest_path expected_hash data
                  (World fs0 tr0) Hfile Hh Hm) as Hreach.
    assert (Hb : bool_decide (is_Some (fs0 !! dest_path)) = true)
      by (by rewrite Hfile).
    pose proof (portable_download_from_start P url _ _ _ Hreach) as Hstart.
    destruct (portable_refetch_starts P url _ _ data (World fs0 tr0) Hfile Hh Hm)
      as (Hcurl & Hreq & Hno).
    destruct (full_refetch_starts P url _ _ data (World fs0 tr0) Hfile Hh Hm)
      as (fevs & Hftr).
    unfold portable_transfer_start, full_transfer_start in *.
    cbn [fs trace] in Hstart, Hcurl, Hreq, Hno, Hftr.
    rewrite Hb in Hstart, Hcurl, Hreq, Hno, Hftr.
    split; [split|split; [|split; [|split]]].
    + apply (settled_not_stale P _ _ data Hh Hm), full_download_settled.
    + apply (settled_not_stale P _ _ data Hh Hm), portable_download_settled.
    + exact Hstart.
    + intros Havail.
      assert (exists ev evs, is_transport ev = true /\
                trace (Portable.download_file P url dest_path expected_hash
                         (World fs0 tr0)).1 =
                tr0 ++ [EvMkdir (path_parent P dest_path); EvExists dest_path;
                        EvRead dest_path] ++ EvUnlink dest_path :: ev :: evs)
        as (ev & evs & Hev & Htr).
      { destruct (has_curl P); [|destruct (HAS_REQUESTS P); [|discriminate]].
        - destruct (Hcurl eq_refl) as (evs & Htr). eexists _, evs. split; [|
            rewrite Htr, <- !app_assoc; reflexivity]. reflexivity.
        - destruct (Hreq eq_refl eq_refl) as (evs & Htr). eexists _, evs. split; [|
            rewrite Htr, <- !app_assoc; reflexivity]. reflexivity. }
      destruct (Portable.download_file _ _ _ _ _) as [w' r]. simpl in Htr.
      rewrite (new_events_app (World fs0 tr0) w' r _ Htr).
      cbn [app deleted_then_fetched orb]. by apply deleted_then_fetched_here.
    + intros Hnone. apply orb_false_iff in Hnone as [Ec Er]. apply (Hno Ec Er).
    + exists fevs. destruct (Full.download_file _ _ _ _ _) as [w' r]. simpl in Hftr.
      apply (new_events_app (World fs0 tr0)). cbn [trace].
      rewrite Hftr, <- !app_assoc. reflexivity.
Qed.

Lemma existing_destination_checked_witness :
  fs (world_with [("m.bin", "old")]) !! "m.bin"
    = Some (File (list_byte_of_string "old")) /\
  deleted_then_fetched "m.bin"
    (new_events (world_with [("m.bin", "old")])
       (Portable.download_file
          (host true true (RespBody [list_byte_of_string "new"] false)
             (true, Some (list_byte_of_string "new")))
          (VStr "https://host/m.bin") "m.bin" (VStr "new")
          (world_with [("m.bin", "old")]))) = true /\
  fs (Full.download_file
        (host true true (RespBody [list_byte_of_string "new"] false)
           (true, Some (list_byte_of_string "new")))
        (VStr "https://host/m.bin") "m.bin" (VStr "new")
        (world_with [("m.bin", "old")])).1 !! "m.bin"
    <> Some (File (list_byte_of_string "old")).
Proof.
  assert (Hfile : fs (world_with [("m.bin", "old")]) !! "m.bin"
                  = Some (File (list_byte_of_string "old"))) by reflexivity.
  pose proof (existing_destination_checked
                (host true true (RespBody [list_byte_of_string "new"] false)
                   (true, Some (list_byte_of_string "new")))
                (VStr "https://host/m.bin") "m.bin" (VStr "new")
                (list_byte_of_string "old") (world_with [("m.bin", "old")]) Hfile) as H.
  cbv zeta in H. destruct H as (_ & _ & H).
  destruct (H eq_refl eq_refl) as ((Hfull & _) & _ & Hfetched & _).
  split; [exact Hfile|]. split; [exact (Hfetched eq_refl) | exact Hfull].
Defined.

(** ** The loop of the plan runner *)

Section RunnerLoop.
Context (P : platform) (download_file : value -> string -> value -> Py world bool).

Local Abbreviation step := (download_model P download_file).

(** Without a source the entry is counted failed and nothing else
    happens, dry run or not. *)
Lemma download_model_no_url dry_run success_count fail_count m w :
  lacks_key "url" m = true ->
  step dry_run (success_count, fail_count) m w = (w, Ok (success_count, S fail_count)).
Proof.
  destruct m as [| | | |l|d]; simpl; try discriminate.
  intros Hu. apply negb_true_iff in Hu.
  unfold download_model, bind, lift. simpl. by rewrite Hu.
Qed.

Lemma download_model_dry success_count fail_count m w :
  is_dict m = true ->
  step true (success_count, fail_count) m w =
  (w, Ok (if truthy (entry_url m) then (S success_count, fail_count)
          else (success_count, S fail_count))).
Proof.
  destruct m as [| | | |l|d]; simpl; try discriminate. intros _.
  unfold download_model, bind, lift. simpl.
  by destruct (truthy (default VNone (d !! "url"))).
Qed.

(** A real run hands [download_file] the stored [url], the destination
    and the stored digest, and counts by its answer. *)
Lemma download_model_real success_count fail_count m w :
  keyed "url" m = true ->
  download_model P download_file false (success_count, fail_count) m w =
  match destination P m with
  | Raise e => (w, Raise e)
  | Ok dest_path =>
      match download_file (entry_url m) dest_path (entry_sha256 m) w with
      | (w', Ok true) => (w', Ok (S success_count, fail_count))
      | (w', Ok false) => (w', Ok (success_count, S fail_count))
      | (w', Raise e) => (w', Raise e)
      end
  end.
Proof.
  destruct m as [| | | |l|d]; try discriminate. simpl. intros Hu.
  unfold download_model, destination, bind, lift. simpl. rewrite Hu. simpl.
  destruct (model_dest_path _ _ _ _ _) as [dest|e]; [|reflexivity].
  destruct (download_file _ _ _ w) as [w' [[|]|e]]; reflexivity.
Qed.

Lemma for_each_dry ms : forall success_count fail_count w,
  forallb is_dict ms = true ->
  for_each (step true) ms (success_count, fail_count) w =
  (w, Ok (success_count + length (sourced ms), fail_count + length (unsourced ms))).
Proof.
  induction ms as [|m ms IH]; intros sc fc w Hd.
  - simpl. unfold ret. by rewrite !Nat.add_0_r.
  - simpl in Hd. apply andb_true_iff in Hd as [Hm Hms].
    rewrite for_each_cons, (download_model_dry _ _ _ _ Hm).
    unfold sourced, unsourced. simpl.
    destruct (truthy (entry_url m)); simpl; rewrite (IH _ _ _ Hms);
      unfold sourced, unsourced; do 2 f_equal; f_equal; lia.
Qed.

(** A real run classifies every entry: the counters end up covering the
    whole selection, with at least the entries without source failed. *)
Lemma for_each_real_counts ms : forall success_count fail_count w w' s f,
  forallb is_dict ms = true ->
  for_each (step false) ms (success_count, fail_count) w = (w', Ok (s, f)) ->
  s + f = success_count + fail_count + length ms /\
  fail_count + length (unsourced ms) <= f /\
  s <= success_count + length (sourced ms).
Proof.
  induction ms as [|m ms IH]; intros sc fc w w' s f Hd Hrun.
  - simpl in Hrun. injection Hrun as <- <- <-. simpl. lia.
  - simpl in Hd. apply andb_true_iff in Hd as [Hm Hms].
    rewrite for_each_cons in Hrun.
    destruct m as [| | | |l|d]; try discriminate.
    unfold sourced, unsourced. cbn [List.filter entry_url].
    destruct (truthy (default VNone (d !! "url"))) eqn:Hu.
    + assert (exists w1 c1, step false (sc, fc) (VDict d) w = (w1, Ok c1) /\
                (c1 = (S sc, fc) \/ c1 = (sc, S fc))) as (w1 & c1 & Hstep & Hc1).
      { unfold download_model, bind, lift in *. simpl in *. rewrite Hu in *. simpl in *.
        destruct (model_dest_path _ _ _ _ _) as [dest|e]; [|discriminate].
        destruct (download_file _ _ _ w) as [w1 [[|]|e]]; [eauto | eauto | discriminate]. }
      rewrite Hstep in Hrun.
      destruct Hc1 as [-> | ->]; apply (IH _ _ _ _ _ _ Hms) in Hrun;
        fold (sourced ms) (unsourced ms); simpl; lia.
    + rewrite (download_model_no_url false sc fc (VDict d)) in Hrun
        by (simpl; by rewrite Hu).
      apply (IH _ _ _ _ _ _ Hms) in Hrun.
      fold (sourced ms) (unsourced ms). simpl. lia.
Qed.

Lemma download_models_selection d ms types_filter dry_run w :
  d !! "models" = Some (VList ms) ->
  forallb is_dict ms = true ->
  download_models P download_file (VDict d) types_filter dry_run w =
  for_each (step dry_run) (selection types_filter ms) (0, 0) w.
Proof.
  intros Hd Hms. unfold download_models, bind, lift.
  rewrite (selected_models_plan d ms types_filter Hd Hms).
  fold (selection types_filter ms). by destruct (selection types_filter ms).
Qed.

Lemma selection_dicts types_filter ms :
  forallb is_dict ms = true -> forallb is_dict (selection types_filter ms) = true.
Proof.
  intros Hms. destruct types_filter as [[|t ts]|]; simpl; try done.
  rewrite forallb_forall in *. intros m Hm. apply filter_In in Hm as [Hm _]. auto.
Qed.
End RunnerLoop.


Section NodeLoop.
Context (P : platform).


Lemma install_node_dry success_count fail_count n w :
  is_dict n = true ->
  Full.install_node P true (success_count, fail_count) n w =
  (w, Ok (if truthy (entry_repo n) then (S success_count, fail_count)
          else (success_count, S fail_count))).
Proof.
  destruct n as [| | | |l|d]; simpl; try discriminate. intros _.
  unfold Full.install_node, bind, lift. simpl.
  by destruct (truthy (default VNone (d !! "repo"))).
Qed.

Lemma install_custom_nodes_dry d ns w :
  d !! "custom_nodes" = Some (VList ns) ->
  forallb is_dict ns = true ->
  Full.install_custom_nodes P (VDict d) true w =
  (w, Ok (length (List.filter (fun n => truthy (entry_repo n)) ns),
          length (List.filter (fun n => negb (truthy (entry_repo n))) ns))).
Proof.
  intros Hd Hns. unfold Full.install_custom_nodes, bind, lift. simpl. rewrite Hd. simpl.
  assert (Hloop : forall sc fc,
            for_each (Full.install_node P true) ns (sc, fc) w =
            (w, Ok (sc + length (List.filter (fun n => truthy (entry_repo n)) ns),
                    fc + length (List.filter (fun n => negb (truthy (entry_repo n))) ns)))).
  { clear Hd. induction ns as [|n ns IH]; intros sc fc.
    - simpl. unfold ret. by rewrite !Nat.add_0_r.
    - simpl in Hns. apply andb_true_iff in Hns as [Hn Hns].
      rewrite for_each_cons, (install_node_dry _ _ _ _ Hn). simpl.
      destruct (truthy (entry_repo n)); simpl; rewrite (IH Hns);
        do 2 f_equal; f_equal; lia. }
  destruct ns as [|n ns]; [reflexivity|]. apply (Hloop 0 0).
Qed.
End NodeLoop.

(** ** C4: a dry run reports what a real run would attempt *)



(** ** C8: the type filter *)

Lemma py_in_strs_spec v strs :
  py_in_strs v strs = true <-> exists s, v = VStr s /\ s ∈ strs.
Proof.
  unfold py_in_strs. rewrite existsb_exists. split.
  - intros (s & Hin & Heq). apply py_eq_str_true in Heq.
    exists s. split; [done | by apply list_elem_of_In].
  - intros (s & -> & Hin). exists s. split; [by apply list_elem_of_In|].
    by apply py_eq_str_true.
Qed.

Lemma filter_sublist {A} (f : A -> bool) (l : list A) : sublist (List.filter f l) l.
Proof.
  induction l as [|x l IH]; simpl; [constructor|].
  destruct (f x); by constructor.
Qed.

(** C8.  With a non-empty type filter the runner walks exactly the plan
    entries whose [type] is one of the filter's strings, in plan order:
    the filter is applied first and the loop, with all its counting, runs
    over what is kept.  The plan stored in the manifest is not touched: a
    later run without filter on the same manifest walks the whole plan. *)
Theorem type_filter_selects (P : platform)
    (download_file : value -> string -> value -> Py world bool)
    (d : gmap string value) (ms : list value) (t : string) (ts : list string)
    (w : world) :
  d !! "models" = Some (VList ms) ->
  forallb is_dict ms = true ->
  let kept := List.filter (fun m => py_in_strs (entry_type m) (t :: ts)) ms in
  selected_models (VDict d) (Some (t :: ts)) = Ok kept /\
  (forall m, m ∈ kept <-> m ∈ ms /\ exists s, entry_type m = VStr s /\ s ∈ t :: ts) /\
  sublist kept ms /\
  (forall dry_run,
     download_models P download_file (VDict d) (Some (t :: ts)) dry_run w =
     for_each (download_model P download_file dry_run) kept (0, 0) w /\
     Full.download_models P (VDict d) (Some (t :: ts)) dry_run w =
     for_each (download_model P (Full.download_file P) dry_run) kept (0, 0) w /\
     Portable.download_models P (VDict d) (Some (t :: ts)) dry_run w =
     for_each (download_model P (Portable.download_file P) dry_run) kept (0, 0) w) /\
  download_models P download_file (VDict d) (Some (t :: ts)) true w =
    (w, Ok (length (sourced kept), length (unsourced kept))) /\
  selected_models (VDict d) None = Ok ms /\
  (download_models P download_file (VDict d) (Some (t :: ts)) true ;;;
   download_models P download_file (VDict d) None true) w =
    (w, Ok (length (sourced ms), length (unsourced ms))).
Proof.
  intros Hd Hms kept.
  assert (Hdry : forall tf, download_models P download_file (VDict d) tf true w =
            (w, Ok (length (sourced (selection tf ms)),
                    length (unsourced (selection tf ms))))).
  { intros tf. rewrite (download_models_selection P _ d ms) by done.
    rewrite for_each_dry by by apply selection_dicts. reflexivity. }
  split; [apply (selected_models_plan d ms (Some (t :: ts)) Hd Hms)|].
  split.
  { intros m. subst kept. rewrite !list_elem_of_In, filter_In, py_in_strs_spec.
    reflexivity. }
  split; [apply filter_sublist|].
  split.
  { intros dry_run. repeat split;
      apply (download_models_selection P _ d ms (Some (t :: ts))); done. }
  split; [apply (Hdry (Some (t :: ts)))|].
  split; [apply (selected_models_plan d ms None Hd Hms)|].
  unfold bind. rewrite (Hdry (Some (t :: ts))). apply (Hdry None).
Qed.

(** Scenario D: [--types lora] on a plan with a checkpoint and two loras. *)
Lemma type_filter_selects_witness :
  mixed_plan !! "models" = Some (VList [model_upper; model_no_url; model_lora]) /\
  forallb is_dict [model_upper; model_no_url; model_lora] = true /\
  selected_models (VDict mixed_plan) (Some ["lora"]) = Ok [model_no_url; model_lora] /\
  Full.download_models (offline no_manifest) (VDict mixed_plan) (Some ["lora"]) true
    (world_with []) = (world_with [], Ok (1, 1)).
Proof.
  assert (H1 : mixed_plan !! "models"
               = Some (VList [model_upper; model_no_url; model_lora])) by reflexivity.
  assert (H2 : forallb is_dict [model_upper; model_no_url; model_lora] = true)
    by reflexivity.
  pose proof (type_filter_selects (offline no_manifest)
                (Full.download_file (offline no_manifest)) mixed_plan _
                "lora" [] (world_with []) H1 H2) as H.
  cbv zeta in H. destruct H as (Hsel & _ & _ & _ & Hdry & _).
  split; [exact H1|]. split; [exact H2|]. split; [exact Hsel | exact Hdry].
Defined.

(** ** C10: sources that fail to load *)

Section FailedSources.
Context (P : platform).

Lemma full_load_one_failed totals source self :
  truthy (Full.load_manifest P source) = false ->
  Full.load_one P totals source self = (self, Ok totals).
Proof.
  intros Hf. unfold Full.load_one. destruct totals as [[[tm tms] tn] tns].
  by rewrite Hf.
Qed.

Lemma portable_load_one_failed totals source self :
  truthy (Portable.load_manifest P source) = false ->
  Portable.load_one P totals source self = (self, Ok totals).
Proof.
  intros Hf. unfold Portable.load_one. destruct totals as [tm tms].
  by rewrite Hf.
Qed.

Lemma full_load_all_failed sources totals self :
  Forall (fun s => truthy (Full.load_manifest P s) = false) sources ->
  for_each (Full.load_one P) sources totals self = (self, Ok totals).
Proof.
  induction 1 as [|s sources Hs _ IH]; [reflexivity|].
  by rewrite for_each_cons, full_load_one_failed.
Qed.

Lemma portable_load_all_failed sources totals self :
  Forall (fun s => truthy (Portable.load_manifest P s) = false) sources ->
  for_each (Portable.load_one P) sources totals self = (self, Ok totals).
Proof.
  induction 1 as [|s sources Hs _ IH]; [reflexivity|].
  by rewrite for_each_cons, portable_load_one_failed.
Qed.

Lemma download_models_empty_plan download_file d types_filter dry_run w :
  d !! "models" = Some (VList []) ->
  download_models P download_file (VDict d) types_filter dry_run w = (w, Ok (0, 0)).
Proof.
  intros Hd. rewrite (download_models_selection P _ d []) by done.
  by destruct types_filter as [[|t ts]|].
Qed.

Lemma full_main_nothing_loaded a w :
  Full.load_manifests P (Full.manifests a) Full.init = (Full.init, Ok (0, 0, 0, 0)) ->
  Full.models_only a && Full.nodes_only a = false ->
  Full.main P a w =
  (w, Ok (Report 0 (if Full.list_mode a then None else Some (0, 0)))).
Proof.
  intros Hload Hflags. unfold Full.main. rewrite Hflags, Hload.
  destruct (Full.list_mode a); [reflexivity|].
  unfold bind, Full.download_models.
  assert (Hm : forall tf dry, download_models P (Full.download_file P)
                 (Full.get_combined_manifest Full.init) tf dry w = (w, Ok (0, 0)))
    by (intros; by apply download_models_empty_plan).
  assert (Hn : forall dry, Full.install_custom_nodes P
                 (Full.get_combined_manifest Full.init) dry w = (w, Ok (0, 0)))
    by reflexivity.
  destruct (Full.nodes_only a), (Full.models_only a); try discriminate;
    cbn [negb]; rewrite ?Hm, ?Hn; reflexivity.
Qed.

Lemma portable_main_nothing_loaded a w :
  Portable.load_manifests P (Portable.manifests a) Portable.init
    = (Portable.init, Ok (0, 0)) ->
  Portable.main P a w =
  (w, Ok (Report 0 (if Portable.list_mode a then None else Some (0, 0)))).
Proof.
  intros Hload. unfold Portable.main. rewrite Hload.
  destruct (Portable.list_mode a); [reflexivity|].
  unfold bind, Portable.download_models.
  assert (Hm : download_models P (Portable.download_file P)
                 (Portable.get_combined_manifest Portable.init)
                 (Portable.types a) (Portable.dry_run a) w = (w, Ok (0, 0)))
    by by apply download_models_empty_plan.
  by rewrite Hm.
Qed.
End FailedSources.

(** C10.  A source whose manifest fails to load ([load_manifest] returns
    [None]) adds nothing to the plan and to no counter, and the loop goes
    on with the remaining sources: the merge is the one of the sources
    without it.  When every source fails, the plan is empty, nothing is
    acquired, no failure is counted and the exit status is 0. *)
Theorem failed_sources_contribute_nothing (P : platform)
    (before after : list string) (source : string) :
  truthy (Full.load_manifest P source) = false ->
  truthy (Portable.load_manifest P source) = false ->
  (forall self,
     Full.load_manifests P (before ++ source :: after) self =
     Full.load_manifests P (before ++ after) self) /\
  (forall self,
     Portable.load_manifests P (before ++ source :: after) self =
     Portable.load_manifests P (before ++ after) self) /\
  (forall a w,
     Forall (fun s => truthy (Full.load_manifest P s) = false) (Full.manifests a) ->
     Full.models_only a && Full.nodes_only a = false ->
     Full.load_manifests P (Full.manifests a) Full.init = (Full.init, Ok (0, 0, 0, 0)) /\
     Full.main P a w =
       (w, Ok (Report 0 (if Full.list_mode a then None else Some (0, 0))))) /\
  (forall a w,
     Forall (fun s => truthy (Portable.load_manifest P s) = false)
       (Portable.manifests a) ->
     Portable.load_manifests P (Portable.manifests a) Portable.init
       = (Portable.init, Ok (0, 0)) /\
     Portable.main P a w =
       (w, Ok (Report 0 (if Portable.list_mode a then None else Some (0, 0))))).
Proof.
  intros Hfull Hport. split; [|split; [|split]].
  - intros self. unfold Full.load_manifests. apply for_each_drop_inert.
    intros totals s. by apply full_load_one_failed.
  - intros self. unfold Portable.load_manifests. apply for_each_drop_inert.
    intros totals s. by apply portable_load_one_failed.
  - intros a w Hall Hflags.
    assert (Hload : Full.load_manifests P (Full.manifests a) Full.init
                    = (Full.init, Ok (0, 0, 0, 0)))
      by by apply full_load_all_failed.
    split; [exact Hload | by apply full_main_nothing_loaded].
  - intros a w Hall.
    assert (Hload : Portable.load_manifests P (Portable.manifests a) Portable.init
                    = (Portable.init, Ok (0, 0)))
      by by apply portable_load_all_failed.
    split; [exact Hload | by apply portable_main_nothing_loaded].
Qed.

Lemma failed_sources_contribute_nothing_witness :
  truthy (Full.load_manifest (offline two_manifests) "missing.json") = false /\
  truthy (Portable.load_manifest (offline two_manifests) "missing.json") = false /\
  Full.load_manifests (offline two_manifests) (["a.json"] ++ "missing.json" :: ["b.json"])
    Full.init =
  Full.load_manifests (offline two_manifests) (["a.json"] ++ ["b.json"]) Full.init /\
  Full.main (offline two_manifests)
    (Full.Args ["missing.json"; "https://host/unreachable.json"] None false false false false)
    (world_with []) = (world_with [], Ok (Report 0 (Some (0, 0)))).
Proof.
  assert (H1 : truthy (Full.load_manifest (offline two_manifests) "missing.json") = false)
    by reflexivity.
  assert (H2 : truthy (Portable.load_manifest (offline two_manifests) "missing.json")
               = false) by reflexivity.
  destruct (failed_sources_contribute_nothing (offline two_manifests)
              ["a.json"] ["b.json"] "missing.json" H1 H2) as (Hdrop & _ & Hmain & _).
  split; [exact H1|]. split; [exact H2|]. split; [apply Hdrop|].
  apply (Hmain (Full.Args ["missing.json"; "https://host/unreachable.json"]
                  None false false false false));
    [repeat constructor | reflexivity].
Defined.

(** ** C3: a model without [url] *)

Lemma keeps_bind {S A B} (I : S -> Prop) (m : Py S A) (k : A -> Py S B) :
  keeps I m -> (forall a, keeps I (k a)) -> keeps I (bind m k).
Proof.
  intros Hm Hk s Hs. unfold bind. specialize (Hm s Hs).
  destruct (m s) as [s' [a|e]]; simpl in *; [by apply Hk | done].
Qed.

Lemma keeps_pure {S A} (I : S -> Prop) (r : result A) : keeps I (lift r).
Proof. by intros s Hs. Qed.

Lemma keeps_for_each {S A B} (I : S -> Prop) (body : B -> A -> Py S B) xs :
  (forall acc x, keeps I (body acc x)) -> forall acc, keeps I (for_each body xs acc).
Proof.
  intros Hbody. induction xs as [|x xs IH]; intros acc; simpl.
  - by intros s Hs.
  - apply keeps_bind; auto.
Qed.

Section PlanHasSources.
Variable lower : string -> string.
Variable field : string.

Lemma add_entry_all_keyed source counts entry :
  keeps (fun ps : plan_state => all_keyed field ps.1) (add_entry lower field source counts entry).
Proof.
  intros [plan seen] Hplan. unfold add_entry. destruct counts as [added skipped].
  unfold bind, lift, gets, modify, ret. simpl in *.
  destruct (py_get entry field VNone) as [url|e] eqn:Hget; [|done].
  destruct (truthy url) eqn:Hurl; simpl; [|done].
  destruct (py_lower lower url) as [key|e]; simpl; [|done].
  destruct (bool_decide (is_Some (seen !! key))); simpl; [done|].
  apply Forall_app. split; [done|]. constructor; [|constructor].
  destruct entry; try discriminate. simpl in *. injection Hget as <-.
  by rewrite Hurl.
Qed.

Lemma add_entries_all_keyed list_name manifest source :
  keeps (fun ps : plan_state => all_keyed field ps.1)
    (add_entries lower list_name field manifest source).
Proof.
  unfold add_entries. apply keeps_bind; [apply keeps_pure|]. intros v.
  apply keeps_bind; [apply keeps_pure|]. intros entries.
  apply keeps_for_each. intros acc x. apply add_entry_all_keyed.
Qed.
End PlanHasSources.

Section NoUrlNoPlan.
Context (P : platform).

Lemma full_add_manifest_keyed manifest source :
  keeps (fun self => all_keyed "url" (Full.models self))
    (Full.add_manifest P manifest source).
Proof.
  unfold Full.add_manifest. destruct (negb (truthy manifest)); [by intros s Hs|].
  apply keeps_bind.
  - intros self Hself. unfold zoom.
    pose proof (add_entries_all_keyed (str_lower P) "url" "models" manifest source
                  (Full.models_plan self) Hself) as H.
    by destruct (add_entries _ _ _ _ _ _) as [ps r].
  - intros m. apply keeps_bind; [|by intros n s Hs].
    intros self Hself. unfold zoom.
    by destruct (add_entries _ _ _ _ _ _) as [ps r].
Qed.

Lemma full_load_manifests_keyed sources :
  all_keyed "url" (Full.models (Full.load_manifests P sources Full.init).1).
Proof.
  apply (keeps_for_each (fun self => all_keyed "url" (Full.models self))); [|constructor].
  intros totals source. unfold Full.load_one.
  destruct totals as [[[tm tms] tn] tns].
  destruct (truthy (Full.load_manifest P source)); [|by intros s Hs].
  apply keeps_bind; [apply full_add_manifest_keyed|].
  intros [[[ma ms] na] ns]. by intros s Hs.
Qed.

Lemma portable_add_manifest_keyed manifest source :
  keeps (fun self => all_keyed "url" (Portable.models self))
    (Portable.add_manifest P manifest source).
Proof.
  unfold Portable.add_manifest. destruct (negb (truthy manifest)); [by intros s Hs|].
  intros self Hself. unfold zoom.
  pose proof (add_entries_all_keyed (str_lower P) "url" "models" manifest source
                (Portable.models_plan self) Hself) as H.
  by destruct (add_entries _ _ _ _ _ _) as [ps r].
Qed.

Lemma portable_load_manifests_keyed sources :
  all_keyed "url" (Portable.models (Portable.load_manifests P sources Portable.init).1).
Proof.
  apply (keeps_for_each (fun self => all_keyed "url" (Portable.models self)));
    [|constructor].
  intros totals source. unfold Portable.load_one. destruct totals as [tm tms].
  destruct (truthy (Portable.load_manifest P source)); [|by intros s Hs].
  apply keeps_bind; [apply portable_add_manifest_keyed|].
  intros [ma ms]. by intros s Hs.
Qed.
End NoUrlNoPlan.

Lemma for_each_ext {S A B} (body body' : B -> A -> Py S B) xs :
  (forall acc x s, x ∈ xs -> body acc x s = body' acc x s) ->
  forall acc s, for_each body xs acc s = for_each body' xs acc s.
Proof.
  induction xs as [|x xs IH]; intros Hext acc s; [reflexivity|].
  rewrite !for_each_cons, Hext by apply list_elem_of_here.
  destruct (body' acc x s) as [s' [acc'|e]]; [|reflexivity].
  apply IH. intros acc0 x0 s0 Hx0. apply Hext. by apply list_elem_of_further.
Qed.

Section WithoutTheEntry.
Context (P : platform) (source : string) (d : gmap string value)
        (pre post : list value) (model : value).
Hypothesis Hlacks : lacks_key "url" model = true.
Hypothesis Hmodels : d !! "models" = Some (VList (pre ++ model :: post)).

Local Abbreviation trimmed := (VDict (<["models" := VList (pre ++ post)]> d)).
Local Abbreviation P' := (replace_manifest P source trimmed).

Lemma full_add_manifest_drop_model src self :
  Full.add_manifest P (VDict d) src self = Full.add_manifest P trimmed src self.
Proof.
  unfold Full.add_manifest.
  rewrite (truthy_dict_lookup _ _ _ Hmodels).
  rewrite (truthy_dict_lookup _ "models" (VList (pre ++ post)))
    by apply lookup_insert_eq.
  cbn [negb]. unfold bind, zoom.
  rewrite <- (add_entries_drop_missing _ "models" "url" _ pre model post) by done.
  destruct (add_entries (str_lower P) "models" "url" (VDict d) src _)
    as [ps1 [c1|e1]]; [|reflexivity].
  by rewrite (add_entries_other_list _ "custom_nodes" "models").
Qed.

Lemma portable_add_manifest_drop_model src self :
  Portable.add_manifest P (VDict d) src self = Portable.add_manifest P trimmed src self.
Proof.
  unfold Portable.add_manifest.
  rewrite (truthy_dict_lookup _ _ _ Hmodels).
  rewrite (truthy_dict_lookup _ "models" (VList (pre ++ post)))
    by apply lookup_insert_eq.
  cbn [negb]. unfold zoom.
  by rewrite <- (add_entries_drop_missing _ "models" "url" _ pre model post).
Qed.

Lemma full_load_manifest_replace s :
  Full.load_manifest P' s =
  if String.eqb s source then trimmed else Full.load_manifest P s.
Proof.
  unfold Full.load_manifest. simpl.
  by destruct (String.prefix "http://" s || String.prefix "https://" s),
              (String.eqb s source).
Qed.

Lemma full_load_one_replace totals s self :
  Full.load_manifest P source = VDict d ->
  Full.load_one P' totals s self = Full.load_one P totals s self.
Proof.
  intros Hsrc. unfold Full.load_one. rewrite full_load_manifest_replace.
  destruct (String.eqb_spec s source) as [->|Hne]; [|reflexivity].
  rewrite Hsrc. destruct totals as [[[tm tms] tn] tns].
  rewrite (truthy_dict_lookup _ _ _ Hmodels).
  rewrite (truthy_dict_lookup _ "models" (VList (pre ++ post)))
    by apply lookup_insert_eq.
  unfold bind.
  change (Full.add_manifest P' trimmed source self)
    with (Full.add_manifest P trimmed source self).
  by rewrite <- full_add_manifest_drop_model.
Qed.

Lemma full_main_replace a w :
  Full.load_manifest P source = VDict d ->
  Full.main P' a w = Full.main P a w.
Proof.
  intros Hsrc. unfold Full.main.
  assert (Hload : Full.load_manifests P' (Full.manifests a) Full.init =
                  Full.load_manifests P (Full.manifests a) Full.init).
  { apply for_each_ext. intros acc x s _. by apply full_load_one_replace. }
  rewrite Hload. reflexivity.
Qed.

Lemma portable_load_manifest_replace s :
  Portable.load_manifest P source = VDict d ->
  Portable.load_manifest P' s =
  if String.eqb s source then trimmed else Portable.load_manifest P s.
Proof.
  intros Hsrc. unfold Portable.load_manifest in *. simpl.
  destruct (String.eqb_spec s source) as [->|Hne].
  - destruct (String.prefix "http://" source || String.prefix "https://" source);
      [|reflexivity].
    destruct (has_curl P); [reflexivity|].
    destruct (HAS_REQUESTS P); [reflexivity | discriminate].
  - reflexivity.
Qed.

Lemma portable_load_one_replace totals s self :
  Portable.load_manifest P source = VDict d ->
  Portable.load_one P' totals s self = Portable.load_one P totals s self.
Proof.
  intros Hsrc. unfold Portable.load_one. rewrite portable_load_manifest_replace by done.
  destruct (String.eqb_spec s source) as [->|Hne]; [|reflexivity].
  rewrite Hsrc. destruct totals as [tm tms].
  rewrite (truthy_dict_lookup _ _ _ Hmodels).
  rewrite (truthy_dict_lookup _ "models" (VList (pre ++ post)))
    by apply lookup_insert_eq.
  unfold bind.
  change (Portable.add_manifest P' trimmed source self)
    with (Portable.add_manifest P trimmed source self).
  by rewrite <- portable_add_manifest_drop_model.
Qed.

Lemma portable_main_replace a w :
  Portable.load_manifest P source = VDict d ->
  Portable.main P' a w = Portable.main P a w.
Proof.
  intros Hsrc. unfold Portable.main.
  assert (Hload : Portable.load_manifests P' (Portable.manifests a) Portable.init =
                  Portable.load_manifests P (Portable.manifests a) Portable.init).
  { apply for_each_ext. intros acc x s _. by apply portable_load_one_replace. }
  rewrite Hload. reflexivity.
Qed.
End WithoutTheEntry.

(** A run over a manifest whose only model lacks [url] ends with an empty
    plan and a failure count of 0, not 1, in a real run and in a dry run
    of either program. *)
Lemma url_less_model_counts_zero :
  Full.load_manifests (offline lonely_manifest) ["lonely.json"] Full.init
    = (Full.init, Ok (0, 0, 0, 0)) /\
  Full.main (offline lonely_manifest)
    (Full.Args ["lonely.json"] None false false false false) (world_with [])
    = (world_with [], Ok (Report 0 (Some (0, 0)))) /\
  Full.main (offline lonely_manifest)
    (Full.Args ["lonely.json"] None false false false true) (world_with [])
    = (world_with [], Ok (Report 0 (Some (0, 0)))) /\
  Portable.main (offline lonely_manifest)
    (Portable.Args ["lonely.json"] None false false) (world_with [])
    = (world_with [], Ok (Report 0 (Some (0, 0)))).
Proof. repeat split; vm_compute; reflexivity. Qed.

(** C3, as the programs have it.  A model entry lacking [url] is inert:
    it is never placed in the merged plan and it contributes nothing to
    any count of the run, the failure count included.  The whole run
    (world, totals, exit status) is the run on the manifest without the
    entry. *)
Theorem url_less_model_not_counted (P : platform) (source : string)
    (d : gmap string value) (pre post : list value) (model : value) :
  lacks_key "url" model = true ->
  Full.load_manifest P source = VDict d ->
  Portable.load_manifest P source = VDict d ->
  d !! "models" = Some (VList (pre ++ model :: post)) ->
  let without :=
    replace_manifest P source (VDict (<["models" := VList (pre ++ post)]> d)) in
  (forall sources,
     (model ∉ Full.models (Full.load_manifests P sources Full.init).1) /\
     (model ∉ Portable.models (Portable.load_manifests P sources Portable.init).1)) /\
  (forall a w, Full.main P a w = Full.main without a w) /\
  (forall a w, Portable.main P a w = Portable.main without a w).
Proof.
  intros Hlacks Hfull Hport Hd without. split; [|split].
  - intros sources. split; intros Hin.
    + pose proof (full_load_manifests_keyed P sources) as Hall.
      unfold all_keyed in Hall. rewrite Forall_forall in Hall.
      specialize (Hall model Hin). congruence.
    + pose proof (portable_load_manifests_keyed P sources) as Hall.
      unfold all_keyed in Hall. rewrite Forall_forall in Hall.
      specialize (Hall model Hin). congruence.
  - intros a w. symmetry. by apply (full_main_replace P source d pre post model).
  - intros a w. symmetry. by apply (portable_main_replace P source d pre post model).
Qed.

Lemma url_less_model_not_counted_witness :
  lacks_key "url" model_no_url = true /\
  Full.load_manifest (offline gap_source) "gap.json" = VDict gap_manifest /\
  Portable.load_manifest (offline gap_source) "gap.json" = VDict gap_manifest /\
  gap_manifest !! "models" = Some (VList ([model_upper] ++ model_no_url :: [model_lora])) /\
  (model_no_url ∉ Full.models
     (Full.load_manifests (offline gap_source) ["gap.json"] Full.init).1) /\
  Full.main (offline gap_source)
    (Full.Args ["gap.json"] None false false false true) (world_with []) =
  Full.main
    (replace_manifest (offline gap_source) "gap.json"
       (VDict (<["models" := VList ([model_upper] ++ [model_lora])]> gap_manifest)))
    (Full.Args ["gap.json"] None false false false true) (world_with []).
Proof.
  assert (H1 : lacks_key "url" model_no_url = true) by reflexivity.
  assert (H2 : Full.load_manifest (offline gap_source) "gap.json" = VDict gap_manifest)
    by reflexivity.
  assert (H3 : Portable.load_manifest (offline gap_source) "gap.json"
               = VDict gap_manifest) by reflexivity.
  assert (H4 : gap_manifest !! "models"
               = Some (VList ([model_upper] ++ model_no_url :: [model_lora])))
    by reflexivity.
  pose proof (url_less_model_not_counted (offline gap_source) "gap.json" gap_manifest
                [model_upper] [model_lora] model_no_url H1 H2 H3 H4) as H.
  cbv zeta in H. destruct H as (Hplan & Hmain & _).
  split; [exact H1|]. split; [exact H2|]. split; [exact H3|]. split; [exact H4|].
  split; [apply (Hplan ["gap.json"]) | apply Hmain].
Defined.

Example gap_dry_run :
  Full.main (offline gap_source)
    (Full.Args ["gap.json"] None false false false true) (world_with [])
  = (world_with [], Ok (Report 0 (Some (2, 0)))).
Proof. vm_compute. reflexivity. Qed.

(** * Further properties of the two programs *)

Section Moves.
Context {S : Type} (R : S -> S -> Prop).
Hypothesis R_refl : forall s, R s s.
Hypothesis R_trans : forall a b c, R a b -> R b c -> R a c.

Lemma moves_ret {A} (a : A) : moves R (ret a).
Proof. intros s. apply R_refl. Qed.

Lemma moves_pure {A} (r : result A) : moves R (lift r).
Proof. intros s. apply R_refl. Qed.

Lemma moves_bind {A B} (m : Py S A) (k : A -> Py S B) :
  moves R m -> (forall a, moves R (k a)) -> moves R (bind m k).
Proof.
  intros Hm Hk s. unfold bind. specialize (Hm s).
  destruct (m s) as [s' [a|e]]; simpl in *; [|done].
  eapply R_trans; [exact Hm | apply Hk].
Qed.

Lemma moves_for_each {A B} (body : B -> A -> Py S B) xs :
  (forall acc x, moves R (body acc x)) -> forall acc, moves R (for_each body xs acc).
Proof.
  intros Hbody. induction xs as [|x xs IH]; intros acc; simpl.
  - apply moves_ret.
  - apply moves_bind; auto.
Qed.
End Moves.

Lemma grows_refl ps : grows ps ps.
Proof. split; reflexivity. Qed.

Lemma grows_trans a b c : grows a b -> grows b c -> grows a c.
Proof. intros [H1 H2] [H3 H4]. split; etrans; eauto. Qed.

Lemma full_grows_refl self : full_grows self self.
Proof. split; apply grows_refl. Qed.

Lemma full_grows_trans a b c : full_grows a b -> full_grows b c -> full_grows a c.
Proof. intros [H1 H2] [H3 H4]. split; eapply grows_trans; eauto. Qed.

Section Grows.
Variable lower : string -> string.

Lemma add_entry_grows field source counts entry :
  moves grows (add_entry lower field source counts entry).
Proof.
  intros [plan seen]. unfold add_entry. destruct counts as [added skipped].
  unfold bind, lift, gets, modify, ret. simpl.
  destruct (py_get entry field VNone) as [url|e]; [|apply grows_refl].
  destruct (truthy url); simpl; [|apply grows_refl].
  destruct (py_lower lower url) as [key|e]; simpl; [|apply grows_refl].
  destruct (bool_decide (is_Some (seen !! key))) eqn:Hs; simpl; [apply grows_refl|].
  apply bool_decide_eq_false in Hs.
  split; simpl.
  - by apply prefix_app_r.
  - apply insert_subseteq. by apply eq_None_not_Some.
Qed.

Lemma add_entries_grows list_name field manifest source :
  moves grows (add_entries lower list_name field manifest source).
Proof.
  unfold add_entries.
  apply moves_bind; [apply grows_trans | apply moves_pure, grows_refl |]. intros v.
  apply moves_bind; [apply grows_trans | apply moves_pure, grows_refl |]. intros entries.
  apply moves_for_each; [apply grows_refl | apply grows_trans |].
  intros acc x. apply add_entry_grows.
Qed.
End Grows.

Section GrowsPrograms.
Context (P : platform).

Lemma full_add_manifest_grows manifest source :
  moves full_grows (Full.add_manifest P manifest source).
Proof.
  unfold Full.add_manifest.
  destruct (negb (truthy manifest)); [apply moves_ret, full_grows_refl|].
  apply moves_bind; [apply full_grows_trans | |].
  - intros self. unfold zoom.
    pose proof (add_entries_grows (str_lower P) "models" "url" manifest source
                  (Full.models_plan self)) as H.
    destruct (add_entries _ _ _ _ _ _) as [ps r]. simpl in *.
    split; [exact H | apply grows_refl].
  - intros m. apply moves_bind;
      [apply full_grows_trans | | intros n; apply moves_ret, full_grows_refl].
    intros self. unfold zoom.
    pose proof (add_entries_grows (str_lower P) "custom_nodes" "repo" manifest source
                  (Full.nodes_plan self)) as H.
    destruct (add_entries _ _ _ _ _ _) as [ps r]. simpl in *.
    split; [apply grows_refl | exact H].
Qed.

Lemma full_load_one_grows totals source :
  moves full_grows (Full.load_one P totals source).
Proof.
  unfold Full.load_one. destruct totals as [[[tm tms] tn] tns].
  destruct (truthy (Full.load_manifest P source)); [|apply moves_ret, full_grows_refl].
  apply moves_bind; [apply full_grows_trans | apply full_add_manifest_grows |].
  intros [[[ma ms] na] ns]. apply moves_ret, full_grows_refl.
Qed.

Lemma full_load_manifests_grows sources :
  moves full_grows (Full.load_manifests P sources).
Proof.
  apply moves_for_each; [apply full_grows_refl | apply full_grows_trans |].
  intros acc x. apply full_load_one_grows.
Qed.

Lemma portable_add_manifest_grows manifest source :
  moves portable_grows (Portable.add_manifest P manifest source).
Proof.
  unfold Portable.add_manifest.
  destruct (negb (truthy manifest)); [apply moves_ret; intros s; apply grows_refl|].
  intros self. unfold zoom.
  pose proof (add_entries_grows (str_lower P) "models" "url" manifest source
                (Portable.models_plan self)) as H.
  destruct (add_entries _ _ _ _ _ _) as [ps r]. exact H.
Qed.

Lemma portable_load_one_grows totals source :
  moves portable_grows (Portable.load_one P totals source).
Proof.
  unfold Portable.load_one. destruct totals as [tm tms].
  destruct (truthy (Portable.load_manifest P source));
    [|apply moves_ret; intros s; apply grows_refl].
  apply moves_bind;
    [intros a b c; apply grows_trans | apply portable_add_manifest_grows |].
  intros [ma ms]. apply moves_ret. intros s. apply grows_refl.
Qed.

Lemma portable_load_manifests_grows sources :
  moves portable_grows (Portable.load_manifests P sources).
Proof.
  apply moves_for_each;
    [intros s; apply grows_refl | intros a b c; apply grows_trans |].
  intros acc x. apply portable_load_one_grows.
Qed.
End GrowsPrograms.

(** X1.  Merging only ever appends: whatever the documents hold, and
    whether the merge returns or raises halfway, the plan before is a
    prefix of the plan after and every key registered before is still
    registered to the same source. *)
Theorem merge_only_appends (P : platform) :
  (forall manifest source self,
     let self' := (Full.add_manifest P manifest source self).1 in
     Full.models self `prefix_of` Full.models self' /\
     Full.custom_nodes self `prefix_of` Full.custom_nodes self' /\
     Full.seen_models self ⊆ Full.seen_models self' /\
     Full.seen_nodes self ⊆ Full.seen_nodes self') /\
  (forall sources self,
     let self' := (Full.load_manifests P sources self).1 in
     Full.models self `prefix_of` Full.models self' /\
     Full.custom_nodes self `prefix_of` Full.custom_nodes self' /\
     Full.seen_models self ⊆ Full.seen_models self' /\
     Full.seen_nodes self ⊆ Full.seen_nodes self') /\
  (forall manifest source self,
     let self' := (Portable.add_manifest P manifest source self).1 in
     Portable.models self `prefix_of` Portable.models self' /\
     Portable.seen_models self ⊆ Portable.seen_models self') /\
  (forall sources self,
     let self' := (Portable.load_manifests P sources self).1 in
     Portable.models self `prefix_of` Portable.models self' /\
     Portable.seen_models self ⊆ Portable.seen_models self').
Proof.
  split; [|split; [|split]].
  - intros manifest source self self'.
    destruct (full_add_manifest_grows P manifest source self) as [[? ?] [? ?]]. auto.
  - intros sources self self'.
    destruct (full_load_manifests_grows P sources self) as [[? ?] [? ?]]. auto.
  - intros manifest source self self'.
    destruct (portable_add_manifest_grows P manifest source self) as [? ?]. auto.
  - intros sources self self'.
    destruct (portable_load_manifests_grows P sources self) as [? ?]. auto.
Qed.

Section Readding.
Variable lower : string -> string.
Variable field : string.

Lemma fold_merge_entry_registered source entries plan seen added skipped :
  registered lower field entries seen ->
  fold_left (merge_entry lower field source) entries ((plan, seen), (added, skipped)) =
  ((plan, seen), (added, skipped + length (omap (uniqueness_key lower field) entries))).
Proof.
  revert skipped. induction entries as [|e es IH]; intros skipped Hreg.
  - simpl. by rewrite Nat.add_0_r.
  - cbn [fold_left omap list_omap].
    assert (Hes : registered lower field es seen).
    { intros e' k He' Hk. apply (Hreg e' k); [by apply list_elem_of_further | done]. }
    destruct (uniqueness_key lower field e) as [k|] eqn:Hk.
    + destruct (Hreg e k (list_elem_of_here _ _) Hk) as [src Hsrc].
      replace (merge_entry lower field source (plan, seen, (added, skipped)) e)
        with (plan, seen, (added, S skipped))
        by (unfold merge_entry; by rewrite Hk, Hsrc).
      rewrite (IH _ Hes). simpl length. do 2 f_equal. lia.
    + replace (merge_entry lower field source (plan, seen, (added, skipped)) e)
        with (plan, seen, (added, skipped))
        by (unfold merge_entry; by rewrite Hk).
      apply (IH _ Hes).
Qed.

Lemma merge_entries_registered source entries ps :
  registered lower field entries ps.2 ->
  merge_entries lower field source entries ps =
  (ps, (0, length (omap (uniqueness_key lower field) entries))).
Proof.
  destruct ps as [plan seen]. intros Hreg. unfold merge_entries.
  by rewrite fold_merge_entry_registered.
Qed.

Lemma merge_entry_seen_grows source acc e :
  acc.1.2 ⊆ (merge_entry lower field source acc e).1.2.
Proof.
  destruct acc as [[plan seen] [added skipped]]. unfold merge_entry.
  destruct (uniqueness_key lower field e) as [k|]; [|done].
  destruct (seen !! k) eqn:Hs; [done|]. simpl. by apply insert_subseteq.
Qed.

Lemma merge_entry_registers source acc e k :
  uniqueness_key lower field e = Some k ->
  is_Some ((merge_entry lower field source acc e).1.2 !! k).
Proof.
  destruct acc as [[plan seen] [added skipped]]. unfold merge_entry. intros ->.
  destruct (seen !! k) eqn:Hs; simpl; [by rewrite Hs|].
  rewrite lookup_insert_eq. eauto.
Qed.

Lemma fold_merge_entry_registers source entries : forall acc,
  acc.1.2 ⊆ (fold_left (merge_entry lower field source) entries acc).1.2 /\
  registered lower field entries
    (fold_left (merge_entry lower field source) entries acc).1.2.
Proof.
  induction entries as [|e es IH]; intros acc.
  - split; [done|]. intros e k He. by apply elem_of_nil in He.
  - cbn [fold_left].
    destruct (IH (merge_entry lower field source acc e)) as [Hsub Hreg].
    split.
    + etrans; [apply merge_entry_seen_grows | exact Hsub].
    + intros e' k He' Hk. apply elem_of_cons in He' as [->|He'].
      * eapply lookup_weaken_is_Some; [|exact Hsub].
        by apply merge_entry_registers.
      * by apply (Hreg e' k).
Qed.

Lemma merge_entries_registers source entries ps :
  registered lower field entries (merge_entries lower field source entries ps).1.2.
Proof. apply fold_merge_entry_registers. Qed.

Lemma registered_weaken entries seen seen' :
  registered lower field entries seen -> seen ⊆ seen' ->
  registered lower field entries seen'.
Proof.
  intros Hreg Hsub e k He Hk. eapply lookup_weaken_is_Some; [|exact Hsub]. eauto.
Qed.
End Readding.

(** X2.  Adding a manifest document again, to a store that already
    absorbed it (right away or after any further sources), leaves plan and
    seen-map exactly as they are: nothing is added, and each of its keyed
    entries is counted as a duplicate. *)
Theorem readding_manifest_only_counts_duplicates (P : platform)
    (manifest : value) (first again : string) (others : list string) :
  Full.wf_manifest manifest = true ->
  let lower := str_lower P in
  let keyed_models :=
    length (omap (uniqueness_key lower "url") (entries_of "models" manifest)) in
  let keyed_nodes :=
    length (omap (uniqueness_key lower "repo") (entries_of "custom_nodes" manifest)) in
  (forall self,
     let self1 := (Full.add_manifest P manifest first self).1 in
     let self2 := (Full.load_manifests P others self1).1 in
     Full.add_manifest P manifest again self2 =
     (self2, Ok (0, keyed_models, 0, keyed_nodes))) /\
  (forall self,
     let self1 := (Portable.add_manifest P manifest first self).1 in
     let self2 := (Portable.load_manifests P others self1).1 in
     Portable.add_manifest P manifest again self2 = (self2, Ok (0, keyed_models))).
Proof.
  intros Hwf lower keyed_models keyed_nodes.
  pose proof Hwf as Hwf'. apply andb_true_iff in Hwf' as [Hwm Hwn].
  split.
  - intros self self1 self2.
    assert (Hm : registered lower "url" (entries_of "models" manifest)
                   (Full.seen_models self2)).
    { apply (registered_weaken _ _ _ (Full.seen_models self1)).
      - subst self1. rewrite (add_manifest_refines P _ _ _ Hwf).
        pose proof (f_equal snd (full_merge_source_models lower self first manifest)) as E.
        unfold Full.models_plan at 1 in E. cbn [snd] in E. cbn [fst]. fold lower. rewrite E.
        apply merge_entries_registers.
      - by destruct (full_load_manifests_grows P others self1) as [[_ ?] _]. }
    assert (Hn : registered lower "repo" (entries_of "custom_nodes" manifest)
                   (Full.seen_nodes self2)).
    { apply (registered_weaken _ _ _ (Full.seen_nodes self1)).
      - subst self1. rewrite (add_manifest_refines P _ _ _ Hwf).
        pose proof (f_equal snd (full_merge_source_nodes lower self first manifest)) as E.
        unfold Full.nodes_plan at 1 in E. cbn [snd] in E. cbn [fst]. fold lower. rewrite E.
        apply merge_entries_registers.
      - by destruct (full_load_manifests_grows P others self1) as [_ [_ ?]]. }
    rewrite (add_manifest_refines P _ _ _ Hwf). unfold Full.merge_source.
    fold lower.
    rewrite (merge_entries_registered lower "url") by exact Hm.
    rewrite (merge_entries_registered lower "repo") by exact Hn.
    by destruct self2.
  - intros self self1 self2.
    assert (Hm : registered lower "url" (entries_of "models" manifest)
                   (Portable.seen_models self2)).
    { apply (registered_weaken _ _ _ (Portable.seen_models self1)).
      - subst self1. rewrite (portable_add_manifest_refines P _ _ _ Hwm).
        pose proof (f_equal snd (portable_merge_source_models lower self first manifest))
          as E.
        unfold Portable.models_plan at 1 in E. cbn [snd] in E. cbn [fst]. fold lower. rewrite E.
        apply merge_entries_registers.
      - by destruct (portable_load_manifests_grows P others self1) as [_ ?]. }
    rewrite (portable_add_manifest_refines P _ _ _ Hwm). unfold Portable.merge_source.
    fold lower.
    rewrite (merge_entries_registered lower "url") by exact Hm.
    by destruct self2.
Qed.

Lemma readding_manifest_only_counts_duplicates_witness :
  Full.wf_manifest (obj [("models", VList [model_upper; model_no_url])]) = true /\
  Full.add_manifest (offline two_manifests)
    (obj [("models", VList [model_upper; model_no_url])]) "again.json"
    (Full.load_manifests (offline two_manifests) ["b.json"]
       (Full.add_manifest (offline two_manifests)
          (obj [("models", VList [model_upper; model_no_url])]) "first.json"
          Full.init).1).1
  = ((Full.load_manifests (offline two_manifests) ["b.json"]
        (Full.add_manifest (offline two_manifests)
           (obj [("models", VList [model_upper; model_no_url])]) "first.json"
           Full.init).1).1,
     Ok (0, 1, 0, 0)).
Proof.
  assert (Hwf : Full.wf_manifest (obj [("models", VList [model_upper; model_no_url])])
                = true) by reflexivity.
  split; [exact Hwf|].
  destruct (readding_manifest_only_counts_duplicates (offline two_manifests)
              (obj [("models", VList [model_upper; model_no_url])])
              "first.json" "again.json" ["b.json"] Hwf) as [Hfull _].
  exact (Hfull Full.init).
Defined.

Section ArrivalOrder.
Variable lower : string -> string.

Lemma fold_merge_entry_sublist field source entries : forall acc,
  exists kept,
    (fold_left (merge_entry lower field source) entries acc).1.1 = acc.1.1 ++ kept /\
    sublist kept entries.
Proof.
  induction entries as [|e es IH]; intros acc.
  - exists []. split; [by rewrite app_nil_r | constructor].
  - cbn [fold_left].
    destruct (IH (merge_entry lower field source acc e)) as (kept & -> & Hsub).
    destruct acc as [[plan seen] [added skipped]]. unfold merge_entry.
    destruct (uniqueness_key lower field e) as [k|];
      [destruct (seen !! k)|]; simpl.
    + exists kept. split; [done | by constructor].
    + exists (e :: kept). split; [by rewrite <- app_assoc | by constructor].
    + exists kept. split; [done | by constructor].
Qed.

Lemma full_merge_source_sublist self source manifest :
  exists kept_m kept_n,
    Full.models (Full.merge_source lower self source manifest).1
      = Full.models self ++ kept_m /\
    sublist kept_m (entries_of "models" manifest) /\
    Full.custom_nodes (Full.merge_source lower self source manifest).1
      = Full.custom_nodes self ++ kept_n /\
    sublist kept_n (entries_of "custom_nodes" manifest).
Proof.
  pose proof (f_equal fst (full_merge_source_models lower self source manifest)) as Em.
  pose proof (f_equal fst (full_merge_source_nodes lower self source manifest)) as En.
  unfold Full.models_plan at 1 in Em. unfold Full.nodes_plan at 1 in En.
  cbn [fst] in Em, En. rewrite Em, En. unfold merge_entries.
  destruct (fold_merge_entry_sublist "url" source (entries_of "models" manifest)
              (Full.models_plan self, (0, 0))) as (km & -> & Hkm).
  destruct (fold_merge_entry_sublist "repo" source (entries_of "custom_nodes" manifest)
              (Full.nodes_plan self, (0, 0))) as (kn & -> & Hkn).
  by exists km, kn.
Qed.

Lemma full_merge_sublist docs : forall self totals,
  exists kept_m kept_n,
    Full.models (fold_left (Full.merge_step lower) docs (self, totals)).1
      = Full.models self ++ kept_m /\
    sublist kept_m (arrivals "models" docs).*2 /\
    Full.custom_nodes (fold_left (Full.merge_step lower) docs (self, totals)).1
      = Full.custom_nodes self ++ kept_n /\
    sublist kept_n (arrivals "custom_nodes" docs).*2.
Proof.
  induction docs as [|[source manifest] docs IH]; intros self totals.
  - exists [], []. simpl. rewrite !app_nil_r. repeat split; constructor.
  - cbn [fold_left]. unfold Full.merge_step at 2 4. cbn [fst snd].
    destruct (IH (Full.merge_source lower self source manifest).1
                 (Full.add4 totals (Full.merge_source lower self source manifest).2))
      as (km & kn & -> & Hkm & -> & Hkn).
    destruct (full_merge_source_sublist self source manifest)
      as (km0 & kn0 & -> & Hkm0 & -> & Hkn0).
    exists (km0 ++ km), (kn0 ++ kn). rewrite !arrivals_cons, <- !app_assoc.
    repeat split; by apply sublist_app.
Qed.

Lemma portable_merge_source_sublist self source manifest :
  exists kept_m,
    Portable.models (Portable.merge_source lower self source manifest).1
      = Portable.models self ++ kept_m /\
    sublist kept_m (entries_of "models" manifest).
Proof.
  pose proof (f_equal fst (portable_merge_source_models lower self source manifest)) as Em.
  unfold Portable.models_plan at 1 in Em. cbn [fst] in Em. rewrite Em.
  unfold merge_entries.
  destruct (fold_merge_entry_sublist "url" source (entries_of "models" manifest)
              (Portable.models_plan self, (0, 0))) as (km & -> & Hkm).
  by exists km.
Qed.

Lemma portable_merge_sublist docs : forall self totals,
  exists kept_m,
    Portable.models (fold_left (Portable.merge_step lower) docs (self, totals)).1
      = Portable.models self ++ kept_m /\
    sublist kept_m (arrivals "models" docs).*2.
Proof.
  induction docs as [|[source manifest] docs IH]; intros self totals.
  - exists []. simpl. rewrite !app_nil_r. repeat split; constructor.
  - cbn [fold_left]. unfold Portable.merge_step at 2. cbn [fst snd].
    destruct (IH (Portable.merge_source lower self source manifest).1
                 (Portable.add2 totals (Portable.merge_source lower self source manifest).2))
      as (km & -> & Hkm).
    destruct (portable_merge_source_sublist self source manifest) as (km0 & -> & Hkm0).
    exists (km0 ++ km). rewrite !arrivals_cons, <- !app_assoc.
    repeat split; by apply sublist_app.
Qed.

Lemma merged_from_complete field arrs ps x k :
  merged_from lower field arrs ps ->
  x ∈ arrs -> uniqueness_key lower field x.2 = Some k ->
  exists e, e ∈ ps.1 /\ uniqueness_key lower field e = Some k.
Proof.
  intros Hinv Hx Hk.
  assert (Hs : is_Some (ps.2 !! k)) by (apply (seen_arrived _ _ _ _ Hinv); eauto).
  apply (plan_keys_seen _ _ _ _ Hinv) in Hs.
  apply list_elem_of_omap in Hs. exact Hs.
Qed.
End ArrivalOrder.

(** X3.  The merged plan keeps arrival order and loses no key: it is a
    subsequence of the entries in the order the sources deliver them
    (source order, then document order), and every key that arrives has
    an entry in the plan. *)
Theorem plan_in_arrival_order (P : platform) (sources : list string) :
  Forall (fun s => Full.wf_manifest (Full.load_manifest P s) = true) sources ->
  Forall (fun s => Portable.wf_manifest (Portable.load_manifest P s) = true) sources ->
  let lower := str_lower P in
  let docs := (fun s => (s, Full.load_manifest P s)) <$> sources in
  let pdocs := (fun s => (s, Portable.load_manifest P s)) <$> sources in
  let final := (Full.load_manifests P sources Full.init).1 in
  let pfinal := (Portable.load_manifests P sources Portable.init).1 in
  (sublist (Full.models final) (arrivals "models" docs).*2 /\
   forall x k, x ∈ arrivals "models" docs -> uniqueness_key lower "url" x.2 = Some k ->
     exists e, e ∈ Full.models final /\ uniqueness_key lower "url" e = Some k) /\
  (sublist (Full.custom_nodes final) (arrivals "custom_nodes" docs).*2 /\
   forall x k, x ∈ arrivals "custom_nodes" docs ->
     uniqueness_key lower "repo" x.2 = Some k ->
     exists e, e ∈ Full.custom_nodes final /\ uniqueness_key lower "repo" e = Some k) /\
  (sublist (Portable.models pfinal) (arrivals "models" pdocs).*2 /\
   forall x k, x ∈ arrivals "models" pdocs -> uniqueness_key lower "url" x.2 = Some k ->
     exists e, e ∈ Portable.models pfinal /\ uniqueness_key lower "url" e = Some k).
Proof.
  intros Hfull Hport lower docs pdocs final pfinal.
  assert (Hfinal : final = (Full.merge lower docs).1).
  { subst final. unfold Full.load_manifests.
    by rewrite (load_manifests_refines_from P sources _ _ Hfull). }
  assert (Hpfinal : pfinal = (Portable.merge lower pdocs).1).
  { subst pfinal. unfold Portable.load_manifests.
    by rewrite (portable_load_manifests_refines_from P sources _ _ Hport). }
  destruct (full_merge_inv lower docs Full.init (0, 0, 0, 0) [] []) as [Hm Hn];
    try apply merged_from_nil.
  pose proof (portable_merge_inv lower pdocs Portable.init (0, 0) []
                (merged_from_nil lower "url")) as Hpm.
  destruct (full_merge_sublist lower docs Full.init (0, 0, 0, 0))
    as (km & kn & Ekm & Hkm & Ekn & Hkn).
  destruct (portable_merge_sublist lower pdocs Portable.init (0, 0)) as (kp & Ekp & Hkp).
  fold (Full.merge lower docs) in Hm, Hn, Ekm, Ekn.
  fold (Portable.merge lower pdocs) in Hpm, Ekp.
  rewrite <- Hfinal in Hm, Hn, Ekm, Ekn. rewrite <- Hpfinal in Hpm, Ekp.
  simpl app in *. clearbody final pfinal.
  split; [|split]; split.
  - by rewrite Ekm.
  - intros x k. apply (merged_from_complete lower "url" _ _ x k Hm).
  - by rewrite Ekn.
  - intros x k. apply (merged_from_complete lower "repo" _ _ x k Hn).
  - by rewrite Ekp.
  - intros x k. apply (merged_from_complete lower "url" _ _ x k Hpm).
Qed.

Lemma plan_in_arrival_order_witness :
  Forall (fun s => Full.wf_manifest (Full.load_manifest (offline two_manifests) s) = true)
    ["a.json"; "b.json"] /\
  Forall (fun s => Portable.wf_manifest
                     (Portable.load_manifest (offline two_manifests) s) = true)
    ["a.json"; "b.json"] /\
  sublist
    (Full.models
       (Full.load_manifests (offline two_manifests) ["a.json"; "b.json"] Full.init).1)
    (arrivals "models"
       ((fun s => (s, Full.load_manifest (offline two_manifests) s))
          <$> ["a.json"; "b.json"])).*2.
Proof.
  assert (HF : Forall (fun s => Full.wf_manifest
                         (Full.load_manifest (offline two_manifests) s) = true)
                 ["a.json"; "b.json"])
    by (repeat constructor).
  assert (HP : Forall (fun s => Portable.wf_manifest
                         (Portable.load_manifest (offline two_manifests) s) = true)
                 ["a.json"; "b.json"])
    by (repeat constructor).
  split; [exact HF|]. split; [exact HP|].
  pose proof (plan_in_arrival_order (offline two_manifests) ["a.json"; "b.json"] HF HP)
    as H.
  cbv zeta in H. destruct H as ((Hsub & _) & _). exact Hsub.
Defined.

Lemma merges_agree_on_models lower docs : forall self pself tm tms tn tns,
  Portable.models_plan pself = Full.models_plan self ->
  let full := fold_left (Full.merge_step lower) docs (self, (tm, tms, tn, tns)) in
  let portable := fold_left (Portable.merge_step lower) docs (pself, (tm, tms)) in
  Portable.models_plan portable.1 = Full.models_plan full.1 /\
  portable.2 = (full.2.1.1.1, full.2.1.1.2).
Proof.
  induction docs as [|[source manifest] docs IH]; intros self pself tm tms tn tns Hsame;
    cbv zeta.
  - simpl. auto.
  - cbn [fold_left]. unfold Full.merge_step at 2 4 6, Portable.merge_step at 2 4.
    cbn [fst snd].
    pose proof (full_merge_source_models lower self source manifest) as Hf.
    pose proof (portable_merge_source_models lower pself source manifest) as Hp.
    rewrite Hsame, <- Hf in Hp.
    assert (Hc : (Portable.merge_source lower pself source manifest).2 =
                 ((Full.merge_source lower self source manifest).2.1.1.1,
                  (Full.merge_source lower self source manifest).2.1.1.2)).
    { unfold Portable.merge_source, Full.merge_source. cbn [fst snd].
      rewrite Hsame. by destruct (merge_entries lower "url" _ _ _) as [ps [a s]]. }
    destruct (Full.merge_source lower self source manifest) as [self1 [[[a s] an] sn]].
    destruct (Portable.merge_source lower pself source manifest) as [pself1 [pa psk]].
    cbn [fst snd] in *. injection Hc as -> ->.
    unfold Full.add4, Portable.add2. cbn [fst snd].
    apply (IH self1 pself1 (tm + a) (tms + s) (tn + an) (tns + sn) Hp).
Qed.

(** X4.  The two programs build the same model plan.  From sources they
    load alike (every local path; every remote source too when only
    [requests] is at hand) the portable program ends with the models,
    the seen-map and the model counts of the full program. *)
Theorem portable_plan_is_full_model_plan (P : platform) (sources : list string) :
  Forall (fun s => Full.wf_manifest (Full.load_manifest P s) = true) sources ->
  Forall (fun s => Portable.load_manifest P s = Full.load_manifest P s) sources ->
  let full := Full.load_manifests P sources Full.init in
  let portable := Portable.load_manifests P sources Portable.init in
  (Portable.models portable.1 = Full.models full.1 /\
   Portable.seen_models portable.1 = Full.seen_models full.1 /\
   exists tm tms tn tns, full.2 = Ok (tm, tms, tn, tns) /\ portable.2 = Ok (tm, tms)) /\
  (forall s, String.prefix "http://" s || String.prefix "https://" s = false ->
             Portable.load_manifest P s = Full.load_manifest P s) /\
  (has_curl P = false -> HAS_REQUESTS P = true ->
   forall s, Portable.load_manifest P s = Full.load_manifest P s).
Proof.
  intros Hwf Hsame full portable. split; [|split].
  - assert (Hpwf : Forall (fun s => Portable.wf_manifest (Portable.load_manifest P s)
                                    = true) sources).
    { rewrite Forall_forall in *. intros s Hs. rewrite (Hsame s Hs).
      specialize (Hwf s Hs). by apply andb_true_iff in Hwf as [? _]. }
    assert (Hdocs : (fun s => (s, Portable.load_manifest P s)) <$> sources =
                    (fun s => (s, Full.load_manifest P s)) <$> sources).
    { apply Forall_fmap_ext_1. eapply Forall_impl; [exact Hsame|].
      intros s Hs. simpl. by rewrite Hs. }
    subst full portable. unfold Full.load_manifests, Portable.load_manifests.
    rewrite (load_manifests_refines_from P sources _ _ Hwf).
    rewrite (portable_load_manifests_refines_from P sources _ _ Hpwf), Hdocs.
    cbn [fst snd].
    destruct (merges_agree_on_models (str_lower P)
                ((fun s => (s, Full.load_manifest P s)) <$> sources)
                Full.init Portable.init 0 0 0 0 eq_refl) as [Hplan Hcounts].
    unfold Portable.models_plan, Full.models_plan in Hplan.
    injection Hplan as Hm Hs. split; [exact Hm|]. split; [exact Hs|].
    rewrite Hcounts.
    destruct (fold_left (Full.merge_step _) _ _) as [self [[[tm tms] tn] tns]].
    by exists tm, tms, tn, tns.
  - intros s Hlocal. unfold Portable.load_manifest, Full.load_manifest.
    by rewrite Hlocal.
  - intros Hcurl Hreq s. unfold Portable.load_manifest, Full.load_manifest.
    rewrite Hcurl, Hreq.
    by destruct (String.prefix "http://" s || String.prefix "https://" s).
Qed.

Lemma portable_plan_is_full_model_plan_witness :
  Forall (fun s => Full.wf_manifest (Full.load_manifest (offline two_manifests) s) = true)
    ["a.json"; "b.json"] /\
  Forall (fun s => Portable.load_manifest (offline two_manifests) s
                   = Full.load_manifest (offline two_manifests) s)
    ["a.json"; "b.json"] /\
  Portable.models
    (Portable.load_manifests (offline two_manifests) ["a.json"; "b.json"]
       Portable.init).1 =
  Full.models
    (Full.load_manifests (offline two_manifests) ["a.json"; "b.json"] Full.init).1.
Proof.
  assert (HF : Forall (fun s => Full.wf_manifest
                         (Full.load_manifest (offline two_manifests) s) = true)
                 ["a.json"; "b.json"])
    by (repeat constructor).
  assert (HS : Forall (fun s => Portable.load_manifest (offline two_manifests) s
                                = Full.load_manifest (offline two_manifests) s)
                 ["a.json"; "b.json"])
    by (repeat constructor).
  split; [exact HF|]. split; [exact HS|].
  pose proof (portable_plan_is_full_model_plan (offline two_manifests)
                ["a.json"; "b.json"] HF HS) as H.
  cbv zeta in H. destruct H as ((Hm & _) & _). exact Hm.
Defined.

Lemma add_entries_not_an_object lower list_name field manifest source ps :
  is_dict manifest = false ->
  add_entries lower list_name field manifest source ps = (ps, Raise AttributeError).
Proof. by destruct manifest. Qed.

Lemma add_entry_malformed lower field source counts entry ps :
  wf_entry field entry = false ->
  add_entry lower field source counts entry ps = (ps, Raise AttributeError).
Proof.
  destruct counts as [added skipped].
  destruct entry as [| | | |l|d]; try reflexivity.
  unfold add_entry, bind, lift. simpl.
  destruct (default VNone (d !! field)) as [|b|n|s|l|d']; simpl; try discriminate;
    intros Hwf; apply negb_false_iff in Hwf; simpl in Hwf; by rewrite Hwf.
Qed.

Lemma add_entries_malformed lower list_name field d source pre bad post ps :
  d !! list_name = Some (VList (pre ++ bad :: post)) ->
  forallb (wf_entry field) pre = true ->
  wf_entry field bad = false ->
  add_entries lower list_name field (VDict d) source ps =
  ((merge_entries lower field source pre ps).1, Raise AttributeError).
Proof.
  intros Hd Hpre Hbad. unfold add_entries, bind, lift. simpl. rewrite Hd. simpl.
  rewrite for_each_app, (for_each_add_entry_refines _ _ _ _ _ _ Hpre).
  by rewrite for_each_cons, add_entry_malformed.
Qed.

Section Aborts.
Context (P : platform).

Lemma full_add_manifest_not_an_object manifest source self :
  truthy manifest = true -> is_dict manifest = false ->
  Full.add_manifest P manifest source self = (self, Raise AttributeError).
Proof.
  intros Ht Hd. unfold Full.add_manifest. rewrite Ht. cbn [negb].
  unfold bind, zoom. rewrite add_entries_not_an_object by done.
  by destruct self.
Qed.

Lemma portable_add_manifest_not_an_object manifest source self :
  truthy manifest = true -> is_dict manifest = false ->
  Portable.add_manifest P manifest source self = (self, Raise AttributeError).
Proof.
  intros Ht Hd. unfold Portable.add_manifest. rewrite Ht. cbn [negb].
  unfold zoom. rewrite add_entries_not_an_object by done.
  by destruct self.
Qed.

Lemma full_load_manifests_stops before source after self :
  (forall self', exists e, forall totals,
     Full.load_one P totals source self' = (self', Raise e)) ->
  Full.load_manifests P (before ++ source :: after) self =
  match Full.load_manifests P before self with
  | (self', Ok _) => (self', (Full.load_one P (0, 0, 0, 0) source self').2)
  | (self', Raise e) => (self', Raise e)
  end.
Proof.
  intros Hraise. unfold Full.load_manifests. rewrite for_each_app.
  destruct (for_each (Full.load_one P) before (0, 0, 0, 0) self) as [self' [t|e]];
    [|reflexivity].
  destruct (Hraise self') as (e & He). by rewrite for_each_cons, !He.
Qed.

Lemma portable_load_manifests_stops before source after self :
  (forall self', exists e, forall totals,
     Portable.load_one P totals source self' = (self', Raise e)) ->
  Portable.load_manifests P (before ++ source :: after) self =
  match Portable.load_manifests P before self with
  | (self', Ok _) => (self', (Portable.load_one P (0, 0) source self').2)
  | (self', Raise e) => (self', Raise e)
  end.
Proof.
  intros Hraise. unfold Portable.load_manifests. rewrite for_each_app.
  destruct (for_each (Portable.load_one P) before (0, 0) self) as [self' [t|e]];
    [|reflexivity].
  destruct (Hraise self') as (e & He). by rewrite for_each_cons, !He.
Qed.
End Aborts.

(** X5.  A manifest that loads to something true that is not a JSON
    object (an array, a string, a number) is not skipped like an
    unreadable one: [add_manifest] raises [AttributeError] with the store
    untouched, [load_manifests] stops at that source with what the
    earlier sources merged, and [main] ends with the exception before
    anything is acquired, whatever the mode. *)
Theorem manifest_not_an_object_aborts (P : platform) (manifest : value)
    (source : string) (before after : list string) :
  truthy manifest = true ->
  is_dict manifest = false ->
  (forall self,
     Full.add_manifest P manifest source self = (self, Raise AttributeError)) /\
  (forall self,
     Portable.add_manifest P manifest source self = (self, Raise AttributeError)) /\
  (Full.load_manifest P source = manifest ->
   (forall self self' totals,
      Full.load_manifests P before self = (self', Ok totals) ->
      Full.load_manifests P (before ++ source :: after) self
        = (self', Raise AttributeError)) /\
   (forall a w self' totals,
      Full.manifests a = before ++ source :: after ->
      Full.models_only a && Full.nodes_only a = false ->
      Full.load_manifests P before Full.init = (self', Ok totals) ->
      Full.main P a w = (w, Raise AttributeError))) /\
  (Portable.load_manifest P source = manifest ->
   (forall self self' totals,
      Portable.load_manifests P before self = (self', Ok totals) ->
      Portable.load_manifests P (before ++ source :: after) self
        = (self', Raise AttributeError)) /\
   (forall a w self' totals,
      Portable.manifests a = before ++ source :: after ->
      Portable.load_manifests P before Portable.init = (self', Ok totals) ->
      Portable.main P a w = (w, Raise AttributeError))).
Proof.
  intros Ht Hd.
  split; [intros self; by apply full_add_manifest_not_an_object|].
  split; [intros self; by apply portable_add_manifest_not_an_object|].
  split.
  - intros Hload.
    assert (Hone : forall self' totals,
              Full.load_one P totals source self' = (self', Raise AttributeError)).
    { intros self' [[[tm tms] tn] tns]. unfold Full.load_one. rewrite Hload, Ht.
      unfold bind. by rewrite full_add_manifest_not_an_object. }
    assert (Hstop : forall self self' totals,
              Full.load_manifests P before self = (self', Ok totals) ->
              Full.load_manifests P (before ++ source :: after) self
                = (self', Raise AttributeError)).
    { intros self self' totals Hbefore.
      rewrite full_load_manifests_stops by (intros s; eexists; intros t; apply Hone).
      by rewrite Hbefore, Hone. }
    split; [exact Hstop|].
    intros a w self' totals Ha Hflags Hbefore. unfold Full.main.
    by rewrite Hflags, Ha, (Hstop _ _ _ Hbefore).
  - intros Hload.
    assert (Hone : forall self' totals,
              Portable.load_one P totals source self' = (self', Raise AttributeError)).
    { intros self' [tm tms]. unfold Portable.load_one. rewrite Hload, Ht.
      unfold bind. by rewrite portable_add_manifest_not_an_object. }
    assert (Hstop : forall self self' totals,
              Portable.load_manifests P before self = (self', Ok totals) ->
              Portable.load_manifests P (before ++ source :: after) self
                = (self', Raise AttributeError)).
    { intros self self' totals Hbefore.
      rewrite portable_load_manifests_stops by (intros s; eexists; intros t; apply Hone).
      by rewrite Hbefore, Hone. }
    split; [exact Hstop|].
    intros a w self' totals Ha Hbefore. unfold Portable.main.
    by rewrite Ha, (Hstop _ _ _ Hbefore).
Qed.

Lemma manifest_not_an_object_aborts_witness :
  truthy (VList [model_upper]) = true /\
  is_dict (VList [model_upper]) = false /\
  Full.main (offline array_source)
    (Full.Args (["a.json"] ++ "array.json" :: ["b.json"]) None false false false true)
    (world_with []) = (world_with [], Raise AttributeError).
Proof.
  assert (Ht : truthy (VList [model_upper]) = true) by reflexivity.
  assert (Hd : is_dict (VList [model_upper]) = false) by reflexivity.
  split; [exact Ht|]. split; [exact Hd|].
  destruct (manifest_not_an_object_aborts (offline array_source) (VList [model_upper])
              "array.json" ["a.json"] ["b.json"] Ht Hd) as (_ & _ & Hfull & _).
  destruct (Hfull eq_refl) as [_ Hmain].
  eapply Hmain; reflexivity.
Defined.

(** X6.  A malformed entry stops the merge where it stands.  When an
    entry of a manifest is not a JSON object, or its key ([url], [repo])
    is something true that is not a string, [add_manifest] raises
    [AttributeError]; the entries before it stay merged (nothing is rolled
    back) and those after it are never looked at. *)
Theorem malformed_entry_aborts_merge (P : platform) (d : gmap string value)
    (source : string) (pre post : list value) (bad : value) :
  forallb (wf_entry "url") pre = true ->
  wf_entry "url" bad = false ->
  d !! "models" = Some (VList (pre ++ bad :: post)) ->
  let lower := str_lower P in
  (forall counts ps,
     add_entry lower "url" source counts bad ps = (ps, Raise AttributeError)) /\
  (forall self,
     Full.add_manifest P (VDict d) source self =
     (Full.set_models_plan
        (merge_entries lower "url" source pre (Full.models_plan self)).1 self,
      Raise AttributeError)) /\
  (forall self,
     Portable.add_manifest P (VDict d) source self =
     (Portable.set_models_plan
        (merge_entries lower "url" source pre (Portable.models_plan self)).1 self,
      Raise AttributeError)).
Proof.
  intros Hpre Hbad Hd lower.
  pose proof (truthy_dict_lookup _ _ _ Hd) as Ht.
  split; [intros counts ps; by apply add_entry_malformed|]. split.
  - intros self. unfold Full.add_manifest. rewrite Ht. cbn [negb].
    unfold bind, zoom.
    by rewrite (add_entries_malformed _ _ _ _ _ pre bad post).
  - intros self. unfold Portable.add_manifest. rewrite Ht. cbn [negb].
    unfold zoom.
    by rewrite (add_entries_malformed _ _ _ _ _ pre bad post).
Qed.

Lemma malformed_entry_aborts_merge_witness :
  forallb (wf_entry "url") [model_upper] = true /\
  wf_entry "url" model_numbered = false /\
  Full.add_manifest (offline two_manifests)
    (obj [("models", VList ([model_upper] ++ model_numbered :: [model_lora]))])
    "a.json" Full.init =
  (Full.Build [model_upper] [] {["https://host/models/base.safetensors" := "a.json"]} ∅,
   Raise AttributeError).
Proof.
  assert (H1 : forallb (wf_entry "url") [model_upper] = true) by reflexivity.
  assert (H2 : wf_entry "url" model_numbered = false) by reflexivity.
  assert (H3 : (list_to_map
                  [("models", VList ([model_upper] ++ model_numbered :: [model_lora]))]
                : gmap string value) !! "models"
               = Some (VList ([model_upper] ++ model_numbered :: [model_lora])))
    by reflexivity.
  split; [exact H1|]. split; [exact H2|].
  destruct (malformed_entry_aborts_merge (offline two_manifests) _
              "a.json" [model_upper] [model_lora] model_numbered H1 H2 H3)
    as (_ & Hfull & _).
  unfold obj. rewrite (Hfull Full.init). vm_compute. reflexivity.
Defined.

Section Footprint.
Context (Q : event -> Prop) (D : string -> Prop).

Lemma footprint_ret {A} (a : A) : footprint Q D (ret a).
Proof. intros w. split; [exists []; by rewrite app_nil_r | done]. Qed.

Lemma footprint_raise {A} (e : exn) : footprint Q D (raise e : Py world A).
Proof. intros w. split; [exists []; by rewrite app_nil_r | done]. Qed.

Lemma footprint_lift {A} (r : result A) : footprint Q D (lift r).
Proof. intros w. split; [exists []; by rewrite app_nil_r | done]. Qed.

Lemma footprint_gets {A} (f : world -> A) : footprint Q D (gets f).
Proof. intros w. split; [exists []; by rewrite app_nil_r | done]. Qed.

Lemma footprint_bind {A B} (m : Py world A) (k : A -> Py world B) :
  footprint Q D m -> (forall a, footprint Q D (k a)) -> footprint Q D (bind m k).
Proof.
  intros Hm Hk w. unfold bind. destruct (Hm w) as [(evs & Htr & Hq) Hfs].
  destruct (m w) as [w1 [a|e]]; simpl in *; [|eauto].
  destruct (Hk a w1) as [(evs' & Htr' & Hq') Hfs']. split.
  - exists (evs ++ evs'). rewrite Htr', Htr, app_assoc. split; [done|].
    by apply Forall_app.
  - intros p Hp. by rewrite Hfs', Hfs.
Qed.

Lemma footprint_bind_lift {A B} (r : result A) (k : A -> Py world B) :
  (forall a, r = Ok a -> footprint Q D (k a)) -> footprint Q D (bind (lift r) k).
Proof.
  intros Hk. destruct r as [a|e]; [by apply (Hk a)|].
  intros w. split; [exists []; by rewrite app_nil_r | done].
Qed.

Lemma footprint_try_except {A} (m : Py world A) (h : exn -> Py world A) :
  footprint Q D m -> (forall e, footprint Q D (h e)) -> footprint Q D (try_except m h).
Proof.
  intros Hm Hh w. unfold try_except. destruct (Hm w) as [(evs & Htr & Hq) Hfs].
  destruct (m w) as [w1 [a|e]]; simpl in *; [eauto|].
  destruct (Hh e w1) as [(evs' & Htr' & Hq') Hfs']. split.
  - exists (evs ++ evs'). rewrite Htr', Htr, app_assoc. split; [done|].
    by apply Forall_app.
  - intros p Hp. by rewrite Hfs', Hfs.
Qed.

Lemma footprint_for_each {A B} (body : B -> A -> Py world B) xs :
  (forall acc x, x ∈ xs -> footprint Q D (body acc x)) ->
  forall acc, footprint Q D (for_each body xs acc).
Proof.
  induction xs as [|x xs IH]; intros Hbody acc; simpl.
  - apply footprint_ret.
  - apply footprint_bind.
    + apply Hbody, list_elem_of_here.
    + intros acc'. apply IH. intros acc0 x0 Hx0. by apply Hbody, list_elem_of_further.
Qed.

Lemma footprint_log ev : Q ev -> footprint Q D (log ev).
Proof.
  intros Hev w. split; [|done]. exists [ev]. split; [done|]. by constructor.
Qed.

Lemma footprint_set_node p n : D p -> footprint Q D (set_node p n).
Proof.
  intros Hp w. split; [exists []; by rewrite app_nil_r|].
  intros p' Hp'. simpl. assert (p <> p') by (intros ->; done).
  destruct n; [by rewrite lookup_insert_ne | by rewrite lookup_delete_ne].
Qed.

Lemma footprint_mkdir_parents p : Q (EvMkdir p) -> footprint Q D (mkdir_parents p).
Proof. apply footprint_log. Qed.

Lemma footprint_path_exists p : Q (EvExists p) -> footprint Q D (path_exists p).
Proof.
  intros Hq. unfold path_exists.
  apply footprint_bind; [by apply footprint_log | intros _; apply footprint_gets].
Qed.

Lemma footprint_read_file p : Q (EvRead p) -> footprint Q D (read_file p).
Proof.
  intros Hq. unfold read_file.
  apply footprint_bind; [by apply footprint_log | intros _].
  apply footprint_bind; [apply footprint_gets | intros [[data|]|]];
    [apply footprint_ret | apply footprint_raise | apply footprint_raise].
Qed.

Lemma footprint_unlink p : Q (EvUnlink p) -> D p -> footprint Q D (unlink p).
Proof.
  intros Hq Hd. unfold unlink.
  apply footprint_bind; [by apply footprint_log | intros _].
  apply footprint_bind; [apply footprint_gets | intros [[data|]|]];
    [by apply footprint_set_node | apply footprint_raise | apply footprint_raise].
Qed.

Lemma footprint_open_write p : Q (EvOpenWrite p) -> D p -> footprint Q D (open_write p).
Proof.
  intros Hq Hd. unfold open_write.
  apply footprint_bind; [by apply footprint_log | intros _].
  apply footprint_bind; [apply footprint_gets | intros [[data|]|]];
    [by apply footprint_set_node | apply footprint_raise | by apply footprint_set_node].
Qed.

Lemma footprint_write_chunk p chunk : D p -> footprint Q D (write_chunk p chunk).
Proof.
  intros Hd w. split; [exists []; by rewrite app_nil_r|].
  intros p' Hp'. simpl. apply lookup_alter_ne. by intros ->.
Qed.

Lemma footprint_write_chunks p chunks : D p -> footprint Q D (write_chunks p chunks).
Proof.
  intros Hd. unfold write_chunks. apply footprint_for_each.
  intros acc x _. by apply footprint_write_chunk.
Qed.

Lemma footprint_verify_hash P p expected_hash :
  Q (EvRead p) -> footprint Q D (verify_hash P p expected_hash).
Proof.
  intros Hq. unfold verify_hash.
  apply footprint_bind; [by apply footprint_read_file | intros data; apply footprint_ret].
Qed.
End Footprint.

Lemma footprint_weaken {A} (Q Q' : event -> Prop) (D D' : string -> Prop)
    (m : Py world A) :
  (forall ev, Q ev -> Q' ev) -> (forall p, D p -> D' p) ->
  footprint Q D m -> footprint Q' D' m.
Proof.
  intros HQ HD Hm w. destruct (Hm w) as [(evs & Htr & Hq) Hfs]. split.
  - exists evs. split; [done|]. eapply Forall_impl; eauto.
  - intros p Hp. apply Hfs. auto.
Qed.

Lemma footprint_interacts {A} (Q : event -> Prop) (D : string -> Prop) (m : Py world A) :
  footprint Q D m -> interacts Q m.
Proof. intros H w. apply (H w). Qed.

Ltac in_events := unfold full_download_event, portable_download_event, clone_event;
  repeat first [apply list_elem_of_here | apply list_elem_of_further].

Section DownloadFootprint.
Context (P : platform) (url : value) (dest_path : string) (expected_hash : value).

Lemma full_download_footprint :
  footprint (full_download_event P url dest_path) (fun p => p = dest_path)
    (Full.download_file P url dest_path expected_hash).
Proof.
  unfold Full.download_file.
  apply footprint_try_except.
  - apply footprint_bind; [apply footprint_mkdir_parents; in_events | intros _].
    apply footprint_bind; [apply footprint_path_exists; in_events | intros present].
    apply footprint_bind.
    { destruct present; [|apply footprint_ret].
      destruct (truthy expected_hash); [|apply footprint_ret].
      apply footprint_verify_hash; in_events. }
    intros [|]; [apply footprint_ret|].
    apply footprint_bind.
    { unfold Full.requests_download.
      apply footprint_bind; [apply footprint_gets | intros history].
      apply footprint_bind; [apply footprint_log; in_events | intros _].
      destruct (requests_get P history url) as [|chunks interrupted];
        [apply footprint_raise|].
      apply footprint_bind; [by apply footprint_open_write; [in_events|] | intros _].
      apply footprint_bind; [by apply footprint_write_chunks | intros _].
      destruct interrupted; [apply footprint_raise | apply footprint_ret]. }
    intros _. destruct (truthy expected_hash); [|apply footprint_ret].
    apply footprint_bind; [apply footprint_verify_hash; in_events | intros [|]];
      [apply footprint_ret|].
    apply footprint_bind; [by apply footprint_unlink; [in_events|] | intros _].
    apply footprint_ret.
  - intros _.
    apply footprint_bind; [apply footprint_path_exists; in_events | intros present].
    apply footprint_bind; [|intros _; apply footprint_ret].
    destruct present; [by apply footprint_unlink; [in_events|] | apply footprint_ret].
Qed.

Lemma portable_download_footprint :
  footprint (portable_download_event P url dest_path) (fun p => p = dest_path)
    (Portable.download_file P url dest_path expected_hash).
Proof.
  unfold Portable.download_file.
  apply footprint_bind; [apply footprint_mkdir_parents; in_events | intros _].
  apply footprint_bind; [apply footprint_path_exists; in_events | intros present].
  apply footprint_bind.
  { destruct present; [|apply footprint_ret].
    destruct (truthy expected_hash); [|apply footprint_ret].
    apply footprint_bind; [apply footprint_verify_hash; in_events | intros [|]];
      [apply footprint_ret|].
    apply footprint_bind; [by apply footprint_unlink; [in_events|] | intros _].
    apply footprint_ret. }
  intros [|]; [apply footprint_ret|].
  unfold Portable.fetch.
  apply footprint_bind.
  { destruct (has_curl P); [|destruct (HAS_REQUESTS P); [|apply footprint_ret]].
    - apply footprint_bind; [|intros success; apply footprint_ret].
      unfold Portable.download_with_curl.
      apply footprint_bind; [apply footprint_gets | intros history].
      apply footprint_bind; [apply footprint_log; in_events | intros _].
      apply footprint_bind; [apply footprint_gets | intros [[partial|]|]].
      + destruct (curl_run P history url dest_path (Some partial)) as [ok after].
        apply footprint_bind; [by apply footprint_set_node | intros _].
        apply footprint_ret.
      + apply footprint_ret.
      + destruct (curl_run P history url dest_path None) as [ok after].
        apply footprint_bind; [by apply footprint_set_node | intros _].
        apply footprint_ret.
    - apply footprint_bind; [|intros success; apply footprint_ret].
      unfold Portable.download_with_requests.
      apply footprint_try_except; [|intros _; apply footprint_ret].
      apply footprint_bind; [apply footprint_gets | intros history].
      apply footprint_bind; [apply footprint_log; in_events | intros _].
      destruct (requests_get P history url) as [|chunks interrupted];
        [apply footprint_raise|].
      apply footprint_bind; [by apply footprint_open_write; [in_events|] | intros _].
      apply footprint_bind; [by apply footprint_write_chunks | intros _].
      destruct interrupted; [apply footprint_raise | apply footprint_ret]. }
  intros [[|]|]; [| |apply footprint_ret].
  - destruct (truthy expected_hash); [|apply footprint_ret].
    apply footprint_bind; [apply footprint_verify_hash; in_events | intros [|]];
      [apply footprint_ret|].
    apply footprint_bind; [by apply footprint_unlink; [in_events|] | intros _].
    apply footprint_ret.
  - apply footprint_bind; [apply footprint_path_exists; in_events | intros left_over].
    apply footprint_bind; [|intros _; apply footprint_ret].
    destruct left_over; [by apply footprint_unlink; [in_events|] | apply footprint_ret].
Qed.
End DownloadFootprint.

(** X7.  [download_file] keeps to its destination: whatever it is given
    and however the transfer goes, every other path of the file system is
    left as it was, and all it does outside is create the parent
    directory, look at, read, open and unlink the destination, and call
    its transport for the URL ([requests.get]; for the portable program
    curl or [requests.get]). *)
Theorem download_file_keeps_to_destination (P : platform) (url : value)
    (dest_path : string) (expected_hash : value) :
  footprint (full_download_event P url dest_path) (fun p => p = dest_path)
    (Full.download_file P url dest_path expected_hash) /\
  footprint (portable_download_event P url dest_path) (fun p => p = dest_path)
    (Portable.download_file P url dest_path expected_hash).
Proof. split; [apply full_download_footprint | apply portable_download_footprint]. Qed.

Lemma reaches_transfer_cases P dest_path expected_hash fs0 tr0 :
  reaches_transfer P dest_path expected_hash (World fs0 tr0) \/
  (exists node, fs0 !! dest_path = Some node /\ truthy expected_hash = false) \/
  (exists data, fs0 !! dest_path = Some (File data) /\ truthy expected_hash = true /\
                py_eq_str (sha256_hex P data) expected_hash = true) \/
  (fs0 !! dest_path = Some Dir /\ truthy expected_hash = true).
Proof.
  unfold reaches_transfer. simpl.
  destruct (fs0 !! dest_path) as [[data|]|] eqn:Hd; [| |by left; left].
  - destruct (truthy expected_hash) eqn:Hh; [|right; left; eauto].
    destruct (py_eq_str (sha256_hex P data) expected_hash) eqn:Hm.
    + right; right; left. eauto.
    + left; right. eauto.
  - destruct (truthy expected_hash) eqn:Hh; [|right; left; eauto].
    right; right; right. auto.
Qed.



Section Transports.
Context (P : platform) (url : value) (dest_path : string) (expected_hash : value).




End Transports.




Section Completed.
Context (P : platform) (url : value) (dest_path : string) (expected_hash : value)
        (w : world).
Hypothesis Hreach : reaches_transfer P dest_path expected_hash w.

Lemma full_transfer_completed chunks :
  requests_get P (full_transfer_start P dest_path w) url = RespBody chunks false ->
  digest_accepts P expected_hash (concat chunks) ->
  stored dest_path (concat chunks) w
    (Full.download_file P url dest_path expected_hash w).
Proof.
  intros Hserved Hok. rewrite (full_download_from_start P url _ _ _ Hreach), Hserved.
  cbv zeta. unfold digest_accepts in Hok.
  destruct (truthy expected_hash); [rewrite Hok by done|]; by split.
Qed.

Lemma portable_requests_completed chunks :
  has_curl P = false -> HAS_REQUESTS P = true ->
  requests_get P (portable_transfer_start P dest_path w) url = RespBody chunks false ->
  digest_accepts P expected_hash (concat chunks) ->
  stored dest_path (concat chunks) w
    (Portable.download_file P url dest_path expected_hash w).
Proof.
  intros Hcurl Hreq Hserved Hok.
  rewrite (portable_download_from_start P url _ _ _ Hreach).
  rewrite portable_fetch_run by apply lookup_delete_eq.
  rewrite Hcurl, Hreq, Hserved. cbv zeta. unfold digest_accepts in Hok.
  destruct (truthy expected_hash); [rewrite Hok by done|];
    (split; [done | apply insert_delete_eq]).
Qed.

Lemma portable_curl_completed data :
  has_curl P = true ->
  curl_run P (portable_transfer_start P dest_path w) url dest_path None
    = (true, Some data) ->
  digest_accepts P expected_hash data ->
  stored dest_path data w (Portable.download_file P url dest_path expected_hash w).
Proof.
  intros Hcurl Hran Hok.
  rewrite (portable_download_from_start P url _ _ _ Hreach).
  rewrite portable_fetch_run by apply lookup_delete_eq.
  rewrite Hcurl, Hran. cbv zeta. unfold digest_accepts in Hok.
  destruct (truthy expected_hash); [rewrite Hok by done|];
    (split; [done | apply insert_delete_eq]).
Qed.
End Completed.

(** X9.  A transfer that completes stores exactly what was served.  When
    the destination's directory is in place, the destination is free or
    holds a file without the supplied digest, and the transport delivers
    its body to the end (with the supplied digest, if one was supplied),
    [download_file] returns [True] and the destination holds the
    concatenation of the chunks served (the bytes curl wrote), in place
    of whatever was there; no other path changes. *)
Theorem completed_transfer_stores_served_bytes (P : platform) (url : value)
    (dest_path : string) (expected_hash : value) (w : world) :
  parent_exists P dest_path w ->
  reaches_transfer P dest_path expected_hash w ->
  (forall chunks,
     requests_get P (full_transfer_start P dest_path w) url = RespBody chunks false ->
     digest_accepts P expected_hash (concat chunks) ->
     stored dest_path (concat chunks) w
       (Full.download_file P url dest_path expected_hash w)) /\
  (forall chunks,
     has_curl P = false -> HAS_REQUESTS P = true ->
     requests_get P (portable_transfer_start P dest_path w) url = RespBody chunks false ->
     digest_accepts P expected_hash (concat chunks) ->
     stored dest_path (concat chunks) w
       (Portable.download_file P url dest_path expected_hash w)) /\
  (forall data,
     has_curl P = true ->
     curl_run P (portable_transfer_start P dest_path w) url dest_path None
       = (true, Some data) ->
     digest_accepts P expected_hash data ->
     stored dest_path data w (Portable.download_file P url dest_path expected_hash w)).
Proof.
  intros _ Hreach. split; [|split].
  - intros chunks. by apply full_transfer_completed.
  - intros chunks. by apply portable_requests_completed.
  - intros data. by apply portable_curl_completed.
Qed.

Lemma completed_transfer_stores_served_bytes_witness :
  parent_exists
    (with_parents
       (host false true
          (RespBody [list_byte_of_string "ne"; []; list_byte_of_string "w"] false)
          (false, None)))
    "/models/m.bin" (models_dir [("/models/m.bin", "old")]) /\
  reaches_transfer
    (with_parents
       (host false true
          (RespBody [list_byte_of_string "ne"; []; list_byte_of_string "w"] false)
          (false, None)))
    "/models/m.bin" (VStr "new") (models_dir [("/models/m.bin", "old")]) /\
  stored "/models/m.bin" (list_byte_of_string "new")
    (models_dir [("/models/m.bin", "old")])
    (Full.download_file
       (with_parents
          (host false true
             (RespBody [list_byte_of_string "ne"; []; list_byte_of_string "w"] false)
             (false, None)))
       (VStr "https://host/m.bin") "/models/m.bin" (VStr "new")
       (models_dir [("/models/m.bin", "old")])) /\
  stored "/models/m.bin" (list_byte_of_string "new")
    (models_dir [("/models/m.bin", "old")])
    (Portable.download_file
       (with_parents
          (host false true
             (RespBody [list_byte_of_string "ne"; []; list_byte_of_string "w"] false)
             (false, None)))
       (VStr "https://host/m.bin") "/models/m.bin" (VStr "new")
       (models_dir [("/models/m.bin", "old")])).
Proof.
  assert (Hparent : parent_exists
            (with_parents
               (host false true
                  (RespBody [list_byte_of_string "ne"; []; list_byte_of_string "w"] false)
                  (false, None)))
            "/models/m.bin" (models_dir [("/models/m.bin", "old")])) by reflexivity.
  assert (Hreach : reaches_transfer
            (with_parents
               (host false true
                  (RespBody [list_byte_of_string "ne"; []; list_byte_of_string "w"] false)
                  (false, None)))
            "/models/m.bin" (VStr "new") (models_dir [("/models/m.bin", "old")])).
  { right. exists (list_byte_of_string "old"). repeat split; reflexivity. }
  split; [exact Hparent|]. split; [exact Hreach|].
  destruct (completed_transfer_stores_served_bytes
              (with_parents
                 (host false true
                    (RespBody [list_byte_of_string "ne"; []; list_byte_of_string "w"] false)
                    (false, None)))
              (VStr "https://host/m.bin") "/models/m.bin" (VStr "new")
              (models_dir [("/models/m.bin", "old")]) Hparent Hreach)
    as (Hfull & Hport & _).
  split.
  - apply (Hfull [list_byte_of_string "ne"; []; list_byte_of_string "w"]);
      [reflexivity | intros _; reflexivity].
  - apply (Hport [list_byte_of_string "ne"; []; list_byte_of_string "w"]);
      [reflexivity | reflexivity | reflexivity | intros _; reflexivity].
Defined.

Section Raises.
Context (P : platform) (url : value) (dest_path : string) (expected_hash : value).

Lemma full_download_raises fs0 tr0 :
  (exists e, (Full.download_file P url dest_path expected_hash (World fs0 tr0)).2
             = Raise e) <->
  fs0 !! dest_path = Some Dir /\ truthy expected_hash = true.
Proof.
  split.
  - intros (e & He).
    destruct (reaches_transfer_cases P dest_path expected_hash fs0 tr0)
      as [Hreach | [(node & Hn & Hh) | [(data & Hf & Hh & Hm) | Hdir]]]; [| | |done].
    + unfold reaches_transfer in Hreach. cbn [fs] in Hreach.
      rewrite (full_download_fetch P url _ _ _ _ Hreach) in He. cbv zeta in He.
      destruct (requests_get P _ url) as [|chunks [|]];
        try destruct (truthy expected_hash);
        try destruct (py_eq_str (sha256_hex P (concat chunks)) expected_hash);
        discriminate.
    + by rewrite (full_download_trusted P _ _ _ node) in He.
    + by rewrite (full_download_verified P _ _ _ data) in He.
  - intros [Hdir Hh]. rewrite full_download_dir by done. eauto.
Qed.

Lemma portable_download_raises fs0 tr0 :
  (exists e, (Portable.download_file P url dest_path expected_hash (World fs0 tr0)).2
             = Raise e) <->
  (fs0 !! dest_path = Some Dir /\ truthy expected_hash = true) \/
  (reaches_transfer P dest_path expected_hash (World fs0 tr0) /\
   truthy expected_hash = true /\ has_curl P = true /\
   curl_run P (portable_transfer_start P dest_path (World fs0 tr0)) url dest_path None
     = (true, None)).
Proof.
  split.
  - intros (e & He).
    destruct (reaches_transfer_cases P dest_path expected_hash fs0 tr0)
      as [Hreach | [(node & Hn & Hh) | [(data & Hf & Hh & Hm) | Hdir]]];
      [| | |by left].
    + right. split; [done|].
      rewrite (portable_download_from_start P url _ _ _ Hreach) in He.
      rewrite portable_fetch_run in He by apply lookup_delete_eq. cbv zeta in He.
      destruct (has_curl P); [|destruct (HAS_REQUESTS P)].
      * destruct (curl_run P _ url dest_path None) as [[|] [data|]];
          destruct (truthy expected_hash);
          try destruct (py_eq_str (sha256_hex P data) expected_hash);
          try discriminate; done.
      * destruct (requests_get P _ url) as [|chunks [|]];
          try destruct (truthy expected_hash);
          try destruct (py_eq_str (sha256_hex P (concat chunks)) expected_hash);
          discriminate.
      * discriminate.
    + by rewrite (portable_download_trusted P _ _ _ node) in He.
    + by rewrite (portable_download_verified P _ _ _ data) in He.
  - intros [[Hdir Hh] | (Hreach & Hh & Hcurl & Hran)].
    + rewrite portable_download_dir by done. eauto.
    + rewrite (portable_download_from_start P url _ _ _ Hreach).
      rewrite portable_fetch_run by apply lookup_delete_eq. cbv zeta.
      rewrite Hcurl, Hran, Hh. eauto.
Qed.
End Raises.

(** X10.  When [download_file] lets an exception escape.  The full
    program catches every error of the transfer, yet raises when the
    destination is a directory and a digest was supplied (the cleanup of
    its handler cannot unlink a directory), and in no other case.  The
    portable program raises in that same case, and when curl reports
    success without having left a file and a digest is to be verified.
    In every other case both return [True] or [False]. *)
Theorem download_file_raises_only_over_directory (P : platform) (url : value)
    (dest_path : string) (expected_hash : value) (w : world) :
  ((exists e, (Full.download_file P url dest_path expected_hash w).2 = Raise e) <->
   fs w !! dest_path = Some Dir /\ truthy expected_hash = true) /\
  ((exists e, (Portable.download_file P url dest_path expected_hash w).2 = Raise e) <->
   (fs w !! dest_path = Some Dir /\ truthy expected_hash = true) \/
   (reaches_transfer P dest_path expected_hash w /\
    truthy expected_hash = true /\ has_curl P = true /\
    curl_run P (portable_transfer_start P dest_path w) url dest_path None
      = (true, None))) /\
  (fs w !! dest_path = Some Dir -> truthy expected_hash = true ->
   fs (Full.download_file P url dest_path expected_hash w).1 = fs w /\
   Portable.download_file P url dest_path expected_hash w =
   (World (fs w) (trace w ++ [EvMkdir (path_parent P dest_path); EvExists dest_path;
                              EvRead dest_path]),
    Raise IsADirectoryError)).
Proof.
  destruct w as [fs0 tr0]. cbn [fs trace].
  split; [apply full_download_raises|]. split; [apply portable_download_raises|].
  intros Hdir Hh. rewrite full_download_dir, portable_download_dir by done. by split.
Qed.

Lemma download_file_raises_only_over_directory_witness :
  fs (World {["models" := Dir]} []) !! "models" = Some Dir /\
  truthy (VStr "abc") = true /\
  exists e,
    (Full.download_file (offline no_manifest) (VStr "https://host/models") "models"
       (VStr "abc") (World {["models" := Dir]} [])).2 = Raise e.
Proof.
  assert (Hdir : fs (World {["models" := Dir]} []) !! "models" = Some Dir)
    by reflexivity.
  assert (Hh : truthy (VStr "abc") = true) by reflexivity.
  split; [exact Hdir|]. split; [exact Hh|].
  destruct (download_file_raises_only_over_directory (offline no_manifest)
              (VStr "https://host/models") "models" (VStr "abc")
              (World {["models" := Dir]} [])) as ([_ Hraise] & _).
  apply Hraise. by split.
Defined.

Lemma portable_download_ignores_resume P f url dest_path expected_hash fs0 tr0 :
  (forall history u d, f history u d None = curl_run P history u d None) ->
  Portable.download_file (with_curl_run P f) url dest_path expected_hash (World fs0 tr0)
  = Portable.download_file P url dest_path expected_hash (World fs0 tr0).
Proof.
  intros Hnone.
  destruct (reaches_transfer_cases P dest_path expected_hash fs0 tr0)
    as [Hreach | [(node & Hn & Hh) | [(data & Hf & Hh & Hm) | (Hdir & Hh)]]].
  - unfold reaches_transfer in Hreach. cbn [fs] in Hreach.
    rewrite (portable_download_fetch P url _ _ _ _ Hreach).
    rewrite (portable_download_fetch (with_curl_run P f) url _ _ _ _ Hreach).
    cbv zeta. rewrite !portable_fetch_run by apply lookup_delete_eq.
    cbn [with_curl_run has_curl HAS_REQUESTS sha256_hex requests_get curl_run path_parent].
    by rewrite Hnone.
  - rewrite (portable_download_trusted P _ _ _ node) by done.
    by rewrite (portable_download_trusted (with_curl_run P f) _ _ _ node).
  - rewrite (portable_download_verified P _ _ _ data) by done.
    by rewrite (portable_download_verified (with_curl_run P f) _ _ _ data).
  - rewrite (portable_download_dir P) by done.
    by rewrite (portable_download_dir (with_curl_run P f)).
Qed.

(** X11.  The portable program never resumes a download.  Curl is given
    [-C -], but by the time [download_file] starts it the destination is
    always absent: a file found there was either taken as complete (no
    digest, or the right one) or deleted (wrong digest).  So how curl
    would continue a partial file has no influence on any call. *)
Theorem portable_download_never_resumes (P : platform)
    (f : list event -> value -> string -> option (list Byte.byte)
         -> bool * option (list Byte.byte))
    (url : value) (dest_path : string) (expected_hash : value) (w : world) :
  (forall history u d, f history u d None = curl_run P history u d None) ->
  Portable.download_file (with_curl_run P f) url dest_path expected_hash w
  = Portable.download_file P url dest_path expected_hash w.
Proof. destruct w as [fs0 tr0]. apply portable_download_ignores_resume. Qed.

Lemma portable_download_never_resumes_witness :
  (forall history u d,
     curl_that_resumes history u d None =
     curl_run (host true true RespError (true, Some (list_byte_of_string "new")))
       history u d None) /\
  Portable.download_file
    (with_curl_run (host true true RespError (true, Some (list_byte_of_string "new")))
       curl_that_resumes)
    (VStr "https://host/m.bin") "m.bin" (VStr "new") (world_with [("m.bin", "ne")])
  = Portable.download_file
      (host true true RespError (true, Some (list_byte_of_string "new")))
      (VStr "https://host/m.bin") "m.bin" (VStr "new") (world_with [("m.bin", "ne")]).
Proof.
  assert (H : forall history u d,
            curl_that_resumes history u d None =
            curl_run (host true true RespError (true, Some (list_byte_of_string "new")))
              history u d None) by reflexivity.
  split; [exact H|].
  apply (portable_download_never_resumes
           (host true true RespError (true, Some (list_byte_of_string "new")))
           curl_that_resumes _ _ _ _ H).
Defined.

Section CloneRuns.
Context (P : platform).

Lemma clone_repo_run repo_url dest_path fs0 tr0 :
  Full.clone_repo P repo_url dest_path (World fs0 tr0) =
  let tr1 := tr0 ++ [EvMkdir (path_parent P dest_path); EvExists dest_path] in
  match fs0 !! dest_path with
  | Some _ => (World fs0 tr1, Ok true)
  | None =>
      (World (if (git_clone P tr1 repo_url dest_path).2
              then <[dest_path := Dir]> fs0 else fs0)
         (tr1 ++ [EvGitClone repo_url dest_path]),
       Ok (git_clone P tr1 repo_url dest_path).1)
  end.
Proof.
  unfold Full.clone_repo. py_unfold. simpl.
  destruct (fs0 !! dest_path) as [node|] eqn:Hd; simpl.
  - by rewrite <- !app_assoc.
  - rewrite <- !app_assoc. simpl.
    destruct (git_clone P _ repo_url dest_path) as [ok [|]]; reflexivity.
Qed.

Lemma clone_repo_footprint repo_url dest_path :
  footprint (clone_event P repo_url dest_path) (fun _ => True)
    (Full.clone_repo P repo_url dest_path).
Proof.
  unfold Full.clone_repo.
  apply footprint_try_except; [|intros _; apply footprint_ret].
  apply footprint_bind; [apply footprint_mkdir_parents; in_events | intros _].
  apply footprint_bind; [apply footprint_path_exists; in_events | intros [|]];
    [apply footprint_ret|].
  apply footprint_bind; [apply footprint_gets | intros history].
  apply footprint_bind; [apply footprint_log; in_events | intros _].
  destruct (git_clone P history repo_url dest_path) as [ok [|]].
  - apply footprint_bind; [by apply footprint_set_node | intros _; apply footprint_ret].
  - apply footprint_bind; [apply footprint_ret | intros _; apply footprint_ret].
Qed.


Lemma clone_repo_returns repo_url dest_path w :
  exists ok, (Full.clone_repo P repo_url dest_path w).2 = Ok ok.
Proof.
  destruct w as [fs0 tr0]. rewrite clone_repo_run. cbv zeta.
  destruct (fs0 !! dest_path); simpl; eauto.
Qed.
End CloneRuns.



(** X13.  A clone that fails is not cleaned up, and a second attempt
    takes what it left for an installed node.  When git exits non-zero
    after having created the destination directory, [clone_repo] returns
    [False] and leaves the directory; called again for the same
    destination it returns [True] without calling git. *)
Theorem failed_clone_then_counts_as_installed (P : platform) (repo_url : value)
    (dest_path : string) (w : world) :
  fs w !! dest_path = None ->
  git_clone P (trace w ++ [EvMkdir (path_parent P dest_path); EvExists dest_path])
    repo_url dest_path = (false, true) ->
  let first := Full.clone_repo P repo_url dest_path w in
  let second := Full.clone_repo P repo_url dest_path first.1 in
  first.2 = Ok false /\
  fs first.1 = <[dest_path := Dir]> (fs w) /\
  second.2 = Ok true /\
  fs second.1 = fs first.1 /\
  trace second.1 =
    trace first.1 ++ [EvMkdir (path_parent P dest_path); EvExists dest_path].
Proof.
  intros Hnone Hgit first second. subst second first. destruct w as [fs0 tr0].
  simpl in Hnone, Hgit.
  rewrite (clone_repo_run P repo_url dest_path fs0 tr0). cbv zeta.
  rewrite Hnone, Hgit. cbn [fst snd fs trace].
  rewrite clone_repo_run. cbv zeta. rewrite lookup_insert_eq. by cbn [fst snd fs trace].
Qed.

Lemma failed_clone_then_counts_as_installed_witness :
  fs (world_with []) !! "custom_nodes/pack" = None /\
  git_clone (with_git_clone (offline no_manifest) git_fails_midway)
    (trace (world_with [])
     ++ [EvMkdir (path_parent (with_git_clone (offline no_manifest) git_fails_midway)
                    "custom_nodes/pack");
         EvExists "custom_nodes/pack"])
    (VStr "https://host/pack.git") "custom_nodes/pack" = (false, true) /\
  (Full.clone_repo (with_git_clone (offline no_manifest) git_fails_midway)
     (VStr "https://host/pack.git") "custom_nodes/pack" (world_with [])).2 = Ok false /\
  (Full.clone_repo (with_git_clone (offline no_manifest) git_fails_midway)
     (VStr "https://host/pack.git") "custom_nodes/pack"
     (Full.clone_repo (with_git_clone (offline no_manifest) git_fails_midway)
        (VStr "https://host/pack.git") "custom_nodes/pack" (world_with [])).1).2
  = Ok true.
Proof.
  assert (H1 : fs (world_with []) !! "custom_nodes/pack" = None) by reflexivity.
  assert (H2 : git_clone (with_git_clone (offline no_manifest) git_fails_midway)
                 (trace (world_with [])
                  ++ [EvMkdir (path_parent
                                 (with_git_clone (offline no_manifest) git_fails_midway)
                                 "custom_nodes/pack");
                      EvExists "custom_nodes/pack"])
                 (VStr "https://host/pack.git") "custom_nodes/pack" = (false, true))
    by reflexivity.
  split; [exact H1|]. split; [exact H2|].
  pose proof (failed_clone_then_counts_as_installed
                (with_git_clone (offline no_manifest) git_fails_midway)
                (VStr "https://host/pack.git") "custom_nodes/pack" (world_with [])
                H1 H2) as H.
  cbv zeta in H. destruct H as (Hfirst & _ & Hsecond & _). by split.
Defined.

Section NodeRuns.
Context (P : platform).

Lemma node_dest_path_wf d :
  wf_node (VDict d) = true ->
  exists dest_path,
    Full.node_dest_path P (default (VStr "Unknown") (d !! "name"))
      (default (VStr "custom_nodes") (d !! "path")) = Ok dest_path.
Proof.
  simpl. destruct (default (VStr "Unknown") (d !! "name")); try discriminate.
  destruct (default (VStr "custom_nodes") (d !! "path")); try discriminate.
  intros _. simpl. eauto.
Qed.

Lemma install_node_real success_count fail_count n w :
  wf_node n = true ->
  exists w' (ok : bool),
    Full.install_node P false (success_count, fail_count) n w =
      (w', Ok (if ok then (S success_count, fail_count) else (success_count, S fail_count)))
    /\ (truthy (entry_repo n) = false -> ok = false /\ w' = w).
Proof.
  destruct n as [| | | |l|d]; try discriminate. intros Hwf.
  destruct (node_dest_path_wf d Hwf) as (dest_path & Hdest).
  unfold Full.install_node, bind, lift. simpl.
  destruct (truthy (default VNone (d !! "repo"))) eqn:Hrepo; simpl.
  - rewrite Hdest.
    destruct (clone_repo_returns P (default VNone (d !! "repo")) dest_path w) as (ok & Hok).
    destruct (Full.clone_repo P _ dest_path w) as [w' r]. simpl in *. subst r.
    exists w', ok. split; [by destruct ok | discriminate].
  - exists w, false. auto.
Qed.

Lemma for_each_install_real ns : forall success_count fail_count w,
  forallb wf_node ns = true ->
  exists w' s f,
    for_each (Full.install_node P false) ns (success_count, fail_count) w
      = (w', Ok (s, f)) /\
    s + f = success_count + fail_count + length ns /\
    fail_count + length (List.filter (fun n => negb (truthy (entry_repo n))) ns) <= f.
Proof.
  induction ns as [|n ns IH]; intros sc fc w Hwf.
  - exists w, sc, fc. simpl. repeat split; lia.
  - simpl in Hwf. apply andb_true_iff in Hwf as [Hn Hns].
    destruct (install_node_real sc fc n w Hn) as (w1 & ok & Hstep & Hno).
    rewrite for_each_cons, Hstep. cbn [List.filter].
    destruct ok.
    + destruct (IH (S sc) fc w1 Hns) as (w' & s & f & Hrun & Hsum & Hfail).
      exists w', s, f. rewrite Hrun. split; [done|]. split; [simpl; lia|].
      destruct (truthy (entry_repo n)) eqn:Hr; simpl; [lia|].
      by destruct (Hno eq_refl).
    + destruct (IH sc (S fc) w1 Hns) as (w' & s & f & Hrun & Hsum & Hfail).
      exists w', s, f. rewrite Hrun. split; [done|]. split; [simpl; lia|].
      destruct (negb (truthy (entry_repo n))); simpl; lia.
Qed.

Lemma install_custom_nodes_real d ns w :
  d !! "custom_nodes" = Some (VList ns) ->
  forallb wf_node ns = true ->
  exists w' s f,
    Full.install_custom_nodes P (VDict d) false w = (w', Ok (s, f)) /\
    s + f = length ns /\
    length (List.filter (fun n => negb (truthy (entry_repo n))) ns) <= f.
Proof.
  intros Hd Hwf. unfold Full.install_custom_nodes, bind, lift. simpl. rewrite Hd. simpl.
  destruct ns as [|n ns]; [exists w, 0, 0; simpl; by repeat split|].
  destruct (for_each_install_real (n :: ns) 0 0 w Hwf)
    as (w' & s & f & Hrun & Hsum & Hfail).
  exists w', s, f. rewrite Hrun. repeat split; lia.
Qed.
End NodeRuns.

(** X14.  Installing the custom nodes always runs to the end of the plan.
    On a plan of node entries whose [name] and [path] are strings (or
    absent), a real run of [install_custom_nodes] returns, whatever the
    git commands do: every node is counted exactly once, and the nodes
    without [repo] are among the failures. *)
Theorem install_custom_nodes_counts_every_node (P : platform)
    (d : gmap string value) (ns : list value) (w : world) :
  d !! "custom_nodes" = Some (VList ns) ->
  forallb wf_node ns = true ->
  exists w' s f,
    Full.install_custom_nodes P (VDict d) false w = (w', Ok (s, f)) /\
    s + f = length ns /\
    length (List.filter (fun n => negb (truthy (entry_repo n))) ns) <= f.
Proof. apply install_custom_nodes_real. Qed.

Lemma install_custom_nodes_counts_every_node_witness :
  (list_to_map [("custom_nodes", VList [node_pack; node_no_repo])]
     : gmap string value) !! "custom_nodes" = Some (VList [node_pack; node_no_repo]) /\
  forallb wf_node [node_pack; node_no_repo] = true /\
  exists w' s f,
    Full.install_custom_nodes (offline no_manifest)
      (VDict (list_to_map [("custom_nodes", VList [node_pack; node_no_repo])]))
      false (world_with []) = (w', Ok (s, f)) /\
    s + f = 2 /\ 1 <= f.
Proof.
  assert (H1 : (list_to_map [("custom_nodes", VList [node_pack; node_no_repo])]
                 : gmap string value) !! "custom_nodes"
               = Some (VList [node_pack; node_no_repo])) by reflexivity.
  assert (H2 : forallb wf_node [node_pack; node_no_repo] = true) by reflexivity.
  split; [exact H1|]. split; [exact H2|].
  destruct (install_custom_nodes_counts_every_node (offline no_manifest) _ _
              (world_with []) H1 H2) as (w' & s & f & Hrun & Hsum & Hfail).
  exists w', s, f. split; [exact Hrun|]. split; [exact Hsum | exact Hfail].
Defined.

Lemma replace_char_chars a b s :
  list_ascii_of_string (replace_char a b s) =
  (fun c => if Ascii.eqb c a then b else c) <$> list_ascii_of_string s.
Proof. induction s as [|c s IH]; [reflexivity|]. simpl. by rewrite IH. Qed.

Lemma dir_name_chars n :
  list_ascii_of_string (replace_char "/" "-" (replace_char " " "-" n)) =
  sanitized <$> list_ascii_of_string n.
Proof.
  rewrite !replace_char_chars, <- list_fmap_compose.
  apply list_fmap_ext. intros _ c _. unfold sanitized. simpl.
  destruct (Ascii.eqb_spec c " ") as [->|Hs]; [reflexivity|]. simpl.
  by destruct (Ascii.eqb c "/").
Qed.

Lemma sanitized_not_separator c : sanitized c <> " "%char /\ sanitized c <> "/"%char.
Proof.
  unfold sanitized.
  destruct (Ascii.eqb_spec c " ") as [->|Hs]; [by split|].
  destruct (Ascii.eqb_spec c "/") as [->|Hd]; by split.
Qed.

Lemma string_length_chars s : String.length s = length (list_ascii_of_string s).
Proof. induction s as [|c s IH]; [reflexivity|]. simpl. by rewrite IH. Qed.

(** X15.  The directory a node is cloned into is named after the node
    with every space and every slash replaced by a hyphen, all other
    characters in place: the name is one path component of the same
    length, directly under [COMFYUI_PATH/path]. *)
Theorem node_directory_is_one_component (P : platform) (n r : string) :
  exists dir_name,
    Full.node_dest_path P (VStr n) (VStr r)
      = Ok (path_join P (path_join P (COMFYUI_PATH P) r) dir_name) /\
    list_ascii_of_string dir_name = sanitized <$> list_ascii_of_string n /\
    (" "%char ∉ list_ascii_of_string dir_name) /\
    ("/"%char ∉ list_ascii_of_string dir_name) /\
    String.length dir_name = String.length n.
Proof.
  exists (replace_char "/" "-" (replace_char " " "-" n)).
  split; [reflexivity|]. split; [apply dir_name_chars|].
  rewrite !string_length_chars, dir_name_chars, length_fmap.
  repeat split.
  - intros Hin. apply list_elem_of_fmap in Hin as (c & Hc & _).
    by destruct (sanitized_not_separator c).
  - intros Hin. apply list_elem_of_fmap in Hin as (c & Hc & _).
    by destruct (sanitized_not_separator c).
Qed.

Section RunnerSteps.
Context (P : platform) (download_file : value -> string -> value -> Py world bool).

(** The counters a loop starts from are carried along unchanged. *)
Lemma for_each_download_shift dry_run ms : forall success_count fail_count w,
  for_each (download_model P download_file dry_run) ms (success_count, fail_count) w =
  match for_each (download_model P download_file dry_run) ms (0, 0) w with
  | (w', Ok (s, f)) => (w', Ok (success_count + s, fail_count + f))
  | (w', Raise e) => (w', Raise e)
  end.
Proof.
  induction ms as [|m ms IH]; intros sc fc w.
  - simpl. unfold ret. by rewrite !Nat.add_0_r.
  - rewrite !for_each_cons.
    assert (Hstep :
      download_model P download_file dry_run (sc, fc) m w =
      match download_model P download_file dry_run (0, 0) m w with
      | (w', Ok (s, f)) => (w', Ok (sc + s, fc + f))
      | (w', Raise e) => (w', Raise e)
      end).
    { unfold download_model, bind, lift.
      destruct (py_get m "name" (VStr "Unknown")) as [name|e]; [|reflexivity].
      destruct (py_get m "url" VNone) as [url|e]; [|reflexivity].
      destruct (py_get m "path" (VStr "models/checkpoints")) as [rel|e]; [|reflexivity].
      destruct (py_get m "sha256" VNone) as [eh|e]; [|reflexivity].
      destruct (py_get m "type" (VStr "unknown")) as [ty|e]; [|reflexivity].
      destruct (negb (truthy url)).
      { unfold ret. do 3 f_equal; lia. }
      destruct dry_run.
      { unfold ret. do 3 f_equal; lia. }
      destruct (model_dest_path P m name url rel) as [dest|e]; [|reflexivity].
      destruct (download_file url dest eh w) as [w' [[|]|e]]; try reflexivity;
        unfold ret; do 3 f_equal; lia. }
    rewrite Hstep.
    destruct (download_model P download_file dry_run (0, 0) m w) as [w1 [[s1 f1]|e]];
      [|reflexivity].
    rewrite (IH (sc + s1) (fc + f1)), (IH s1 f1).
    destruct (for_each _ ms (0, 0) w1) as [w2 [[s2 f2]|e]]; [|reflexivity].
    do 3 f_equal; lia.
Qed.
End RunnerSteps.

Lemma selection_app types_filter ms1 ms2 :
  selection types_filter (ms1 ++ ms2) =
  selection types_filter ms1 ++ selection types_filter ms2.
Proof.
  destruct types_filter as [[|t ts]|]; simpl; try reflexivity.
  apply List.filter_app.
Qed.

(** X16.  A run over a plan is the run over its first part followed by
    the run over the rest, in the world the first part left, with the
    counts added up; if the first part raises, nothing of the rest is
    attempted.  This holds with any type filter, in dry and in real
    runs. *)
Theorem download_models_splits_over_plan (P : platform)
    (download_file : value -> string -> value -> Py world bool)
    (d d1 d2 : gmap string value) (ms1 ms2 : list value)
    (types_filter : option (list string)) (dry_run : bool) (w : world) :
  d !! "models" = Some (VList (ms1 ++ ms2)) ->
  d1 !! "models" = Some (VList ms1) ->
  d2 !! "models" = Some (VList ms2) ->
  forallb is_dict (ms1 ++ ms2) = true ->
  download_models P download_file (VDict d) types_filter dry_run w =
  (r1 <- download_models P download_file (VDict d1) types_filter dry_run ;;
   r2 <- download_models P download_file (VDict d2) types_filter dry_run ;;
   ret (r1.1 + r2.1, r1.2 + r2.2)) w.
Proof.
  intros Hd Hd1 Hd2 Hdicts.
  pose proof Hdicts as Hboth. rewrite forallb_app in Hboth.
  apply andb_true_iff in Hboth as [H1 H2].
  rewrite (download_models_selection P _ d (ms1 ++ ms2)) by done.
  unfold bind.
  rewrite (download_models_selection P _ d1 ms1) by done.
  rewrite selection_app, for_each_app.
  destruct (for_each _ (selection types_filter ms1) (0, 0) w) as [w1 [[s1 f1]|e]];
    [|reflexivity].
  rewrite (download_models_selection P _ d2 ms2) by done.
  rewrite for_each_download_shift.
  by destruct (for_each _ (selection types_filter ms2) (0, 0) w1) as [w2 [[s2 f2]|e]].
Qed.

Lemma download_models_splits_over_plan_witness :
  mixed_plan !! "models" = Some (VList ([model_upper] ++ [model_no_url; model_lora])) /\
  forallb is_dict ([model_upper] ++ [model_no_url; model_lora]) = true /\
  Full.download_models (offline no_manifest) (VDict mixed_plan) None false (world_with [])
  = (r1 <- Full.download_models (offline no_manifest)
             (VDict (list_to_map [("models", VList [model_upper])])) None false ;;
     r2 <- Full.download_models (offline no_manifest)
             (VDict (list_to_map [("models", VList [model_no_url; model_lora])]))
             None false ;;
     ret (r1.1 + r2.1, r1.2 + r2.2)) (world_with []).
Proof.
  assert (H0 : mixed_plan !! "models"
               = Some (VList ([model_upper] ++ [model_no_url; model_lora])))
    by reflexivity.
  assert (H1 : (list_to_map [("models", VList [model_upper])] : gmap string value)
                 !! "models" = Some (VList [model_upper])) by reflexivity.
  assert (H2 : (list_to_map [("models", VList [model_no_url; model_lora])]
                 : gmap string value) !! "models"
               = Some (VList [model_no_url; model_lora])) by reflexivity.
  assert (H3 : forallb is_dict ([model_upper] ++ [model_no_url; model_lora]) = true)
    by reflexivity.
  split; [exact H0|]. split; [exact H3|].
  apply (download_models_splits_over_plan (offline no_manifest)
           (Full.download_file (offline no_manifest)) mixed_plan _ _ _ _ None false
           (world_with []) H0 H1 H2 H3).
Defined.

Section Destinations.
Context (P : platform) (d : gmap string value) (u : string).
Hypothesis Hurl : d !! "url" = Some (VStr u).

Local Abbreviation rel_path := (default (VStr "models/checkpoints") (d !! "path")).
Local Abbreviation filename := (default VNone (d !! "filename")).
Local Abbreviation name := (default (VStr "Unknown") (d !! "name")).

Lemma destination_explicit f :
  filename = VStr f -> f <> "" -> destination P (VDict d) = placed_under P rel_path f.
Proof.
  intros Hf Hne. unfold destination, model_dest_path, placed_under. simpl.
  assert (Hfe : String.eqb f "" = false) by by apply String.eqb_neq.
  rewrite Hurl, Hf. simpl. rewrite !Hfe. simpl. rewrite ?Hfe. simpl.
  by destruct rel_path.
Qed.

Lemma destination_url_tail tail :
  truthy filename = false -> url_basename P u = Some tail -> tail <> "" ->
  destination P (VDict d) = placed_under P rel_path tail.
Proof.
  intros Hf Ht Hne. unfold destination, model_dest_path, placed_under. simpl.
  assert (Hfe : String.eqb tail "" = false) by by apply String.eqb_neq.
  rewrite Hurl, Hf. simpl. rewrite Ht. simpl. rewrite !Hfe. simpl.
  by destruct rel_path.
Qed.

Lemma destination_from_name n :
  truthy filename = false -> url_basename P u = Some "" -> name = VStr n ->
  destination P (VDict d) =
  placed_under P rel_path (String.append (replace_char " " "_" n) ".safetensors").
Proof.
  intros Hf He Hn. unfold destination, model_dest_path, placed_under. simpl.
  rewrite Hurl, Hf. simpl. rewrite He. simpl. rewrite Hn. by destruct rel_path.
Qed.

Lemma destination_no_name :
  truthy filename = false -> url_basename P u = Some "" -> (forall n, name <> VStr n) ->
  destination P (VDict d) = Raise AttributeError.
Proof.
  intros Hf He Hn. unfold destination, model_dest_path. simpl.
  rewrite Hurl, Hf. simpl. rewrite He. simpl.
  destruct name; try reflexivity. by destruct (Hn s).
Qed.

Lemma destination_url_rejected :
  truthy filename = false -> url_basename P u = None ->
  destination P (VDict d) = Raise ValueError.
Proof.
  intros Hf He. unfold destination, model_dest_path. simpl.
  rewrite Hurl, Hf. simpl. by rewrite He.
Qed.
End Destinations.

(** X17.  Where a model is stored.  The file goes directly under
    [COMFYUI_PATH/path] ([models/checkpoints] unless the entry says
    otherwise) and is named by the first of these that is not empty: the
    entry's [filename], the last segment of the URL's path, the entry's
    [name] with spaces turned into underscores and [.safetensors]
    appended.  The URL is parsed only when the entry has no [filename];
    a URL [urlparse] rejects then ends the run with [ValueError] before
    any transfer.  A real run hands [download_file] the destination with
    the entry's [url] and [sha256], and counts the entry by its
    answer. *)
Theorem model_destination_by_priority (P : platform) (d : gmap string value)
    (u : string) :
  d !! "url" = Some (VStr u) ->
  u <> "" ->
  let rel_path := default (VStr "models/checkpoints") (d !! "path") in
  let filename := default VNone (d !! "filename") in
  let name := default (VStr "Unknown") (d !! "name") in
  (forall f, filename = VStr f -> f <> "" ->
     destination P (VDict d) = placed_under P rel_path f) /\
  (forall tail, truthy filename = false -> url_basename P u = Some tail -> tail <> "" ->
     destination P (VDict d) = placed_under P rel_path tail) /\
  (forall n, truthy filename = false -> url_basename P u = Some "" -> name = VStr n ->
     destination P (VDict d) =
     placed_under P rel_path (String.append (replace_char " " "_" n) ".safetensors")) /\
  (truthy filename = false -> url_basename P u = None ->
     destination P (VDict d) = Raise ValueError) /\
  (forall download_file success_count fail_count w,
     download_model P download_file false (success_count, fail_count) (VDict d) w =
     match destination P (VDict d) with
     | Raise e => (w, Raise e)
     | Ok dest_path =>
         match download_file (VStr u) dest_path (default VNone (d !! "sha256")) w with
         | (w', Ok true) => (w', Ok (S success_count, fail_count))
         | (w', Ok false) => (w', Ok (success_count, S fail_count))
         | (w', Raise e) => (w', Raise e)
         end
     end).
Proof.
  intros Hurl Hne rel_path filename name. repeat split.
  - intros f. by apply (destination_explicit P d u).
  - intros tail. by apply (destination_url_tail P d u).
  - intros n. by apply (destination_from_name P d u).
  - by apply (destination_url_rejected P d u).
  - intros df sc fc w. rewrite download_model_real.
    + simpl. by rewrite Hurl.
    + simpl. rewrite Hurl. simpl. by destruct (String.eqb_spec u "").
Qed.

Lemma model_destination_by_priority_witness :
  (list_to_map [("name", VStr "Fine Tune v2"); ("url", VStr "https://host/dl/7");
                ("filename", VStr "tune.safetensors"); ("path", VStr "models/loras")]
     : gmap string value) !! "url" = Some (VStr "https://host/dl/7") /\
  "https://host/dl/7" <> "" /\
  destination
    (host true true RespError (false, None))
    (VDict (list_to_map
              [("name", VStr "Fine Tune v2"); ("url", VStr "https://host/dl/7");
               ("filename", VStr "tune.safetensors"); ("path", VStr "models/loras")]))
  = Ok "/app/ComfyUI/models/loras/tune.safetensors".
Proof.
  assert (H1 : (list_to_map
                  [("name", VStr "Fine Tune v2"); ("url", VStr "https://host/dl/7");
                   ("filename", VStr "tune.safetensors"); ("path", VStr "models/loras")]
                 : gmap string value) !! "url" = Some (VStr "https://host/dl/7"))
    by reflexivity.
  assert (H2 : "https://host/dl/7" <> "") by discriminate.
  split; [exact H1|]. split; [exact H2|].
  pose proof (model_destination_by_priority (host true true RespError (false, None))
                _ _ H1 H2) as H.
  cbv zeta in H. destruct H as (Hexplicit & _).
  rewrite (Hexplicit "tune.safetensors"); [reflexivity | reflexivity | discriminate].
Defined.

Section PlanIsKeyed.
Variable lower : string -> string.
Variable field : string.

Lemma add_entry_keeps_keyed source counts entry :
  keeps (fun ps : plan_state => forallb (keyed field) ps.1 = true)
    (add_entry lower field source counts entry).
Proof.
  intros [plan seen] Hplan. unfold add_entry. destruct counts as [added skipped].
  unfold bind, lift, gets, modify, ret. simpl in *.
  destruct (py_get entry field VNone) as [url|e] eqn:Hget; [|done].
  destruct (truthy url) eqn:Hurl; simpl; [|done].
  destruct (py_lower lower url) as [key|e]; simpl; [|done].
  destruct (bool_decide (is_Some (seen !! key))); simpl; [done|].
  rewrite forallb_app, Hplan. simpl.
  destruct entry; try discriminate. simpl in *. injection Hget as <-.
  by rewrite Hurl.
Qed.

Lemma add_entries_keeps_keyed list_name manifest source :
  keeps (fun ps : plan_state => forallb (keyed field) ps.1 = true)
    (add_entries lower list_name field manifest source).
Proof.
  unfold add_entries. apply keeps_bind; [apply keeps_pure|]. intros v.
  apply keeps_bind; [apply keeps_pure|]. intros entries.
  apply keeps_for_each. intros acc x. apply add_entry_keeps_keyed.
Qed.
End PlanIsKeyed.

Section PlansAreKeyed.
Context (P : platform).

Lemma full_add_manifest_keeps_keyed manifest source :
  keeps (fun self => forallb (keyed "url") (Full.models self) = true /\
                     forallb (keyed "repo") (Full.custom_nodes self) = true)
    (Full.add_manifest P manifest source).
Proof.
  unfold Full.add_manifest. destruct (negb (truthy manifest)); [by intros s Hs|].
  apply keeps_bind.
  - intros self [Hm Hn]. unfold zoom.
    pose proof (add_entries_keeps_keyed (str_lower P) "url" "models" manifest source
                  (Full.models_plan self) Hm) as H.
    by destruct (add_entries _ _ _ _ _ _) as [ps r].
  - intros m. apply keeps_bind; [|by intros n s Hs].
    intros self [Hm Hn]. unfold zoom.
    pose proof (add_entries_keeps_keyed (str_lower P) "repo" "custom_nodes" manifest
                  source (Full.nodes_plan self) Hn) as H.
    by destruct (add_entries _ _ _ _ _ _) as [ps r].
Qed.

Lemma full_load_manifests_keyed_plans sources :
  forallb (keyed "url") (Full.models (Full.load_manifests P sources Full.init).1) = true /\
  forallb (keyed "repo") (Full.custom_nodes (Full.load_manifests P sources Full.init).1)
    = true.
Proof.
  apply (keeps_for_each
           (fun self => forallb (keyed "url") (Full.models self) = true /\
                        forallb (keyed "repo") (Full.custom_nodes self) = true));
    [|by split].
  intros totals source. unfold Full.load_one.
  destruct totals as [[[tm tms] tn] tns].
  destruct (truthy (Full.load_manifest P source)); [|by intros s Hs].
  apply keeps_bind; [apply full_add_manifest_keeps_keyed|].
  intros [[[ma ms] na] ns]. by intros s Hs.
Qed.

Lemma portable_add_manifest_keeps_keyed manifest source :
  keeps (fun self => forallb (keyed "url") (Portable.models self) = true)
    (Portable.add_manifest P manifest source).
Proof.
  unfold Portable.add_manifest. destruct (negb (truthy manifest)); [by intros s Hs|].
  intros self Hself. unfold zoom.
  pose proof (add_entries_keeps_keyed (str_lower P) "url" "models" manifest source
                (Portable.models_plan self) Hself) as H.
  by destruct (add_entries _ _ _ _ _ _) as [ps r].
Qed.

Lemma portable_load_manifests_keyed_plan sources :
  forallb (keyed "url")
    (Portable.models (Portable.load_manifests P sources Portable.init).1) = true.
Proof.
  apply (keeps_for_each (fun self => forallb (keyed "url") (Portable.models self) = true));
    [|done].
  intros totals source. unfold Portable.load_one. destruct totals as [tm tms].
  destruct (truthy (Portable.load_manifest P source)); [|by intros s Hs].
  apply keeps_bind; [apply portable_add_manifest_keeps_keyed|].
  intros [ma ms]. by intros s Hs.
Qed.
End PlansAreKeyed.

Lemma keyed_is_dict field ms :
  forallb (keyed field) ms = true -> forallb is_dict ms = true.
Proof.
  rewrite !forallb_forall. intros H m Hm. specialize (H m Hm). by destruct m.
Qed.

Lemma keyed_selection types_filter ms :
  forallb (keyed "url") ms = true ->
  forallb (keyed "url") (selection types_filter ms) = true.
Proof.
  intros Hms. destruct types_filter as [[|t ts]|]; simpl; try done.
  rewrite forallb_forall in *. intros m Hm. apply filter_In in Hm as [Hm _]. auto.
Qed.

Lemma keyed_all_sourced ms :
  forallb (keyed "url") ms = true -> sourced ms = ms /\ unsourced ms = [].
Proof.
  induction ms as [|m ms IH]; [done|]. simpl. intros H.
  apply andb_true_iff in H as [Hm Hms]. destruct (IH Hms) as [Hs Hu].
  unfold sourced, unsourced in *. simpl.
  assert (Ht : truthy (entry_url m) = true) by (by destruct m).
  rewrite Ht. simpl. by rewrite Hs, Hu.
Qed.

Lemma keyed_all_have_repo ns :
  forallb (keyed "repo") ns = true ->
  List.filter (fun n => truthy (entry_repo n)) ns = ns /\
  List.filter (fun n => negb (truthy (entry_repo n))) ns = [].
Proof.
  induction ns as [|n ns IH]; [done|]. simpl. intros H.
  apply andb_true_iff in H as [Hn Hns]. destruct (IH Hns) as [Hs Hu].
  assert (Ht : truthy (entry_repo n) = true) by (by destruct n).
  rewrite Ht. simpl. by rewrite Hs, Hu.
Qed.

Section MainRuns.
Context (P : platform).

Lemma download_models_dry_keyed download_file ms types_filter w :
  forallb (keyed "url") ms = true ->
  download_models P download_file
    (VDict (<["models" := VList ms]> ∅)) types_filter true w
  = (w, Ok (length (selection types_filter ms), 0)).
Proof.
  intros Hk.
  rewrite (download_models_selection P download_file _ ms)
    by (apply lookup_insert_eq || by apply (keyed_is_dict "url")).
  rewrite for_each_dry
    by (apply selection_dicts; by apply (keyed_is_dict "url")).
  destruct (keyed_all_sourced _ (keyed_selection types_filter ms Hk)) as [-> ->].
  reflexivity.
Qed.

Lemma full_combined_models self :
  Full.get_combined_manifest self =
  VDict (<["models" := VList (Full.models self)]>
         (<["custom_nodes" := VList (Full.custom_nodes self)]> ∅)).
Proof. reflexivity. Qed.

Lemma full_download_models_dry self types_filter w :
  forallb (keyed "url") (Full.models self) = true ->
  Full.download_models P (Full.get_combined_manifest self) types_filter true w
  = (w, Ok (length (selection types_filter (Full.models self)), 0)).
Proof.
  intros Hk. unfold Full.download_models, Full.get_combined_manifest.
  rewrite (download_models_selection P _ _ (Full.models self))
    by (apply lookup_insert_eq || by apply (keyed_is_dict "url")).
  rewrite for_each_dry
    by (apply selection_dicts; by apply (keyed_is_dict "url")).
  destruct (keyed_all_sourced _ (keyed_selection types_filter _ Hk)) as [-> ->].
  reflexivity.
Qed.

Lemma full_install_nodes_dry self w :
  forallb (keyed "repo") (Full.custom_nodes self) = true ->
  Full.install_custom_nodes P (Full.get_combined_manifest self) true w
  = (w, Ok (length (Full.custom_nodes self), 0)).
Proof.
  intros Hk. unfold Full.get_combined_manifest.
  rewrite (install_custom_nodes_dry P _ (Full.custom_nodes self))
    by (by rewrite lookup_insert_ne, lookup_insert_eq
        || by apply (keyed_is_dict "repo")).
  by destruct (keyed_all_have_repo _ Hk) as [-> ->].
Qed.

Lemma portable_download_models_dry self types_filter w :
  forallb (keyed "url") (Portable.models self) = true ->
  Portable.download_models P (Portable.get_combined_manifest self) types_filter true w
  = (w, Ok (length (selection types_filter (Portable.models self)), 0)).
Proof.
  intros Hk. unfold Portable.download_models, Portable.get_combined_manifest.
  by apply download_models_dry_keyed.
Qed.

Lemma full_main_dry a w plan t :
  Full.dry_run a = true -> Full.list_mode a = false ->
  Full.models_only a && Full.nodes_only a = false ->
  Full.load_manifests P (Full.manifests a) Full.init = (plan, Ok t) ->
  Full.main P a w =
  (w, Ok (Report 0
            (Some ((if Full.nodes_only a then 0
                    else length (selection (Full.types a) (Full.models plan)))
                   + (if Full.models_only a then 0
                      else length (Full.custom_nodes plan)), 0)))).
Proof.
  intros Hdry Hlist Hflags Hload.
  destruct (full_load_manifests_keyed_plans P (Full.manifests a)) as [Hm Hn].
  rewrite Hload in Hm, Hn. simpl in Hm, Hn.
  unfold Full.main. rewrite Hflags, Hload, Hlist, Hdry. unfold bind.
  destruct (Full.nodes_only a), (Full.models_only a); try discriminate;
    cbn [negb]; unfold ret; cbn beta iota;
    rewrite ?full_download_models_dry by done; cbn beta iota;
    rewrite ?full_install_nodes_dry by done;
    cbn [fst snd]; rewrite ?Nat.add_0_r; reflexivity.
Qed.

Lemma portable_main_dry a w plan t :
  Portable.dry_run a = true -> Portable.list_mode a = false ->
  Portable.load_manifests P (Portable.manifests a) Portable.init = (plan, Ok t) ->
  Portable.main P a w =
  (w, Ok (Report 0
            (Some (length (selection (Portable.types a) (Portable.models plan)), 0)))).
Proof.
  intros Hdry Hlist Hload.
  pose proof (portable_load_manifests_keyed_plan P (Portable.manifests a)) as Hm.
  rewrite Hload in Hm. simpl in Hm.
  unfold Portable.main. rewrite Hload, Hlist, Hdry. unfold bind.
  by rewrite portable_download_models_dry.
Qed.

Lemma full_main_leaves_world a w :
  Full.list_mode a || Full.dry_run a = true -> (Full.main P a w).1 = w.
Proof.
  intros Hmode.
  destruct (Full.models_only a && Full.nodes_only a) eqn:Hflags;
    [unfold Full.main; by rewrite Hflags|].
  destruct (Full.load_manifests P (Full.manifests a) Full.init) as [plan [t|e]] eqn:Hload;
    [|unfold Full.main; by rewrite Hflags, Hload].
  destruct (Full.list_mode a) eqn:Hlist;
    [unfold Full.main; by rewrite Hflags, Hload, Hlist|].
  simpl in Hmode. by rewrite (full_main_dry a w plan t).
Qed.

Lemma portable_main_leaves_world a w :
  Portable.list_mode a || Portable.dry_run a = true -> (Portable.main P a w).1 = w.
Proof.
  intros Hmode.
  destruct (Portable.load_manifests P (Portable.manifests a) Portable.init)
    as [plan [t|e]] eqn:Hload;
    [|unfold Portable.main; by rewrite Hload].
  destruct (Portable.list_mode a) eqn:Hlist;
    [unfold Portable.main; by rewrite Hload, Hlist|].
  simpl in Hmode. by rewrite (portable_main_dry a w plan t).
Qed.
End MainRuns.

(** X18.  A dry run cannot fail and touches nothing.  Whatever the
    manifests hold, with [--dry-run] (and likewise with [--list]) the
    file system and the trace are left as they were.  When the manifests
    merge, the dry run reports every selected model and every node as
    succeeded and none as failed, and exits with status 0: entries
    without a source never reach the plan, so the failure count of a dry
    run is always zero. *)
Theorem dry_run_never_fails (P : platform) :
  (forall a w plan t,
     Full.dry_run a = true -> Full.list_mode a = false ->
     Full.models_only a && Full.nodes_only a = false ->
     Full.load_manifests P (Full.manifests a) Full.init = (plan, Ok t) ->
     Full.main P a w =
     (w, Ok (Report 0
               (Some ((if Full.nodes_only a then 0
                       else length (selection (Full.types a) (Full.models plan)))
                      + (if Full.models_only a then 0
                         else length (Full.custom_nodes plan)), 0))))) /\
  (forall a w plan t,
     Portable.dry_run a = true -> Portable.list_mode a = false ->
     Portable.load_manifests P (Portable.manifests a) Portable.init = (plan, Ok t) ->
     Portable.main P a w =
     (w, Ok (Report 0
               (Some (length (selection (Portable.types a) (Portable.models plan)),
                      0))))) /\
  (forall a w, Full.list_mode a || Full.dry_run a = true -> (Full.main P a w).1 = w) /\
  (forall a w,
     Portable.list_mode a || Portable.dry_run a = true -> (Portable.main P a w).1 = w).
Proof.
  split; [|split; [|split]].
  - intros a w plan t. apply full_main_dry.
  - intros a w plan t. apply portable_main_dry.
  - intros a w. apply full_main_leaves_world.
  - intros a w. apply portable_main_leaves_world.
Qed.

Lemma dry_run_never_fails_witness :
  Full.load_manifests (offline gap_source) ["gap.json"] Full.init
  = ((Full.load_manifests (offline gap_source) ["gap.json"] Full.init).1,
     Ok (2, 0, 0, 0)) /\
  Full.main (offline gap_source)
    (Full.Args ["gap.json"] (Some ["lora"]) false false false true) (world_with [])
  = (world_with [], Ok (Report 0 (Some (1, 0)))).
Proof.
  assert (Hload : Full.load_manifests (offline gap_source) ["gap.json"] Full.init
                  = ((Full.load_manifests (offline gap_source) ["gap.json"] Full.init).1,
                     Ok (2, 0, 0, 0))) by (vm_compute; reflexivity).
  split; [exact Hload|].
  destruct (dry_run_never_fails (offline gap_source)) as (Hfull & _).
  rewrite (Hfull (Full.Args ["gap.json"] (Some ["lora"]) false false false true)
             (world_with []) _ _ eq_refl eq_refl eq_refl Hload).
  vm_compute. reflexivity.
Defined.

Section Accounting.
Context (P : platform).

Lemma download_models_counts download_file d ms types_filter dry_run w w' s f :
  d !! "models" = Some (VList ms) ->
  forallb is_dict ms = true ->
  download_models P download_file (VDict d) types_filter dry_run w = (w', Ok (s, f)) ->
  s + f = length (selection types_filter ms).
Proof.
  intros Hd Hms Hrun.
  rewrite (download_models_selection P download_file d ms) in Hrun by done.
  pose proof (selection_dicts types_filter ms Hms) as Hsel.
  destruct dry_run.
  - rewrite for_each_dry in Hrun by done. injection Hrun as _ <- <-.
    unfold sourced, unsourced. simpl.
    pose proof (List.filter_length (fun m => truthy (entry_url m))
                  (selection types_filter ms)) as Hlen.
    simpl in Hlen. lia.
  - apply (for_each_real_counts P download_file _ _ _ _ _ _ _ Hsel) in Hrun. lia.
Qed.

Lemma install_node_counts_one dry_run success_count fail_count n w w1 c1 :
  Full.install_node P dry_run (success_count, fail_count) n w = (w1, Ok c1) ->
  c1 = (S success_count, fail_count) \/ c1 = (success_count, S fail_count).
Proof.
  unfold Full.install_node, bind, lift.
  destruct (py_get n "name" (VStr "Unknown")) as [name|e]; [|discriminate].
  destruct (py_get n "repo" VNone) as [repo|e]; [|discriminate].
  destruct (py_get n "path" (VStr "custom_nodes")) as [rel|e]; [|discriminate].
  destruct (negb (truthy repo)); [intros [= <- <-]; auto|].
  destruct dry_run; [intros [= <- <-]; auto|].
  destruct (Full.node_dest_path P name rel) as [dest|e]; [|discriminate].
  destruct (Full.clone_repo P repo dest w) as [w' [[|]|e]];
    [intros [= <- <-]; auto | intros [= <- <-]; auto | discriminate].
Qed.

Lemma for_each_install_counts dry_run ns : forall success_count fail_count w w' s f,
  for_each (Full.install_node P dry_run) ns (success_count, fail_count) w
    = (w', Ok (s, f)) ->
  s + f = success_count + fail_count + length ns.
Proof.
  induction ns as [|n ns IH]; intros sc fc w w' s f Hrun.
  - simpl in Hrun. injection Hrun as _ <- <-. simpl. lia.
  - rewrite for_each_cons in Hrun.
    destruct (Full.install_node P dry_run (sc, fc) n w) as [w1 [c1|e]] eqn:Hstep;
      [|discriminate].
    apply install_node_counts_one in Hstep as [-> | ->];
      apply IH in Hrun; simpl; lia.
Qed.

Lemma install_custom_nodes_counts d ns dry_run w w' s f :
  d !! "custom_nodes" = Some (VList ns) ->
  Full.install_custom_nodes P (VDict d) dry_run w = (w', Ok (s, f)) ->
  s + f = length ns.
Proof.
  intros Hd. unfold Full.install_custom_nodes, bind, lift. simpl. rewrite Hd. simpl.
  destruct ns as [|n ns]; [by intros [= _ <- <-]|].
  intros Hrun. apply for_each_install_counts in Hrun. lia.
Qed.

Lemma full_main_accounts a w w' r plan t :
  Full.load_manifests P (Full.manifests a) Full.init = (plan, Ok t) ->
  Full.list_mode a = false ->
  Full.models_only a && Full.nodes_only a = false ->
  Full.main P a w = (w', Ok r) ->
  exists s f,
    totals r = Some (s, f) /\
    s + f = (if Full.nodes_only a then 0
             else length (selection (Full.types a) (Full.models plan)))
            + (if Full.models_only a then 0 else length (Full.custom_nodes plan)) /\
    exit_code r = exit_status f.
Proof.
  intros Hload Hlist Hflags.
  destruct (full_load_manifests_keyed_plans P (Full.manifests a)) as [Hm _].
  rewrite Hload in Hm. simpl in Hm. apply (keyed_is_dict "url") in Hm.
  unfold Full.main. rewrite Hflags, Hload, Hlist. unfold bind.
  assert (Hmodels : forall w0 w1 s f,
            Full.download_models P (Full.get_combined_manifest plan)
              (Full.types a) (Full.dry_run a) w0 = (w1, Ok (s, f)) ->
            s + f = length (selection (Full.types a) (Full.models plan))).
  { intros w0 w1 s f. apply download_models_counts; [apply lookup_insert_eq | done]. }
  assert (Hnodes : forall w0 w1 s f,
            Full.install_custom_nodes P (Full.get_combined_manifest plan)
              (Full.dry_run a) w0 = (w1, Ok (s, f)) ->
            s + f = length (Full.custom_nodes plan)).
  { intros w0 w1 s f. apply install_custom_nodes_counts.
    by rewrite lookup_insert_ne, lookup_insert_eq. }
  destruct (Full.nodes_only a), (Full.models_only a); try discriminate;
    cbn [negb]; unfold ret; cbn beta iota.
  - destruct (Full.install_custom_nodes _ _ _ w) as [w1 [[s f]|e]] eqn:Hn;
      [|discriminate].
    intros [= _ <-]. exists (0 + s), (0 + f). cbn [totals exit_code fst snd].
    apply Hnodes in Hn. repeat split; lia.
  - destruct (Full.download_models _ _ _ _ w) as [w1 [[s f]|e]] eqn:Hmr;
      [|discriminate].
    cbn beta iota. intros [= _ <-]. exists (s + 0), (f + 0).
    cbn [totals exit_code fst snd]. apply Hmodels in Hmr. repeat split; lia.
  - destruct (Full.download_models _ _ _ _ w) as [w1 [[s f]|e]] eqn:Hmr;
      [|discriminate].
    cbn beta iota.
    destruct (Full.install_custom_nodes _ _ _ w1) as [w2 [[s2 f2]|e]] eqn:Hn;
      [|discriminate].
    intros [= _ <-]. exists (s + s2), (f + f2). cbn [totals exit_code fst snd].
    apply Hmodels in Hmr. apply Hnodes in Hn. repeat split; lia.
Qed.

Lemma portable_main_accounts a w w' r plan t :
  Portable.load_manifests P (Portable.manifests a) Portable.init = (plan, Ok t) ->
  Portable.list_mode a = false ->
  Portable.main P a w = (w', Ok r) ->
  exists s f,
    totals r = Some (s, f) /\
    s + f = length (selection (Portable.types a) (Portable.models plan)) /\
    exit_code r = exit_status f.
Proof.
  intros Hload Hlist.
  pose proof (portable_load_manifests_keyed_plan P (Portable.manifests a)) as Hm.
  rewrite Hload in Hm. simpl in Hm. apply (keyed_is_dict "url") in Hm.
  unfold Portable.main. rewrite Hload, Hlist. unfold bind.
  destruct (Portable.download_models _ _ _ _ w) as [w1 [[s f]|e]] eqn:Hmr;
    [|discriminate].
  intros [= _ <-]. exists s, f. cbn [totals exit_code].
  unfold Portable.download_models, Portable.get_combined_manifest in Hmr.
  apply (download_models_counts _ _ (Portable.models plan)) in Hmr;
    [|apply lookup_insert_eq | done].
  by repeat split.
Qed.
End Accounting.

(** X19.  The final summary accounts for every plan entry exactly once.
    When a run (real or dry) gets to its summary, succeeded plus failed
    is the number of selected models plus the number of custom nodes
    (each part only if the options do not skip it), and the exit status
    is 0 when nothing failed and 1 otherwise. *)
Theorem summary_counts_every_plan_entry (P : platform) :
  (forall a w w' r plan t,
     Full.load_manifests P (Full.manifests a) Full.init = (plan, Ok t) ->
     Full.list_mode a = false ->
     Full.models_only a && Full.nodes_only a = false ->
     Full.main P a w = (w', Ok r) ->
     exists s f,
       totals r = Some (s, f) /\
       s + f = (if Full.nodes_only a then 0
                else length (selection (Full.types a) (Full.models plan)))
               + (if Full.models_only a then 0 else length (Full.custom_nodes plan)) /\
       exit_code r = (if Nat.eqb f 0 then 0 else 1)%Z) /\
  (forall a w w' r plan t,
     Portable.load_manifests P (Portable.manifests a) Portable.init = (plan, Ok t) ->
     Portable.list_mode a = false ->
     Portable.main P a w = (w', Ok r) ->
     exists s f,
       totals r = Some (s, f) /\
       s + f = length (selection (Portable.types a) (Portable.models plan)) /\
       exit_code r = (if Nat.eqb f 0 then 0 else 1)%Z).
Proof.
  split.
  - intros a w w' r plan t. apply full_main_accounts.
  - intros a w w' r plan t. apply portable_main_accounts.
Qed.

Lemma summary_counts_every_plan_entry_witness :
  Full.load_manifests (offline gap_source) ["gap.json"] Full.init
  = ((Full.load_manifests (offline gap_source) ["gap.json"] Full.init).1,
     Ok (2, 0, 0, 0)) /\
  Full.main (offline gap_source)
    (Full.Args ["gap.json"] None false false false false) (world_with [])
  = ((Full.main (offline gap_source)
        (Full.Args ["gap.json"] None false false false false) (world_with [])).1,
     Ok (Report 1 (Some (0, 2)))) /\
  exists s f, totals (Report 1 (Some (0, 2))) = Some (s, f) /\ s + f = 2 + 0.
Proof.
  assert (Hload : Full.load_manifests (offline gap_source) ["gap.json"] Full.init
                  = ((Full.load_manifests (offline gap_source) ["gap.json"] Full.init).1,
                     Ok (2, 0, 0, 0))) by (vm_compute; reflexivity).
  assert (Hmain : Full.main (offline gap_source)
                    (Full.Args ["gap.json"] None false false false false) (world_with [])
                  = ((Full.main (offline gap_source)
                        (Full.Args ["gap.json"] None false false false false)
                        (world_with [])).1,
                     Ok (Report 1 (Some (0, 2))))) by (vm_compute; reflexivity).
  split; [exact Hload|]. split; [exact Hmain|].
  destruct (summary_counts_every_plan_entry (offline gap_source)) as (Hfull & _).
  destruct (Hfull (Full.Args ["gap.json"] None false false false false) (world_with [])
              _ _ _ _ Hload eq_refl eq_refl Hmain) as (s & f & Ht & Hsum & _).
  exists s, f. split; [exact Ht | exact Hsum].
Defined.

Section RunnerFootprint.
Context (P : platform) (download_file : value -> string -> value -> Py world bool)
        (Q : event -> Prop).
Hypothesis Hdf : forall url dest_path expected_hash,
  footprint Q (fun p => p = dest_path) (download_file url dest_path expected_hash).

Lemma download_model_footprint dry_run counts m :
  footprint Q (fun p => destination P m = Ok p)
    (download_model P download_file dry_run counts m).
Proof.
  unfold download_model. destruct counts as [sc fc].
  apply footprint_bind_lift. intros name Hname.
  apply footprint_bind_lift. intros url Hurl.
  apply footprint_bind_lift. intros rel Hrel.
  apply footprint_bind_lift. intros eh _.
  apply footprint_bind_lift. intros ty _.
  destruct (negb (truthy url)); [apply footprint_ret|].
  destruct dry_run; [apply footprint_ret|].
  apply footprint_bind_lift. intros dest Hdest.
  apply footprint_bind; [|intros [|]; apply footprint_ret].
  apply (footprint_weaken Q Q (fun p => p = dest)); [done | | apply Hdf].
  intros p ->. unfold destination. by rewrite Hname, Hurl, Hrel.
Qed.

Lemma for_each_download_footprint dry_run ms : forall counts,
  footprint Q (destinations P ms)
    (for_each (download_model P download_file dry_run) ms counts).
Proof.
  apply footprint_for_each. intros acc m Hm.
  apply (footprint_weaken Q Q (fun p => destination P m = Ok p));
    [done | | apply download_model_footprint].
  intros p Hp. by exists m.
Qed.

Lemma download_models_footprint d ms types_filter dry_run :
  d !! "models" = Some (VList ms) ->
  forallb is_dict ms = true ->
  footprint Q (destinations P (selection types_filter ms))
    (download_models P download_file (VDict d) types_filter dry_run).
Proof.
  intros Hd Hms w.
  rewrite (download_models_selection P download_file d ms) by done.
  apply for_each_download_footprint.
Qed.

Lemma download_models_events manifest types_filter dry_run :
  footprint Q (fun _ => True)
    (download_models P download_file manifest types_filter dry_run).
Proof.
  unfold download_models. apply footprint_bind_lift. intros models _.
  destruct models as [|m ms]; [apply footprint_ret|].
  apply (footprint_weaken Q Q (destinations P (m :: ms)));
    [done | done | apply for_each_download_footprint].
Qed.
End RunnerFootprint.

Lemma full_download_event_kind P url dest_path ev :
  full_download_event P url dest_path ev -> is_clone ev = false /\ is_curl ev = false.
Proof.
  unfold full_download_event. rewrite !elem_of_cons, elem_of_nil.
  intros [->|[->|[->|[->|[->|[->|[]]]]]]]; by split.
Qed.

Lemma portable_download_event_kind P url dest_path ev :
  portable_download_event P url dest_path ev -> is_clone ev = false.
Proof.
  unfold portable_download_event. rewrite !elem_of_cons, elem_of_nil.
  by intros [->|[->|[->|[->|[->|[->|[->|[]]]]]]]].
Qed.

Lemma clone_event_kind P repo_url dest_path ev :
  clone_event P repo_url dest_path ev -> clone_kind ev = true.
Proof.
  unfold clone_event. rewrite !elem_of_cons, elem_of_nil.
  by intros [->|[->|[->|[]]]].
Qed.

Section ProgramFootprints.
Context (P : platform).

Lemma full_download_file_kind url dest_path expected_hash :
  footprint (fun ev => is_clone ev = false /\ is_curl ev = false)
    (fun p => p = dest_path) (Full.download_file P url dest_path expected_hash).
Proof.
  eapply footprint_weaken; [| |apply full_download_footprint]; [|done].
  intros ev. apply full_download_event_kind.
Qed.

Lemma portable_download_file_kind url dest_path expected_hash :
  footprint (fun ev => is_clone ev = false)
    (fun p => p = dest_path) (Portable.download_file P url dest_path expected_hash).
Proof.
  eapply footprint_weaken; [| |apply portable_download_footprint]; [|done].
  intros ev. apply portable_download_event_kind.
Qed.
End ProgramFootprints.

(** X20.  A run changes no file outside the destinations of the models
    it selected.  For every plan and type filter, in dry and in real
    runs, when the directories of the selected models' destinations are
    in place, [download_models] leaves every path that is not the
    destination of a selected model as it was.  It never runs git, and
    the full program never runs curl either. *)
Theorem download_models_changes_destinations_only (P : platform)
    (d : gmap string value) (ms : list value) (types_filter : option (list string))
    (dry_run : bool) (w : world) :
  d !! "models" = Some (VList ms) ->
  forallb is_dict ms = true ->
  (forall m p, m ∈ selection types_filter ms -> destination P m = Ok p ->
     parent_exists P p w) ->
  let full := Full.download_models P (VDict d) types_filter dry_run w in
  let portable := Portable.download_models P (VDict d) types_filter dry_run w in
  (forall p, ~ destinations P (selection types_filter ms) p ->
     fs full.1 !! p = fs w !! p /\ fs portable.1 !! p = fs w !! p) /\
  interacts (fun ev => is_clone ev = false /\ is_curl ev = false)
    (Full.download_models P (VDict d) types_filter dry_run) /\
  interacts (fun ev => is_clone ev = false)
    (Portable.download_models P (VDict d) types_filter dry_run).
Proof.
  intros Hd Hms _ full portable.
  assert (Hfull : footprint (fun ev => is_clone ev = false /\ is_curl ev = false)
                    (destinations P (selection types_filter ms))
                    (Full.download_models P (VDict d) types_filter dry_run)).
  { apply download_models_footprint; [|done..]. apply full_download_file_kind. }
  assert (Hport : footprint (fun ev => is_clone ev = false)
                    (destinations P (selection types_filter ms))
                    (Portable.download_models P (VDict d) types_filter dry_run)).
  { apply download_models_footprint; [|done..]. apply portable_download_file_kind. }
  split; [|split].
  - intros p Hp. split; [by apply (Hfull w) | by apply (Hport w)].
  - apply (footprint_interacts _ _ _ Hfull).
  - apply (footprint_interacts _ _ _ Hport).
Qed.

Lemma download_models_changes_destinations_only_witness :
  tuned_plan !! "models" = Some (VList [model_no_url; model_tuned]) /\
  forallb is_dict [model_no_url; model_tuned] = true /\
  (forall m p, m ∈ selection (Some ["lora"]) [model_no_url; model_tuned] ->
     destination (with_parents (host true true RespError (false, None))) m = Ok p ->
     parent_exists (with_parents (host true true RespError (false, None))) p loras_dir) /\
  forall p,
    ~ destinations (with_parents (host true true RespError (false, None)))
        (selection (Some ["lora"]) [model_no_url; model_tuned]) p ->
    fs (Portable.download_models (with_parents (host true true RespError (false, None)))
          (VDict tuned_plan) (Some ["lora"]) false loras_dir).1 !! p
    = fs loras_dir !! p.
Proof.
  assert (H1 : tuned_plan !! "models" = Some (VList [model_no_url; model_tuned]))
    by reflexivity.
  assert (H2 : forallb is_dict [model_no_url; model_tuned] = true) by reflexivity.
  assert (H3 : forall m p,
            m ∈ selection (Some ["lora"]) [model_no_url; model_tuned] ->
            destination (with_parents (host true true RespError (false, None))) m = Ok p ->
            parent_exists (with_parents (host true true RespError (false, None))) p
              loras_dir).
  { intros m p Hm Hp. change (m ∈ [model_no_url; model_tuned]) in Hm.
    apply elem_of_cons in Hm as [-> | Hm]; [discriminate|].
    apply elem_of_cons in Hm as [-> | Hm]; [|by apply elem_of_nil in Hm].
    injection Hp as <-. reflexivity. }
  split; [exact H1|]. split; [exact H2|]. split; [exact H3|].
  pose proof (download_models_changes_destinations_only
                (with_parents (host true true RespError (false, None))) tuned_plan _
                (Some ["lora"]) false loras_dir H1 H2 H3) as H.
  cbv zeta in H. destruct H as (Hframe & _). intros p Hp. apply (Hframe p Hp).
Defined.

Section NodeFootprint.
Context (P : platform).

Lemma install_node_footprint dry_run counts n :
  footprint (fun ev => clone_kind ev = true) (fun _ => True)
    (Full.install_node P dry_run counts n).
Proof.
  unfold Full.install_node. destruct counts as [sc fc].
  apply footprint_bind_lift. intros name _.
  apply footprint_bind_lift. intros repo _.
  apply footprint_bind_lift. intros rel _.
  destruct (negb (truthy repo)); [apply footprint_ret|].
  destruct dry_run; [apply footprint_ret|].
  apply footprint_bind_lift. intros dest _.
  apply footprint_bind; [|intros [|]; apply footprint_ret].
  eapply footprint_weaken; [| |apply clone_repo_footprint]; [|done].
  intros ev. apply clone_event_kind.
Qed.

Lemma install_custom_nodes_footprint manifest dry_run :
  footprint (fun ev => clone_kind ev = true) (fun _ => True)
    (Full.install_custom_nodes P manifest dry_run).
Proof.
  unfold Full.install_custom_nodes.
  apply footprint_bind_lift. intros v _.
  apply footprint_bind_lift. intros nodes _.
  destruct nodes as [|n ns]; [apply footprint_ret|].
  apply footprint_for_each. intros acc x _. apply install_node_footprint.
Qed.

Lemma full_main_models_only a :
  Full.models_only a = true ->
  footprint (fun ev => is_clone ev = false /\ is_curl ev = false) (fun _ => True)
    (Full.main P a).
Proof.
  intros Hmo. unfold Full.main. rewrite Hmo.
  destruct (Full.nodes_only a); [apply footprint_ret|]. cbn [andb negb].
  destruct (Full.load_manifests P (Full.manifests a) Full.init) as [plan [t|e]];
    [|apply footprint_raise].
  destruct (Full.list_mode a); [apply footprint_ret|].
  apply footprint_bind.
  - apply (download_models_events P (Full.download_file P) _ (full_download_file_kind P)).
  - intros m. apply footprint_bind; [apply footprint_ret | intros n; apply footprint_ret].
Qed.

Lemma full_main_nodes_only a :
  Full.nodes_only a = true ->
  footprint (fun ev => clone_kind ev = true) (fun _ => True) (Full.main P a).
Proof.
  intros Hno. unfold Full.main. rewrite Hno.
  destruct (Full.models_only a); [apply footprint_ret|].
  cbn [andb negb].
  destruct (Full.load_manifests P (Full.manifests a) Full.init) as [plan [t|e]];
    [|apply footprint_raise].
  destruct (Full.list_mode a); [apply footprint_ret|].
  apply footprint_bind; [apply footprint_ret | intros m].
  apply footprint_bind; [apply install_custom_nodes_footprint |].
  intros n. apply footprint_ret.
Qed.

Lemma portable_main_never_clones a :
  footprint (fun ev => is_clone ev = false) (fun _ => True) (Portable.main P a).
Proof.
  unfold Portable.main.
  destruct (Portable.load_manifests P (Portable.manifests a) Portable.init)
    as [plan [t|e]]; [|apply footprint_raise].
  destruct (Portable.list_mode a); [apply footprint_ret|].
  apply footprint_bind.
  - apply (download_models_events P (Portable.download_file P) _
             (portable_download_file_kind P)).
  - intros [s f]. apply footprint_ret.
Qed.
End NodeFootprint.

(** X21.  Models and nodes are handled apart.  All that installing custom
    nodes does itself is create parent directories, look whether
    destinations exist and run git commands: it calls no download
    transport and reads, opens and unlinks no file.  So a run with
    [--nodes-only] downloads nothing, a run with [--models-only] never
    runs git (nor curl, in the full program), and the portable program
    never runs git at all. *)
Theorem options_keep_models_and_nodes_apart (P : platform) :
  (forall manifest dry_run,
     interacts (fun ev => clone_kind ev = true)
       (Full.install_custom_nodes P manifest dry_run)) /\
  (forall a, Full.nodes_only a = true ->
     interacts (fun ev => clone_kind ev = true) (Full.main P a)) /\
  (forall a, Full.models_only a = true ->
     interacts (fun ev => is_clone ev = false /\ is_curl ev = false) (Full.main P a)) /\
  (forall a, interacts (fun ev => is_clone ev = false) (Portable.main P a)).
Proof.
  split; [|split; [|split]].
  - intros manifest dry_run.
    apply (footprint_interacts _ _ _ (install_custom_nodes_footprint P manifest dry_run)).
  - intros a Hno. apply (footprint_interacts _ _ _ (full_main_nodes_only P a Hno)).
  - intros a Hmo. apply (footprint_interacts _ _ _ (full_main_models_only P a Hmo)).
  - intros a. apply (footprint_interacts _ _ _ (portable_main_never_clones P a)).
Qed.

Lemma options_keep_models_and_nodes_apart_witness :
  Full.nodes_only (Full.Args ["gap.json"] None false true false false) = true /\
  interacts (fun ev => clone_kind ev = true)
    (Full.main (offline gap_source) (Full.Args ["gap.json"] None false true false false)).
Proof.
  split; [reflexivity|].
  destruct (options_keep_models_and_nodes_apart (offline gap_source))
    as (_ & Hnodes & _).
  exact (Hnodes (Full.Args ["gap.json"] None false true false false) eq_refl).
Defined.

Section AbortedRuns.
Context (P : platform) (download_file : value -> string -> value -> Py world bool).

Lemma download_model_no_destination success_count fail_count m e w :
  keyed "url" m = true -> destination P m = Raise e ->
  download_model P download_file false (success_count, fail_count) m w = (w, Raise e).
Proof. intros Hk Hd. by rewrite download_model_real, Hd. Qed.

Lemma for_each_stops {S A B} (body : B -> A -> Py S B) pre x post e :
  (forall acc s, body acc x s = (s, Raise e)) ->
  forall acc s,
    for_each body (pre ++ x :: post) acc s =
    match for_each body pre acc s with
    | (s1, Ok _) => (s1, Raise e)
    | (s1, Raise e1) => (s1, Raise e1)
    end.
Proof.
  intros Hx acc s. rewrite for_each_app.
  destruct (for_each body pre acc s) as [s1 [acc1|e1]]; [|reflexivity].
  by rewrite for_each_cons, Hx.
Qed.
End AbortedRuns.

(** X22.  One entry without a destination ends a real run.  When the
    destination of a model cannot be formed (its [path] or [filename] is
    not a string, or its [name] is not one when the file name has to come
    from it), the exception escapes [download_models]: the models before
    it have been handled, those after it are never attempted, and no
    counts are returned.  A dry run does not notice: it counts the entry
    as succeeded. *)
Theorem model_without_destination_ends_run (P : platform)
    (download_file : value -> string -> value -> Py world bool)
    (d : gmap string value) (pre post : list value) (bad : value) (e : exn)
    (w : world) :
  d !! "models" = Some (VList (pre ++ bad :: post)) ->
  forallb is_dict (pre ++ bad :: post) = true ->
  keyed "url" bad = true ->
  destination P bad = Raise e ->
  download_models P download_file (VDict d) None false w =
    match for_each (download_model P download_file false) pre (0, 0) w with
    | (w1, Ok _) => (w1, Raise e)
    | (w1, Raise e1) => (w1, Raise e1)
    end /\
  download_models P download_file (VDict d) None true w =
    (w, Ok (length (sourced pre) + 1 + length (sourced post),
            length (unsourced pre) + length (unsourced post))).
Proof.
  intros Hd Hdicts Hk Hdest. split.
  - rewrite (download_models_selection P download_file d (pre ++ bad :: post)) by done.
    cbn [selection]. apply for_each_stops. intros [sc fc] w0.
    by apply download_model_no_destination.
  - rewrite (download_models_selection P download_file d (pre ++ bad :: post)) by done.
    cbn [selection]. rewrite for_each_dry by done.
    assert (Hu : truthy (entry_url bad) = true) by (by destruct bad).
    unfold sourced, unsourced. rewrite !List.filter_app. cbn [List.filter].
    rewrite Hu. cbn [negb]. rewrite !length_app. cbn [length].
    do 3 f_equal; lia.
Qed.

Lemma model_without_destination_ends_run_witness :
  plan_with_bad_path !! "models"
    = Some (VList ([model_no_url] ++ model_bad_path :: [model_lora])) /\
  forallb is_dict ([model_no_url] ++ model_bad_path :: [model_lora]) = true /\
  keyed "url" model_bad_path = true /\
  destination (offline no_manifest) model_bad_path = Raise TypeError /\
  Full.download_models (offline no_manifest) (VDict plan_with_bad_path) None false
    (world_with []) = (world_with [], Raise TypeError) /\
  Full.download_models (offline no_manifest) (VDict plan_with_bad_path) None true
    (world_with []) = (world_with [], Ok (2, 1)).
Proof.
  assert (H1 : plan_with_bad_path !! "models"
               = Some (VList ([model_no_url] ++ model_bad_path :: [model_lora])))
    by reflexivity.
  assert (H2 : forallb is_dict ([model_no_url] ++ model_bad_path :: [model_lora]) = true)
    by reflexivity.
  assert (H3 : keyed "url" model_bad_path = true) by reflexivity.
  assert (H4 : destination (offline no_manifest) model_bad_path = Raise TypeError)
    by reflexivity.
  split; [exact H1|]. split; [exact H2|]. split; [exact H3|]. split; [exact H4|].
  destruct (model_without_destination_ends_run (offline no_manifest)
              (Full.download_file (offline no_manifest)) plan_with_bad_path
              [model_no_url] [model_lora] model_bad_path TypeError (world_with [])
              H1 H2 H3 H4) as [Hreal Hdry].
  split; [exact Hreal | exact Hdry].
Defined.

Lemma py_eq_str_not_a_string s v :
  (forall s', v <> VStr s') -> py_eq_str s v = false.
Proof. intros Hv. destruct v; try reflexivity. by destruct (Hv s0). Qed.

(** X23.  [verify_hash] needs a file and only ever reads.  On a path
    that does not exist it raises [FileNotFoundError], on a directory
    [IsADirectoryError]; an expected digest that is not a string is
    never matched (the answer is [False], not an error).  In every case
    its one interaction is the read, and the file system is left as it
    was. *)
Theorem verify_hash_needs_a_file (P : platform) (file_path : string)
    (expected_hash : value) (w : world) :
  let out := verify_hash P file_path expected_hash w in
  out.1 = World (fs w) (trace w ++ [EvRead file_path]) /\
  (fs w !! file_path = None -> out.2 = Raise FileNotFoundError) /\
  (fs w !! file_path = Some Dir -> out.2 = Raise IsADirectoryError) /\
  (forall data, fs w !! file_path = Some (File data) ->
     (forall s, expected_hash <> VStr s) -> out.2 = Ok false).
Proof.
  intros out. subst out. destruct w as [fs0 tr0]. rewrite verify_hash_run.
  cbn [fst snd fs trace]. split; [reflexivity|]. repeat split.
  - by intros ->.
  - by intros ->.
  - intros data -> Hv. by rewrite py_eq_str_not_a_string.
Qed.

Lemma verify_hash_needs_a_file_witness :
  fs (world_with []) !! "gone.bin" = None /\
  verify_hash (offline no_manifest) "gone.bin" (VStr "abc") (world_with [])
  = (World ∅ [EvRead "gone.bin"], Raise FileNotFoundError).
Proof.
  assert (H : fs (world_with []) !! "gone.bin" = None) by reflexivity.
  split; [exact H|].
  pose proof (verify_hash_needs_a_file (offline no_manifest) "gone.bin" (VStr "abc")
                (world_with [])) as Hv.
  cbv zeta in Hv. destruct Hv as (Hw & Hnone & _).
  specialize (Hnone H).
  destruct (verify_hash (offline no_manifest) "gone.bin" (VStr "abc") (world_with []))
    as [w' r].
  simpl in Hw, Hnone. by rewrite Hw, Hnone.
Defined.

Lemma read_blocks_count n : 0 < n -> forall fuel data,
  length data <= fuel * n ->
  length (read_blocks fuel n data) = (length data + n - 1) / n.
Proof.
  intros Hn. induction fuel as [|fuel IH]; intros data Hfuel.
  - simpl in *. destruct data; [|simpl in Hfuel; lia]. simpl.
    symmetry. apply Nat.div_small. lia.
  - cbn [read_blocks]. destruct (take n data) as [|b bs] eqn:Htake.
    + assert (data = []) as ->.
      { destruct data as [|x data]; [done|]. destruct n; [lia | discriminate]. }
      simpl. symmetry. apply Nat.div_small. lia.
    + cbn [length]. rewrite IH by (rewrite length_drop; simpl in Hfuel; lia).
      rewrite length_drop.
      destruct (decide (length data <= n)) as [Hle|Hgt].
      * assert (length data <> 0).
        { intros H0. apply length_zero_iff_nil in H0. subst data.
          by rewrite take_nil in Htake. }
        replace (length data - n + n - 1) with (length data - n + (n - 1)) by lia.
        replace (length data - n) with 0 by lia. simpl.
        rewrite Nat.div_small by lia.
        apply (Nat.div_unique _ _ 1 (length data - 1)); lia.
      * replace (length data + n - 1) with ((length data - n + n - 1) + 1 * n) by lia.
        rewrite Nat.div_add by lia. lia.
Qed.

(** X24.  The number of reads [verify_hash] needs.  A file of [n] bytes
    is hashed in the smallest number of 4096-byte blocks that hold it,
    [(n + 4095) / 4096]: the loop stops at the first empty read, and an
    empty file feeds the digest nothing. *)
Theorem verify_hash_reads_ceiling_blocks (data : list Byte.byte) :
  length (read_blocks (length data) 4096 data) = (length data + 4095) / 4096 /\
  (data = [] <-> read_blocks (length data) 4096 data = []).
Proof.
  split.
  - rewrite read_blocks_count by lia.
    replace (length data + 4096 - 1) with (length data + 4095) by lia. reflexivity.
  - split; [by intros ->|].
    intros Hnil.
    assert (Hpos : 0 < 4096) by lia.
    pose proof (read_blocks_concat 4096 Hpos (length data) data (le_n _)) as Hc.
    by rewrite Hnil in Hc.
Qed.
